(** * server_init: the task execution engine of [main.py]

    A shallow embedding of the workflow driver of [src/main.py]: the command
    runner, the completion markers and the run journal, the task registry and
    selector, the execution safety policy and [main] itself, followed by the
    properties of the specification that concern them.

    Conventions of the embedding.
    - A Python [str] is a Rocq [string] holding its UTF-8 bytes; the string
      methods ([strip], [lower], [isdigit], [int], ...) are modelled on their
      ASCII behaviour: on ASCII text they are the methods of Python.
    - A [pathlib.Path] is a record of an absolute flag and its components.
    - The host (platform, environment, spawned processes, network, menus,
      the [json] and [re] libraries) is a record of functions, [Host].
    - Effects are threaded through a state-and-exception monad over [World]:
      the file system, the remaining lines of standard input, a clock and a
      trace of the observable events in the order they happen.
    - The file system maps the components of an absolute path to a directory
      or to a file with its bytes.  The operations fail where the ones of
      [pathlib] do for a missing parent, a directory in the place of a file
      or bytes that are not UTF-8; permissions, links and [..] are not
      modelled.
    - What the runner writes through its open log handle is kept in the
      trace, as [LogWrite] events, not in the file system: the content of
      the command log is no part of [fs].
    - Standard input is a finite list of lines; after the last one [input]
      raises [EOFError]. *)

From Stdlib Require Import ZArith Ascii String List.
From stdpp Require Import gmap strings list fin_maps sorting pretty.

Local Open Scope Z_scope.

(** ** Python strings *)

Module Py.

Definition code (c : ascii) : N := N_of_ascii c.

Definition squote : ascii := "'"%char.
Definition dquote : ascii := "034"%char.
Definition backslash : ascii := "\"%char.
Definition nl : string := String "010"%char "".
Definition dq : string := String dquote "".

Definition str_of_bool (b : bool) : string := if b then "True" else "False".

(** [str.isspace] on the ASCII range. *)
Definition is_space (c : ascii) : bool :=
  let n := code c in
  ((9 <=? n) && (n <=? 13) || (28 <=? n) && (n <=? 32))%N.

Fixpoint lstrip (s : string) : string :=
  match s with
  | String c s' => if is_space c then lstrip s' else s
  | EmptyString => EmptyString
  end.
Definition rstrip (s : string) : string := String.rev (lstrip (String.rev s)).
Definition strip (s : string) : string := rstrip (lstrip s).

Definition lower_char (c : ascii) : ascii :=
  let n := code c in
  if ((65 <=? n) && (n <=? 90))%N then ascii_of_N (n + 32) else c.
Fixpoint lower (s : string) : string :=
  match s with
  | String c s' => String (lower_char c) (lower s')
  | EmptyString => EmptyString
  end.

(** [s.split(sep)] for a separator of one character. *)
Fixpoint split (sep : ascii) (s : string) : list string :=
  match s with
  | EmptyString => [EmptyString]
  | String c s' =>
      if decide (c = sep) then EmptyString :: split sep s'
      else match split sep s' with
           | h :: t => String c h :: t
           | [] => [String c EmptyString]
           end
  end.

(** [sep.join(l)] *)
Fixpoint join (sep : string) (l : list string) : string :=
  match l with
  | [] => ""
  | [x] => x
  | x :: l' => x +:+ sep +:+ join sep l'
  end.

Fixpoint startswith (p s : string) : bool :=
  match p, s with
  | EmptyString, _ => true
  | String a p', String b s' => if decide (a = b) then startswith p' s' else false
  | String _ _, EmptyString => false
  end.
Definition endswith (p s : string) : bool :=
  startswith (String.rev p) (String.rev s).

(** [sub in s] *)
Fixpoint contains (sub s : string) : bool :=
  startswith sub s ||
  match s with
  | String _ s' => contains sub s'
  | EmptyString => false
  end.

Fixpoint has_char (c : ascii) (s : string) : bool :=
  match s with
  | String a s' => if decide (a = c) then true else has_char c s'
  | EmptyString => false
  end.

Definition is_digit (c : ascii) : bool :=
  let n := code c in ((48 <=? n) && (n <=? 57))%N.
Fixpoint all_chars (p : ascii -> bool) (s : string) : bool :=
  match s with
  | String c s' => p c && all_chars p s'
  | EmptyString => true
  end.
(** [s.isdigit()] *)
Definition isdigit (s : string) : bool :=
  match s with EmptyString => false | _ => all_chars is_digit s end.
(** [int(s)] for a string of digits *)
Fixpoint int_acc (acc : Z) (s : string) : Z :=
  match s with
  | String c s' => int_acc (10 * acc + Z.of_N (code c - 48)) s'
  | EmptyString => acc
  end.
Definition int (s : string) : Z := int_acc 0 s.

(** [s.splitlines()]: the line boundaries of the ASCII range. *)
Definition is_linebreak (c : ascii) : bool :=
  let n := code c in
  ((10 <=? n) && (n <=? 13) || (28 <=? n) && (n <=? 30))%N.
Fixpoint splitlines_go (cur : string) (s : string) : list string :=
  match s with
  | EmptyString => match cur with EmptyString => [] | _ => [String.rev cur] end
  | String c s' =>
      if decide (c = "013"%char) then
        match s' with
        | String "010"%char s'' => String.rev cur :: splitlines_go "" s''
        | _ => String.rev cur :: splitlines_go "" s'
        end
      else if is_linebreak c then String.rev cur :: splitlines_go "" s'
      else splitlines_go (String c cur) s'
  end.
Definition splitlines (s : string) : list string := splitlines_go "" s.

(** [s.replace(old, new)] for [old] of one character *)
Fixpoint replace_char (old : ascii) (new : string) (s : string) : string :=
  match s with
  | String c s' =>
      (if decide (c = old) then new else String c "") +:+ replace_char old new s'
  | EmptyString => EmptyString
  end.

(** [repr(s)]: printable ASCII as it is, the quote chosen as Python does;
    bytes above 127 are left as they are. *)
Definition hex_digit (n : N) : ascii :=
  if (n <? 10)%N then ascii_of_N (48 + n) else ascii_of_N (87 + n).
Definition repr_char (q : ascii) (c : ascii) : string :=
  let n := code c in
  if decide (c = q) then String backslash (String c "")
  else if decide (c = backslash) then String backslash (String backslash "")
  else if (n =? 9)%N then String backslash "t"
  else if (n =? 10)%N then String backslash "n"
  else if (n =? 13)%N then String backslash "r"
  else if ((n <? 32) || (n =? 127))%N then
    String backslash (String "x"%char
      (String (hex_digit (n / 16)) (String (hex_digit (n mod 16)) "")))
  else String c "".
Fixpoint repr_body (q : ascii) (s : string) : string :=
  match s with
  | String c s' => repr_char q c +:+ repr_body q s'
  | EmptyString => EmptyString
  end.
Definition repr (s : string) : string :=
  let q := if has_char squote s && negb (has_char dquote s) then dquote else squote in
  String q (repr_body q s +:+ String q "").
(** [repr] of a list of [str], as an f-string prints it. *)
Definition repr_list (l : list string) : string :=
  "[" +:+ join ", " (repr <$> l) +:+ "]".

(** [shlex.quote] and [shlex.join] *)
Definition shlex_safe (c : ascii) : bool :=
  let n := code c in
  ((48 <=? n) && (n <=? 57) || (65 <=? n) && (n <=? 90)
   || (97 <=? n) && (n <=? 122))%N
  || bool_decide (c ∈ ["_"; "@"; "%"; "+"; "="; ":"; ","; "."; "/"; "-"]%char).
Definition shlex_quote (s : string) : string :=
  match s with
  | EmptyString => String squote (String squote "")
  | _ =>
      if all_chars shlex_safe s then s
      else
        let esc := String squote (String dquote (String squote
                     (String dquote (String squote "")))) in
        String squote (replace_char squote esc s +:+ String squote "")
  end.
Definition shlex_join (l : list string) : string := join " " (shlex_quote <$> l).

(** [bytes.decode("utf-8", errors=...)]: [None] stands for
    [UnicodeDecodeError]; with [ignore] the offending bytes are dropped. *)
Definition cont (c : ascii) : bool :=
  let n := code c in ((128 <=? n) && (n <=? 191))%N.
Definition lead2 (n0 : N) : bool := ((194 <=? n0) && (n0 <=? 223))%N.
Definition lead3 (n0 n1 : N) : bool :=
  ((n0 =? 224) && (160 <=? n1) && (n1 <=? 191)
   || (225 <=? n0) && (n0 <=? 236) && (128 <=? n1) && (n1 <=? 191)
   || (n0 =? 237) && (128 <=? n1) && (n1 <=? 159)
   || (238 <=? n0) && (n0 <=? 239) && (128 <=? n1) && (n1 <=? 191))%N.
Definition lead4 (n0 n1 : N) : bool :=
  ((n0 =? 240) && (144 <=? n1) && (n1 <=? 191)
   || (241 <=? n0) && (n0 <=? 243) && (128 <=? n1) && (n1 <=? 191)
   || (n0 =? 244) && (128 <=? n1) && (n1 <=? 143))%N.

Fixpoint decode_utf8 (ignore : bool) (s : string) : option string :=
  match s with
  | EmptyString => Some EmptyString
  | String b0 t =>
      let n0 := code b0 in
      let bad := if ignore then decode_utf8 ignore t else None in
      if (n0 <? 128)%N then String b0 <$> decode_utf8 ignore t
      else
        match t with
        | String b1 t1 =>
            let n1 := code b1 in
            if lead2 n0 then
              if cont b1 then
                (fun r => String b0 (String b1 r)) <$> decode_utf8 ignore t1
              else bad
            else
              match t1 with
              | String b2 t2 =>
                  if lead3 n0 n1 then
                    if cont b2 then
                      (fun r => String b0 (String b1 (String b2 r)))
                        <$> decode_utf8 ignore t2
                    else bad
                  else
                    match t2 with
                    | String b3 t3 =>
                        if lead4 n0 n1 && cont b2 && cont b3 then
                          (fun r => String b0 (String b1 (String b2 (String b3 r))))
                            <$> decode_utf8 ignore t3
                        else bad
                    | EmptyString => bad
                    end
              | EmptyString => bad
              end
        | EmptyString => bad
        end
  end.

End Py.

(** ** [pathlib.Path] *)

Record Path := mkPath { absolute : bool; parts : list string }.

Global Instance Path_eq_dec : EqDecision Path.
Proof. solve_decision. Defined.

Module PathOps.

(** [pathlib.Path(s)]: empty and [.] components are dropped. *)
Definition of_string (s : string) : Path :=
  {| absolute := Py.startswith "/" s;
     parts := filter (fun x => x <> "" /\ x <> ".") (Py.split "/"%char s) |}.

(** [str(p)] *)
Definition to_string (p : Path) : string :=
  if absolute p then "/" +:+ Py.join "/" (parts p)
  else match parts p with [] => "." | _ => Py.join "/" (parts p) end.

(** [p / q] *)
Definition join (p q : Path) : Path :=
  if absolute q then q
  else {| absolute := absolute p; parts := parts p ++ parts q |}.
Definition div (p : Path) (s : string) : Path := join p (of_string s).

(** [p.parent] and [p.name] *)
Definition parent (p : Path) : Path :=
  {| absolute := absolute p; parts := removelast (parts p) |}.
Definition name (p : Path) : string := List.last (parts p) "".

End PathOps.

Notation "p // s" := (PathOps.div p s) (at level 40, left associativity).

(** ** Data definitions *)

Module Context.
Definition ROOT : string := "root".
Definition EXISTING_USER : string := "user".
Definition LOCAL : string := "local".
End Context.

Definition CONTEXT_OPTIONS : list string :=
  ["Server setup in root"; "Server setup in existing user"; "Local setup"].

Definition CONTEXT_VALUE_BY_INDEX : gmap Z string :=
  <[2 := Context.LOCAL]> (<[1 := Context.EXISTING_USER]> (<[0 := Context.ROOT]> ∅)).

Definition CONTEXT_INDEX_BY_VALUE : gmap string Z :=
  map_fold (fun k v acc => <[v := k]> acc) ∅ CONTEXT_VALUE_BY_INDEX.

Record TaskDefinition := mkTask { key : string; title : string; description : string }.

Global Instance TaskDefinition_eq_dec : EqDecision TaskDefinition.
Proof. solve_decision. Defined.

Definition TASKS : list TaskDefinition :=
  [ mkTask "os" "OS settings (hostname + user)" "Manage hostname and users";
    mkTask "ssh" "SSH setup" "Populate authorised keys and secure SSH";
    mkTask "zsh" "Customized zsh" "Install zsh, plugins, and dotfiles";
    mkTask "conda" "Miniconda" "Install Miniconda and base environment";
    mkTask "git" "Git setup" "Configure git identity" ].

(** [{task.key: idx for idx, task in enumerate(TASKS)}] *)
Definition TASK_INDEX_BY_KEY : gmap string Z :=
  foldl (fun acc it => <[key it.2 := Z.of_nat it.1]> acc) ∅
        (imap (fun idx task => (idx, task)) TASKS).

Definition DEFAULTS_BY_CONTEXT : gmap string (list Z) :=
  <[Context.LOCAL := [TASK_INDEX_BY_KEY !!! "zsh"; TASK_INDEX_BY_KEY !!! "conda"]]>
  (<[Context.EXISTING_USER :=
       [TASK_INDEX_BY_KEY !!! "ssh"; TASK_INDEX_BY_KEY !!! "zsh";
        TASK_INDEX_BY_KEY !!! "conda"]]>
  (<[Context.ROOT :=
       [TASK_INDEX_BY_KEY !!! "os"; TASK_INDEX_BY_KEY !!! "ssh";
        TASK_INDEX_BY_KEY !!! "zsh"; TASK_INDEX_BY_KEY !!! "conda"]]> ∅)).

Record OSInfo := mkOSInfo { os_name : string; os_version : string }.

Record PathsConfig := mkPaths {
  home_dir : Path;
  ssh_authorized_keys : Path;
  zshrc : Path;
  p10k : Path;
  data_dirs : list Path }.

Module ExecutionOptions.
Record t := mk { dry_run : bool; sudo_allowed : bool; force : bool; auto_confirm : bool }.
End ExecutionOptions.

Definition MARKER_DIR_NAME : string := ".server_init_markers".

(** The parsed command line ([argparse.Namespace]). *)
Module Args.
Record t := mk {
  context : option string;
  tasks : option string;
  yes : bool;
  dry_run : bool;
  force : bool;
  log_file : option Path;
  no_menu : bool;
  resume_state : option Path;
  write_state : option Path }.
End Args.

(** Python's sequence indexing: negative indices count from the end, anything
    out of range is an [IndexError] ([None]). *)
Definition py_index {A} (l : list A) (i : Z) : option A :=
  let n := Z.of_nat (length l) in
  if decide (0 <= i < n) then l !! Z.to_nat i
  else if decide (- n <= i < 0) then l !! Z.to_nat (n + i)
  else None.

(** [l.index(x)] *)
Fixpoint list_index `{EqDecision A} (x : A) (l : list A) : option nat :=
  match l with
  | [] => None
  | y :: l' => if decide (y = x) then Some 0%nat else S <$> list_index x l'
  end.

(** ** The world and the host *)

Inductive Exn :=
| SystemExit (msg : string)
| RuntimeError (msg : string)
| EOFError
| OSError (errname : string) (filename : string)
| UnicodeDecodeError
| IndexError
| KeyError
| TypeError
| ValueError (msg : string).

Definition exn_str (e : Exn) : string :=
  match e with
  | SystemExit m | RuntimeError m | ValueError m => m
  | EOFError => ""
  | OSError n f => n +:+ ": " +:+ f
  | UnicodeDecodeError => "'utf-8' codec can't decode"
  | IndexError => "tuple index out of range"
  | KeyError => "KeyError"
  | TypeError => "TypeError"
  end.

Inductive Node := Dir | File (content : string).

(** The file system, keyed by the components of absolute paths. *)
Abbreviation FS := (gmap (list string) Node).

(** The observable events of a run, in the order they happen.  [Invoke] is a
    ghost event: it marks the call of a task implementation by the driver. *)
Inductive Event :=
| Print (text : string)
| Prompt (text : string)
| Menu (menu_title : string)
| LogWrite (text : string)
| Spawn (argv : list string)
| Fetch (url : string)
| Invoke (task_key : string).

Record World := mkWorld {
  fs : FS;
  stdin : list string;
  clock : nat;
  log_open : bool;
  trace : list Event }.

Inductive SpawnResult :=
| Exited (returncode : Z) (out err : string) (fs' : FS)
| SpawnError (e : Exn).

Inductive UrlResult :=
| Response (status : Z) (body : string)
| URLError (reason : string)
| UrlFailure (e : Exn).

(** Everything the program asks of its environment and of the libraries it
    calls.
    - [platform_*], [getuser], [geteuid] ([None] where [os] has no
      [geteuid]), [environ], [getcwd], [path_home] ([Path.home()]) and
      [script_dir] (the directory of the script) describe the machine.
    - [which] is [shutil.which] on the current files; [subprocess_run] is
      [subprocess.run] on an argv, a working directory, the full environment
      and the current files, and answers with the status, the captured
      output and the files as the process left them, or with the exception
      of a process that could not be started.
    - [urlopen] is the fetch of [fetch_github_keys].
    - [strftime] and [isoformat] render a reading of the clock.
    - [json_loads] is [json.loads], [None] standing for [JSONDecodeError];
      [json_dumps] is [json.dumps(_, indent=2, sort_keys=True)].  A journal
      is a [gmap string bool], as the annotation [dict[str, bool]] of the
      source has it: documents that decode to anything else are outside the
      model.
    - [icon_pattern_search] and [icon_pattern_sub] are [search] and [sub] of
      the compiled pattern of [task_custom_zsh] in the [re] library.
    - [menu_show] and [multi_menu_show] are the answers of the operator to
      [TerminalMenu.show], [None] when the menu is cancelled. *)
Class Host := {
  platform_system : string;
  platform_version : string;
  platform_machine : string;
  platform_node : string;
  getuser : string;
  geteuid : option Z;
  environ : gmap string string;
  getcwd : Path;
  path_home : Path;
  script_dir : Path;
  which : string -> FS -> option string;
  subprocess_run : list string -> option Path -> gmap string string -> FS -> SpawnResult;
  urlopen : string -> UrlResult;
  strftime : string -> nat -> string;
  isoformat : nat -> string;
  json_loads : string -> option (gmap string bool);
  json_dumps : gmap string bool -> string;
  icon_pattern_search : string -> bool;
  icon_pattern_sub : string -> string -> string;
  menu_show : list string -> string -> Z -> option Z;
  multi_menu_show : list string -> string -> list Z -> option (list Z) }.

(** ** The monad of effects *)

Inductive Res (A : Type) := Ok (a : A) | Raise (e : Exn).
Arguments Ok {A} a.
Arguments Raise {A} e.

Definition M (A : Type) : Type := World -> Res A * World.

Global Instance M_ret : MRet M := fun A a w => (Ok a, w).
Global Instance M_bind : MBind M := fun A B f m w =>
  match m w with
  | (Ok a, w') => f a w'
  | (Raise e, w') => (Raise e, w')
  end.

Definition raise {A} (e : Exn) : M A := fun w => (Raise e, w).

(** [try: m except <the exceptions h accepts>: ...] *)
Definition try_except {A} (m : M A) (h : Exn -> option (M A)) : M A := fun w =>
  match m w with
  | (Ok a, w') => (Ok a, w')
  | (Raise e, w') => match h e with Some k => k w' | None => (Raise e, w') end
  end.

(** [try: m finally: f] *)
Definition try_finally {A} (m : M A) (f : M unit) : M A := fun w =>
  match m w with
  | (r, w') =>
      match f w' with
      | (Ok _, w'') => (r, w'')
      | (Raise e, w'') => (Raise e, w'')
      end
  end.

Definition emit (e : Event) : M unit := fun w =>
  (Ok tt, mkWorld (fs w) (stdin w) (clock w) (log_open w) (trace w ++ [e])).
Definition print (s : string) : M unit := emit (Print s).

Definition get_fs : M FS := fun w => (Ok (fs w), w).
Definition put_fs (f : FS) : M unit := fun w =>
  (Ok tt, mkWorld f (stdin w) (clock w) (log_open w) (trace w)).
Definition set_stdin (l : list string) : M unit := fun w =>
  (Ok tt, mkWorld (fs w) l (clock w) (log_open w) (trace w)).
Definition set_log_open (b : bool) : M unit := fun w =>
  (Ok tt, mkWorld (fs w) (stdin w) (clock w) b (trace w)).

(** [_dt.datetime.now()]: reading the clock lets time pass. *)
Definition now : M nat := fun w =>
  (Ok (clock w), mkWorld (fs w) (stdin w) (S (clock w)) (log_open w) (trace w)).

(** [input(prompt)] *)
Definition input (prompt : string) : M string := fun w =>
  match stdin w with
  | [] => (emit (Prompt prompt) ;; raise EOFError) w
  | l :: rest => (emit (Prompt prompt) ;; set_stdin rest ;; mret l) w
  end.

(** A [while True] loop that calls [input(prompt)] once in every iteration:
    [on_line] returns [None] to go round again.  The recursion is on the
    lines that remain on standard input. *)
Fixpoint input_loop_on {A} (prompt : string) (on_eof : M A)
    (on_line : string -> M (option A)) (lines : list string) : M A :=
  match lines with
  | [] => emit (Prompt prompt) ;; on_eof
  | l :: rest =>
      emit (Prompt prompt) ;; set_stdin rest ;;
      r ← on_line l;
      match r with
      | Some a => mret a
      | None => input_loop_on prompt on_eof on_line rest
      end
  end.
Definition input_loop {A} (prompt : string) (on_eof : M A)
    (on_line : string -> M (option A)) : M A :=
  fun w => input_loop_on prompt on_eof on_line (stdin w) w.

(** [for x in l: f(x)] *)
Fixpoint for_each {A} (l : list A) (f : A -> M unit) : M unit :=
  match l with
  | [] => mret tt
  | x :: l' => f x ;; for_each l' f
  end.

Definition when (b : bool) (m : M unit) : M unit := if b then m else mret tt.

(** Pure computations that can raise. *)
Global Instance Res_ret : MRet Res := fun A a => Ok a.
Global Instance Res_bind : MBind Res := fun A B f r =>
  match r with Ok a => f a | Raise e => Raise e end.
Global Instance Res_fmap : FMap Res := fun A B f r =>
  match r with Ok a => Ok (f a) | Raise e => Raise e end.
Definition lift {A} (r : Res A) : M A := fun w => (r, w).
Definition or_raise {A} (e : Exn) (o : option A) : Res A :=
  match o with Some a => Ok a | None => Raise e end.

Fixpoint map_r {A B} (f : A -> Res B) (l : list A) : Res (list B) :=
  match l with
  | [] => Ok []
  | x :: l' => y ← f x; ys ← map_r f l'; mret (y :: ys)
  end.
Fixpoint map_m {A B} (f : A -> M B) (l : list A) : M (list B) :=
  match l with
  | [] => mret []
  | x :: l' => y ← f x; ys ← map_m f l'; mret (y :: ys)
  end.

(** ** The file system *)

Definition locate `{Host} (p : Path) : list string :=
  if absolute p then parts p else parts getcwd ++ parts p.

Definition node_at (f : FS) (k : list string) : option Node :=
  match k with [] => Some Dir | _ => f !! k end.

Definition parent_is_dir (f : FS) (k : list string) : bool :=
  match node_at f (removelast k) with Some Dir => true | _ => false end.

(** [p.exists()] *)
Definition path_exists `{Host} (p : Path) : M bool :=
  f ← get_fs; mret (bool_decide (is_Some (node_at f (locate p)))).

Fixpoint mkdir_from (pre rest : list string) (f : FS) : option FS :=
  match rest with
  | [] => Some f
  | x :: rest' =>
      let k := pre ++ [x] in
      match f !! k with
      | Some Dir => mkdir_from k rest' f
      | Some (File _) => None
      | None => mkdir_from k rest' (<[k := Dir]> f)
      end
  end.

(** [p.mkdir(parents=True, exist_ok=True)] *)
Definition mkdir `{Host} (p : Path) : M unit :=
  f ← get_fs;
  match mkdir_from [] (locate p) f with
  | Some f' => put_fs f'
  | None => raise (OSError "FileExistsError" (PathOps.to_string p))
  end.

(** [p.touch(exist_ok=True)] *)
Definition touch `{Host} (p : Path) : M unit :=
  f ← get_fs;
  let k := locate p in
  match node_at f k with
  | Some _ => mret tt
  | None =>
      if parent_is_dir f k then put_fs (<[k := File ""]> f)
      else raise (OSError "FileNotFoundError" (PathOps.to_string p))
  end.

(** Writing [text] through [p.open("w")] or [p.open("a")]. *)
Definition write_file `{Host} (append : bool) (p : Path) (text : string) : M unit :=
  f ← get_fs;
  let k := locate p in
  match node_at f k with
  | Some Dir => raise (OSError "IsADirectoryError" (PathOps.to_string p))
  | Some (File c) => put_fs (<[k := File (if append then c +:+ text else text)]> f)
  | None =>
      if parent_is_dir f k then put_fs (<[k := File text]> f)
      else raise (OSError "FileNotFoundError" (PathOps.to_string p))
  end.
Definition write_text `{Host} (p : Path) (text : string) : M unit :=
  write_file false p text.
Definition append_text `{Host} (p : Path) (text : string) : M unit :=
  write_file true p text.

(** [p.read_text(encoding="utf-8", errors=...)] *)
Definition read_text `{Host} (ignore : bool) (p : Path) : M string :=
  f ← get_fs;
  match node_at f (locate p) with
  | Some (File c) =>
      match Py.decode_utf8 ignore c with
      | Some s => mret s
      | None => raise UnicodeDecodeError
      end
  | Some Dir => raise (OSError "IsADirectoryError" (PathOps.to_string p))
  | None => raise (OSError "FileNotFoundError" (PathOps.to_string p))
  end.

(** [shutil.copy2(src, dst)] *)
Definition copy2 `{Host} (src dst : Path) : M unit :=
  f ← get_fs;
  let dst' := match node_at f (locate dst) with
              | Some Dir => PathOps.div dst (PathOps.name src)
              | _ => dst
              end in
  match node_at f (locate src) with
  | Some (File c) =>
      if decide (locate src = locate dst')
      then raise (OSError "SameFileError" (PathOps.to_string src))
      else write_text dst' c
  | Some Dir => raise (OSError "IsADirectoryError" (PathOps.to_string src))
  | None => raise (OSError "FileNotFoundError" (PathOps.to_string src))
  end.

(** ** Completion markers *)

Definition task_marker (paths : PathsConfig) (key : string) : Path :=
  home_dir paths // MARKER_DIR_NAME // (key +:+ ".done").

Definition is_task_marked_complete `{Host} (paths : PathsConfig) (key : string) : M bool :=
  path_exists (task_marker paths key).

Definition mark_task_complete `{Host} (paths : PathsConfig) (key : string)
    (options : ExecutionOptions.t) : M unit :=
  let marker := task_marker paths key in
  if ExecutionOptions.dry_run options then
    print ("(dry-run) Would record completion marker at "
             +:+ PathOps.to_string marker +:+ ".")
  else
    mkdir (PathOps.parent marker) ;;
    t ← now;
    write_text marker (isoformat t) ;;
    print ("Recorded completion marker at " +:+ PathOps.to_string marker +:+ ".").

(** ** Helpers *)

Definition detect_os `{Host} : OSInfo := mkOSInfo platform_system platform_version.
Definition detect_arch `{Host} : string := platform_machine.

Definition prompt_yes_no (message : string) (default : bool) (auto_confirm : bool)
    : M bool :=
  if auto_confirm then mret true
  else
    let default_hint := if default then "Y/n" else "y/N" in
    let prompt := message +:+ " [" +:+ default_hint +:+ "] " in
    input_loop prompt
      (print "" ;; mret default)
      (fun line =>
         let answer := Py.lower (Py.strip line) in
         if decide (answer = "") then mret (Some default)
         else if bool_decide (answer ∈ ["y"; "yes"]) then mret (Some true)
         else if bool_decide (answer ∈ ["n"; "no"]) then mret (Some false)
         else print "Please answer yes or no." ;; mret None).

Definition defaults_for_context (context : string) : list Z :=
  default [] (DEFAULTS_BY_CONTEXT !! context).

Definition order_tasks_from_indices (indices : list Z) : Res (list TaskDefinition) :=
  let ordered_keys := key <$> TASKS in
  selected ← map_r (fun i => key <$> or_raise IndexError (py_index TASKS i)) indices;
  let selected_keys : gset string := list_to_set selected in
  map_r (fun k => idx ← or_raise (ValueError "not in list") (list_index k ordered_keys);
                  or_raise IndexError (py_index TASKS (Z.of_nat idx)))
        (filter (fun k => k ∈ selected_keys) ordered_keys).

Definition should_skip (task_key : string) (context : string) : bool :=
  if bool_decide (context = Context.EXISTING_USER) && bool_decide (task_key = "os")
  then true
  else if bool_decide (context = Context.LOCAL) && bool_decide (task_key = "ssh")
  then true
  else false.

(** Truth value of an optional string ([None] and [""] are false). *)
Definition truthy (o : option string) : bool :=
  match o with Some (String _ _) => true | _ => false end.

Definition detect_default_paths `{Host} (context : string) (target_user : option string)
    : PathsConfig :=
  let home := if decide (context = Context.ROOT) then PathOps.of_string "/root"
              else path_home in
  let home :=
    if truthy target_user && bool_decide (context = Context.ROOT)
       && negb (bool_decide (target_user = Some "root"))
    then PathOps.of_string "/home" // default "" target_user
    else home in
  let ssh_keys := home // ".ssh" // "authorized_keys" in
  {| home_dir := home;
     ssh_authorized_keys := ssh_keys;
     zshrc := home // ".zshrc";
     p10k := home // ".p10k.zsh";
     data_dirs := [home // "toolchain"; home // "temp"; home // "workspace"] |}.

Definition confirm_paths_ask (path : Path) (label : string) : M Path :=
  line ← input (label +:+ " [" +:+ PathOps.to_string path +:+ "]: ");
  let value := Py.strip line in
  mret (if decide (value = "") then path else PathOps.of_string value).

Definition confirm_paths (defaults : PathsConfig) (auto_confirm : bool) : M PathsConfig :=
  if auto_confirm then mret defaults
  else
    print (Py.nl +:+ "Review target paths (press ENTER to keep defaults):") ;;
    home ← confirm_paths_ask (home_dir defaults) "Home directory";
    ssh_keys ← confirm_paths_ask (ssh_authorized_keys defaults) "authorized_keys path";
    zshrc' ← confirm_paths_ask (zshrc defaults) ".zshrc path";
    p10k' ← confirm_paths_ask (p10k defaults) ".p10k.zsh path";
    dirs ← map_m (fun it : nat * Path =>
                    confirm_paths_ask it.2 ("Data dir #" +:+ pretty (S it.1)))
                 (imap (fun idx d => (idx, d)) (data_dirs defaults));
    mret (mkPaths home ssh_keys zshrc' p10k' dirs).

(** ** The command runner *)

Record CompletedProcess := mkProc { returncode : Z; stdout : string; stderr : string }.

Module CommandRunner.

Record t := mk { log_file : Path; dry_run : bool; sudo_allowed : bool }.

(** [__init__]: the log file is opened for appending. *)
Definition init `{Host} (log_file : Path) (dry_run sudo_allowed : bool) : M t :=
  append_text log_file "" ;;
  set_log_open true ;;
  mret (mk log_file dry_run sudo_allowed).

Definition close : M unit := set_log_open false.

Definition _write (text : string) : M unit := fun w =>
  if log_open w then emit (LogWrite text) w
  else raise (ValueError "I/O operation on closed file.") w.

(** [sorted((env or {}).keys())] *)
Definition env_keys (env : option (gmap string string)) : list string :=
  merge_sort String.le (elements (dom (default ∅ env))).

Definition spawn `{Host} (cmd_list : list string) (cwd : option Path)
    (env : option (gmap string string)) : M CompletedProcess :=
  f ← get_fs;
  emit (Spawn cmd_list) ;;
  match subprocess_run cmd_list cwd (default ∅ env ∪ environ) f with
  | Exited rc out err f' => put_fs f' ;; mret (mkProc rc out err)
  | SpawnError e => raise e
  end.

Definition run `{Host} (self : t) (command : list string) (sudo : bool)
    (cwd : option Path) (env : option (gmap string string)) (check : bool)
    : M (option CompletedProcess) :=
  t ← now;
  let timestamp := strftime "%Y-%m-%d %H:%M:%S" t in
  cmd_list ← (if sudo then
                if negb (sudo_allowed self)
                then raise (RuntimeError "Attempted to use sudo without permission")
                else mret (["sudo"; "--"] ++ command)
              else mret command);
  let joined := Py.shlex_join cmd_list in
  let cwd_str := match cwd with
                 | Some c => PathOps.to_string c
                 | None => PathOps.to_string getcwd
                 end in
  let keys := env_keys env in
  _write (Py.nl +:+ "[" +:+ timestamp +:+ "] CMD: " +:+ joined +:+ Py.nl) ;;
  _write ("cwd=" +:+ cwd_str +:+ " sudo=" +:+ Py.str_of_bool sudo
            +:+ " env_overrides=" +:+ Py.repr_list keys +:+ Py.nl) ;;
  if dry_run self then
    _write ("(dry-run) Command not executed." +:+ Py.nl) ;;
    mret None
  else
    proc ← spawn cmd_list cwd env;
    _write ("exit_code=" +:+ pretty (returncode proc) +:+ Py.nl) ;;
    when (negb (bool_decide (stdout proc = "")))
         (_write ("--- stdout ---" +:+ Py.nl +:+ stdout proc)) ;;
    when (negb (bool_decide (stderr proc = "")))
         (_write ("--- stderr ---" +:+ Py.nl +:+ stderr proc)) ;;
    if check && negb (bool_decide (returncode proc = 0)) then
      raise (RuntimeError ("Command failed with exit code "
                             +:+ pretty (returncode proc) +:+ ": " +:+ joined))
    else mret (Some proc).

(** The call [runner.run(command, sudo=sudo)] with the other defaults. *)
Definition run_ `{Host} (self : t) (command : list string) (sudo : bool)
    : M (option CompletedProcess) :=
  run self command sudo None None true.

End CommandRunner.

Definition fetch_github_keys `{Host} (username : string) : M (list string) :=
  let url := "https://github.com/" +:+ username +:+ ".keys" in
  emit (Fetch url) ;;
  match urlopen url with
  | Response status body =>
      if negb (bool_decide (status = 200)) then
        print ("Failed to fetch keys for GitHub user '" +:+ username
                 +:+ "' (HTTP " +:+ pretty status +:+ ").") ;;
        mret []
      else
        let data := default "" (Py.decode_utf8 true body) in
        let keys := filter (fun l => l <> "") (Py.strip <$> Py.splitlines data) in
        when (bool_decide (keys = []))
             (print ("No public keys found for GitHub user '" +:+ username +:+ "'.")) ;;
        mret keys
  | URLError reason =>
      print ("Failed to fetch keys for GitHub user '" +:+ username +:+ "': " +:+ reason) ;;
      mret []
  | UrlFailure e => raise e
  end.

(** ** Menu helpers *)

Definition _run_menu `{Host} (options : list string) (title : string) (cursor_index : Z)
    : M Z :=
  emit (Menu title) ;;
  match menu_show options title cursor_index with
  | None => raise (SystemExit "User aborted selection.")
  | Some index => mret index
  end.

Definition _run_multi_menu `{Host} (options : list string) (title : string)
    (preselected : list Z) : M (list Z) :=
  emit (Menu title) ;;
  match multi_menu_show options title preselected with
  | None => raise (SystemExit "User aborted selection.")
  | Some indices => mret indices
  end.

(** ** Task implementations *)

(** [a or b] on strings that may be missing. *)
Definition or_else (a : option string) (b : string) : string :=
  if truthy a then default "" a else b.

Definition task_os_settings `{Host} (runner : CommandRunner.t)
    (options : ExecutionOptions.t) (paths : PathsConfig) : M unit :=
  let auto := ExecutionOptions.auto_confirm options in
  let current_hostname := platform_node in
  print (Py.nl +:+ "[OS settings] Current hostname: " +:+ current_hostname) ;;
  change ← prompt_yes_no "Change hostname?" false auto;
  when change
    (line ← input "New hostname: ";
     let new_hostname := Py.strip line in
     if negb (bool_decide (new_hostname = "")) then
       CommandRunner.run_ runner ["hostnamectl"; "set-hostname"; new_hostname] true ;;
       mret tt
     else print "Hostname unchanged (empty value).") ;;
  let is_root := bool_decide (geteuid = Some 0) in
  let current_user := getuser in
  (if is_root then
     create ← prompt_yes_no "Create a new user account?" true auto;
     when create
       (line ← input "Username for the new account: ";
        let username := Py.strip line in
        if bool_decide (username = "") then
          print "No username provided; skipping user creation."
        else
          sudo_ask ← prompt_yes_no "Grant sudo privileges to the new user?" true auto;
          CommandRunner.run runner ["adduser"; username] true None None false ;;
          when sudo_ask
            (CommandRunner.run_ runner ["usermod"; "-aG"; "sudo"; username] true ;;
             mret tt))
   else
     keep ← prompt_yes_no ("Continue with current user '" +:+ current_user +:+ "'?")
                          true auto;
     when (negb keep)
       (print "Manual switch to another user is required before rerunning the script.")) ;;
  mark_task_complete paths "os" options.

Definition task_ssh_setup `{Host} (runner : CommandRunner.t)
    (options : ExecutionOptions.t) (paths : PathsConfig) : M unit :=
  let dry := ExecutionOptions.dry_run options in
  let keys_file := ssh_authorized_keys paths in
  print (Py.nl +:+ "[SSH setup] Preparing ~/.ssh/authorized_keys flow.") ;;
  when (negb dry) (mkdir (PathOps.parent keys_file) ;; touch keys_file) ;;
  CommandRunner.run_ runner
    ["chmod"; "700"; PathOps.to_string (PathOps.parent keys_file)] false ;;
  CommandRunner.run_ runner ["chmod"; "600"; PathOps.to_string keys_file] false ;;
  let default_username :=
    or_else (environ !! "GITHUB_USERNAME")
      (or_else (environ !! "GH_USERNAME") (or_else (environ !! "GH_USER") "")) in
  github_username ←
    (if negb (ExecutionOptions.auto_confirm options) then
       let prompt := "GitHub username for SSH keys" in
       let prompt := if bool_decide (default_username = "") then prompt
                     else prompt +:+ " [" +:+ default_username +:+ "]" in
       let prompt := prompt +:+ ": " in
       line ← input prompt;
       let user_input := Py.strip line in
       mret (if bool_decide (user_input = "") then default_username else user_input)
     else if bool_decide (default_username = "") then
       print ("Auto-confirm enabled but no GitHub username provided via environment; "
                +:+ "skipping key download.") ;;
       mret default_username
     else mret default_username);
  (if negb (bool_decide (github_username = "")) then
     keys ← fetch_github_keys github_username;
     when (negb (bool_decide (keys = [])))
       (present ← path_exists keys_file;
        existing_keys ←
          (if (present : bool) then
             existing_content ← read_text true keys_file;
             mret (Py.strip <$>
                     filter (fun line => Py.strip line <> ""
                                         /\ Py.startswith "#" line = false)
                            (Py.splitlines existing_content))
           else mret []);
        let new_keys := filter (fun k => k ∉ existing_keys) keys in
        if bool_decide (new_keys = []) then
          print ("All keys for GitHub user '" +:+ github_username
                   +:+ "' are already present in " +:+ PathOps.to_string keys_file +:+ ".")
        else
          t ← now;
          let timestamp := strftime "%Y-%m-%d %H:%M:%S" t in
          if dry then
            print ("(dry-run) Would append " +:+ pretty (length new_keys)
                     +:+ " keys for '" +:+ github_username +:+ "' to "
                     +:+ PathOps.to_string keys_file +:+ ".")
          else
            append_text keys_file
              (Py.nl +:+ "# GitHub keys for " +:+ github_username +:+ " added "
                 +:+ timestamp +:+ Py.nl
                 +:+ Py.join "" ((fun k => k +:+ Py.nl) <$> new_keys)) ;;
            print ("Added " +:+ pretty (length new_keys)
                     +:+ " keys for GitHub user '" +:+ github_username +:+ "'."))
   else print "No GitHub username provided; skipping public key download.") ;;
  mark_task_complete paths "ssh" options.

Definition palette_cmd : string :=
  "for i in {0..255}; do print -Pn " +:+ Py.dq
    +:+ "%K{$i}  %k%F{$i}${(l:3::0:)i}%f " +:+ Py.dq
    +:+ " ${${(M)$((i%6)):#3}:+$'" +:+ Py.nl +:+ "'}; done".

(** [_prompt_color(default=38)] of [task_custom_zsh] *)
Definition _prompt_color (default : Z) : M Z :=
  input_loop
    ("Enter color id for OS icon foreground [0-255] (default " +:+ pretty default +:+ "): ")
    (raise EOFError)
    (fun line =>
       let raw := Py.strip line in
       if bool_decide (raw = "") then mret (Some default)
       else if Py.isdigit raw && bool_decide (0 <= Py.int raw <= 255)
       then mret (Some (Py.int raw))
       else print "Please enter a number between 0 and 255." ;; mret None).

(** [except Exception]: everything but [SystemExit]. *)
Definition except_Exception {A} (k : Exn -> M A) (e : Exn) : option (M A) :=
  match e with SystemExit _ => None | _ => Some (k e) end.

(** [p.with_suffix(p.suffix + ext)] for [ext] starting with a dot: [ext] is
    appended to the name; a path without a name is a [ValueError]. *)
Definition with_suffix_added (p : Path) (ext : string) : Res Path :=
  match PathOps.name p with
  | EmptyString => Raise (ValueError "has an empty name")
  | n => Ok {| absolute := absolute p; parts := removelast (parts p) ++ [n +:+ ext] |}
  end.

Definition zsh_commands (paths : PathsConfig) : list (list string * bool) :=
  let home := home_dir paths in
  [ (["apt"; "update"], true);
    (["apt"; "install"; "-y"; "zsh"], true);
    (["git"; "clone"; "--depth=1"; "https://github.com/romkatv/powerlevel10k.git";
      PathOps.to_string (home // ".zsh" // "powerlevel10k")], false);
    (["git"; "clone"; "https://github.com/zsh-users/zsh-autosuggestions";
      PathOps.to_string (home // ".zsh" // "zsh-autosuggestions")], false);
    (["git"; "clone"; "https://github.com/zsh-users/zsh-syntax-highlighting.git";
      PathOps.to_string (home // ".zsh" // "zsh-syntax-highlighting")], false);
    (["git"; "clone"; "--depth"; "1"; "https://github.com/junegunn/fzf.git";
      PathOps.to_string (home // "toolchain" // "fzf")], false);
    (["bash"; PathOps.to_string (home // "toolchain" // "fzf" // "install");
      "--all"; "--no-update-rc"], false);
    (["bash"; "-lc";
      "curl -fsSL https://raw.githubusercontent.com/atuinsh/atuin/main/install.sh | bash"],
     false) ].

Definition task_custom_zsh `{Host} (runner : CommandRunner.t)
    (options : ExecutionOptions.t) (paths : PathsConfig) : M unit :=
  let dry := ExecutionOptions.dry_run options in
  print (Py.nl +:+ "[Customized zsh] Installing zsh and plugins (logged only by default).") ;;
  for_each (zsh_commands paths)
    (fun c => CommandRunner.run_ runner c.1 c.2 ;; mret tt) ;;
  let current_shell := default "" (environ !! "SHELL") in
  f ← get_fs;
  let zsh_path := or_else (which "zsh" f) "/usr/bin/zsh" in
  let target_user := or_else (Some (PathOps.name (home_dir paths))) getuser in
  (if Py.endswith "zsh" current_shell && bool_decide (target_user = getuser) then
     print "Default shell already set to zsh; skipping chsh."
   else
     let chsh_cmd := ["chsh"; "-s"; zsh_path] in
     let other := negb (bool_decide (target_user = ""))
                  && negb (bool_decide (target_user = getuser)) in
     let chsh_cmd := if other then chsh_cmd ++ [target_user] else chsh_cmd in
     let sudo_for_chsh := other in
     CommandRunner.run_ runner chsh_cmd sudo_for_chsh ;; mret tt) ;;
  when (negb dry)
    (mkdir (home_dir paths) ;;
     mkdir (home_dir paths // ".zsh") ;;
     for_each (data_dirs paths) mkdir ;;
     let repo_root := script_dir in
     let zshrc_src := repo_root // ".zshrc" in
     let p10k_src := repo_root // ".p10k_simplified_cmt.zsh" in
     has_zshrc ← path_exists zshrc_src;
     when has_zshrc (copy2 zshrc_src (zshrc paths)) ;;
     has_p10k ← path_exists p10k_src;
     when has_p10k (copy2 p10k_src (p10k paths))) ;;
  print (Py.nl +:+ "[Customized zsh] Theme color customization for "
           +:+ "POWERLEVEL9K_OS_ICON_FOREGROUND") ;;
  f ← get_fs;
  (if negb dry && truthy (which "zsh" f) then
     try_except
       (proc ← CommandRunner.run runner ["zsh"; "-ic"; palette_cmd] false None None false;
        match (proc : option CompletedProcess) with
        | Some pr => when (negb (bool_decide (stdout pr = ""))) (print (stdout pr))
        | None => mret tt
        end)
       (except_Exception
          (fun e => print ("Could not display color palette: " +:+ exn_str e)))
   else
     print ("(dry-run or zsh not available) Skipping palette display. "
              +:+ "You can preview later with:") ;;
     print ("  zsh -ic '" +:+ palette_cmd +:+ "'")) ;;
  color_id ← (if negb (ExecutionOptions.auto_confirm options) then _prompt_color 38
              else mret 38);
  let new_line := "typeset -g POWERLEVEL9K_OS_ICON_FOREGROUND=" +:+ pretty color_id
                    +:+ Py.nl in
  has ← path_exists (p10k paths);
  (if (has : bool) then
     if dry then
       print ("(dry-run) Would update " +:+ PathOps.to_string (p10k paths)
                +:+ " with: " +:+ Py.strip new_line)
     else
       t ← now;
       let ts := strftime "%Y%m%d_%H%M%S" t in
       backup ← lift (with_suffix_added (p10k paths) (".bak." +:+ ts));
       try_except (copy2 (p10k paths) backup)
         (except_Exception
            (fun e => print ("Warning: failed to create backup "
                               +:+ PathOps.to_string backup +:+ ": " +:+ exn_str e))) ;;
       content ← read_text false (p10k paths);
       let content :=
         if icon_pattern_search content
         then icon_pattern_sub (Py.strip new_line) content
         else (if Py.endswith Py.nl content then content else content +:+ Py.nl)
                +:+ new_line in
       write_text (p10k paths) content ;;
       print ("Updated " +:+ PathOps.to_string (p10k paths) +:+ " (backup at "
                +:+ PathOps.to_string backup +:+ ").")
   else
     if dry then
       print ("(dry-run) Would create " +:+ PathOps.to_string (p10k paths)
                +:+ " with: " +:+ Py.strip new_line)
     else
       write_text (p10k paths) new_line ;;
       print ("Created " +:+ PathOps.to_string (p10k paths) +:+ " with OS icon color "
                +:+ pretty color_id +:+ ".")) ;;
  print ("Atuin reminder: set sync_address = " +:+ Py.dq +:+ "http://170.9.246.109:11040"
           +:+ Py.dq +:+ " in "
           +:+ PathOps.to_string (home_dir paths // ".config" // "atuin" // "config.toml")
           +:+ " and run 'atuin login' to use PaperL's self-hosted server.") ;;
  mark_task_complete paths "zsh" options.

(** The installer of [task_miniconda] for the platform, or the message of the
    branch that gives up. *)
Definition miniconda_installer_url (system arch : string) : string + string :=
  if bool_decide (system = "Darwin") then
    if bool_decide (arch ∈ ["arm64"; "aarch64"])
    then inl "https://repo.anaconda.com/miniconda/Miniconda3-latest-MacOSX-arm64.sh"
    else inl "https://repo.anaconda.com/miniconda/Miniconda3-latest-MacOSX-x86_64.sh"
  else if bool_decide (system = "Linux") then
    if bool_decide (arch ∈ ["x86_64"; "amd64"])
    then inl "https://repo.anaconda.com/miniconda/Miniconda3-latest-Linux-x86_64.sh"
    else if bool_decide (arch ∈ ["aarch64"; "arm64"])
    then inl "https://repo.anaconda.com/miniconda/Miniconda3-latest-Linux-aarch64.sh"
    else inr ("Unsupported architecture '" +:+ arch +:+ "' for Miniconda on Linux.")
  else inr ("Unsupported OS '" +:+ system +:+ "' for automated Miniconda install.").

(** The three stretches of [task_miniconda]; the first two answer whether the
    function goes on ([false] is one of its early [return]s). *)
Definition miniconda_install `{Host} (runner : CommandRunner.t)
    (options : ExecutionOptions.t) (paths : PathsConfig) (arch : string) : M bool :=
  let prefix := home_dir paths // "toolchain" // "miniconda3" in
  let conda_bin := prefix // "bin" // "conda" in
  present ← path_exists conda_bin;
  if (present : bool) then
    print ("Miniconda already present at " +:+ PathOps.to_string prefix
             +:+ ". Skipping installer.") ;;
    mret true
  else
    match miniconda_installer_url platform_system arch with
    | inr message => print message ;; mret false
    | inl url =>
        let installer := home_dir paths // "miniconda-installer.sh" in
        CommandRunner.run_ runner ["wget"; "-O"; PathOps.to_string installer; url] false ;;
        when (negb (ExecutionOptions.dry_run options))
             (mkdir (home_dir paths // "toolchain")) ;;
        CommandRunner.run_ runner
          ["bash"; PathOps.to_string installer; "-b"; "-p"; PathOps.to_string prefix]
          false ;;
        mret true
    end.

Definition miniconda_environment `{Host} (runner : CommandRunner.t)
    (options : ExecutionOptions.t) (paths : PathsConfig) : M bool :=
  let prefix := home_dir paths // "toolchain" // "miniconda3" in
  let conda_bin := PathOps.to_string (prefix // "bin" // "conda") in
  let env_dir := prefix // "envs" // "py12" in
  present ← path_exists env_dir;
  if (present : bool) then
    print ("Conda environment 'py12' already exists at " +:+ PathOps.to_string env_dir
             +:+ ". Skipping creation.") ;;
    mret true
  else
    let tos_channels := ["https://repo.anaconda.com/pkgs/main";
                         "https://repo.anaconda.com/pkgs/r"] in
    accept_tos ← prompt_yes_no
                   "Accept Anaconda Terms of Service for repo.anaconda.com channels?"
                   true (ExecutionOptions.auto_confirm options);
    if negb accept_tos then
      print ("Cannot proceed with Miniconda environment creation without accepting "
               +:+ "the Terms of Service.") ;;
      mret false
    else
      for_each tos_channels
        (fun channel =>
           if ExecutionOptions.dry_run options then
             print ("(dry-run) Would run: " +:+ conda_bin
                      +:+ " tos accept --override-channels --channel " +:+ channel)
           else
             CommandRunner.run_ runner
               [conda_bin; "tos"; "accept"; "--override-channels"; "--channel"; channel]
               false ;;
             mret tt) ;;
      CommandRunner.run_ runner [conda_bin; "create"; "-y"; "-n"; "py12"; "python=3.12"]
        false ;;
      mret true.

Definition miniconda_activation `{Host} (runner : CommandRunner.t)
    (options : ExecutionOptions.t) (paths : PathsConfig) : M unit :=
  let dry := ExecutionOptions.dry_run options in
  let prefix := home_dir paths // "toolchain" // "miniconda3" in
  let conda_bin := PathOps.to_string (prefix // "bin" // "conda") in
  CommandRunner.run_ runner [conda_bin; "init"; "zsh"] false ;;
  let activation_line := "conda activate py12" in
  present ← path_exists (zshrc paths);
  if (present : bool) then
    existing ← read_text false (zshrc paths);
    when (negb (Py.contains activation_line existing))
      (if dry then
         print ("(dry-run) Would append '" +:+ activation_line +:+ "' to "
                  +:+ PathOps.to_string (zshrc paths) +:+ ".")
       else
         append_text (zshrc paths)
           ((if Py.endswith Py.nl existing then "" else Py.nl)
              +:+ activation_line +:+ Py.nl))
  else
    if dry then
      print ("(dry-run) Would create " +:+ PathOps.to_string (zshrc paths)
               +:+ " with '" +:+ activation_line +:+ "'.")
    else
      mkdir (PathOps.parent (zshrc paths)) ;;
      write_text (zshrc paths) (activation_line +:+ Py.nl) ;;
      print ("Created " +:+ PathOps.to_string (zshrc paths) +:+ " with '"
               +:+ activation_line +:+ "'.").

Definition task_miniconda `{Host} (runner : CommandRunner.t)
    (options : ExecutionOptions.t) (paths : PathsConfig) (arch : string) : M unit :=
  let conda_bin :=
    PathOps.to_string (home_dir paths // "toolchain" // "miniconda3" // "bin" // "conda") in
  print (Py.nl +:+ "[Miniconda] Checking/installing under ~/toolchain/miniconda3.") ;;
  go_on ← miniconda_install runner options paths arch;
  if negb go_on then mret tt
  else
    CommandRunner.run_ runner
      [conda_bin; "config"; "--set"; "auto_activate_base"; "false"] false ;;
    go_on ← miniconda_environment runner options paths;
    if negb go_on then mret tt
    else
      miniconda_activation runner options paths ;;
      mark_task_complete paths "conda" options.

Definition task_git_setup `{Host} (runner : CommandRunner.t)
    (options : ExecutionOptions.t) (paths : PathsConfig) : M unit :=
  print (Py.nl +:+ "[Git setup] Capture git identity (interactive prompts will follow).") ;;
  ident ←
    (if ExecutionOptions.auto_confirm options then
       mret (default "" (environ !! "GIT_AUTHOR_NAME"),
             default "" (environ !! "GIT_AUTHOR_EMAIL"))
     else
       l1 ← input "Git user.name (leave blank to skip): ";
       l2 ← input "Git user.email (leave blank to skip): ";
       mret (Py.strip l1, Py.strip l2));
  let username := (ident : string * string).1 in
  let email := ident.2 in
  when (negb (bool_decide (username = "")))
    (CommandRunner.run_ runner ["git"; "config"; "--global"; "user.name"; username] false ;;
     mret tt) ;;
  when (negb (bool_decide (email = "")))
    (CommandRunner.run_ runner ["git"; "config"; "--global"; "user.email"; email] false ;;
     mret tt) ;;
  mark_task_complete paths "git" options.

(** The values of [TASK_IMPLEMENTATIONS]: most take runner, options and
    paths; the Miniconda task also takes the architecture. *)
Inductive TaskImpl :=
| Impl3 (f : CommandRunner.t -> ExecutionOptions.t -> PathsConfig -> M unit)
| Impl4 (f : CommandRunner.t -> ExecutionOptions.t -> PathsConfig -> string -> M unit).

Definition TASK_IMPLEMENTATIONS `{Host} : gmap string TaskImpl :=
  <["git" := Impl3 task_git_setup]>
  (<["conda" := Impl4 task_miniconda]>
  (<["zsh" := Impl3 task_custom_zsh]>
  (<["ssh" := Impl3 task_ssh_setup]>
  (<["os" := Impl3 task_os_settings]> ∅)))).

(** ** State management *)

Definition load_state `{Host} (path : option Path) : M (gmap string bool) :=
  match path with
  | None => mret ∅
  | Some p =>
      present ← path_exists p;
      if negb present then mret ∅
      else
        text ← read_text false p;
        match json_loads text with
        | Some state => mret state
        | None =>
            print ("Failed to parse state file at " +:+ PathOps.to_string p
                     +:+ "; starting fresh.") ;;
            mret ∅
        end
  end.

Definition save_state `{Host} (path : option Path) (state : gmap string bool) : M unit :=
  match path with
  | None => mret tt
  | Some p => write_text p (json_dumps state)
  end.

(** ** Core workflow *)

Definition resolve_context `{Host} (args : Args.t) (auto_confirm use_menu : bool)
    : M string :=
  let value := if truthy (Args.context args) then default "" (Args.context args)
               else Context.ROOT in
  if Args.no_menu args || negb use_menu || (truthy (Args.context args) && auto_confirm)
  then mret value
  else
    let cursor_index := default 0 (CONTEXT_INDEX_BY_VALUE !! value) in
    index ← _run_menu CONTEXT_OPTIONS "Choose context" cursor_index;
    lift (or_raise KeyError (CONTEXT_VALUE_BY_INDEX !! index)).

(** The tokens of [--tasks] and those of them that the registry lacks. *)
Definition requested_tokens (tasks : string) : list string :=
  (fun token => Py.lower (Py.strip token))
    <$> filter (fun token => Py.strip token <> "") (Py.split ","%char tasks).
Definition invalid_tokens (requested : list string) : list string :=
  filter (fun token => TASK_INDEX_BY_KEY !! token = None) requested.

Definition resolve_tasks `{Host} (args : Args.t) (context : string)
    (auto_confirm use_menu : bool) : M (list Z) :=
  indices ←
    (if truthy (Args.tasks args) then
       let requested := requested_tokens (default "" (Args.tasks args)) in
       let invalid := invalid_tokens requested in
       if negb (bool_decide (invalid = [])) then
         raise (SystemExit ("Invalid task identifiers: " +:+ Py.join ", " invalid))
       else
         lift (map_r (fun token => or_raise KeyError (TASK_INDEX_BY_KEY !! token))
                     requested)
     else mret (defaults_for_context context));
  if Args.no_menu args || negb use_menu || (truthy (Args.tasks args) && auto_confirm)
  then mret indices
  else
    let options := title <$> TASKS in
    _run_multi_menu options "Select tasks (SPACE to toggle, ENTER to confirm)" indices.

Definition ensure_command_execution_safety (args : Args.t) : M ExecutionOptions.t :=
  let dry_run := Args.dry_run args || negb (Args.force args) in
  when (Args.force args && Args.dry_run args)
    (print "--force provided together with --dry-run; commands will still not execute.") ;;
  when (negb (Args.force args) && negb (Args.dry_run args))
    (print "Commands will run in dry-run mode until --force is supplied.") ;;
  sudo_allowed ← prompt_yes_no "Use elevated privileges for privileged operations?"
                               false (Args.yes args);
  mret (ExecutionOptions.mk dry_run sudo_allowed (Args.force args) (Args.yes args)).

Definition prepare_logger `{Host} (log_file : option Path) : M Path :=
  log_path ←
    match log_file with
    | Some p => mret p
    | None =>
        let logs_dir := getcwd // "logs" in
        mkdir logs_dir ;;
        t ← now;
        let timestamp := strftime "%Y%m%d_%H%M%S" t in
        mret (logs_dir // ("server_init_" +:+ timestamp +:+ ".log"))
    end;
  mkdir (PathOps.parent log_path) ;;
  touch log_path ;;
  mret log_path.

(** The call of a task implementation by the driver. *)
Definition call_impl `{Host} (impl : TaskImpl) (task_key : string)
    (runner : CommandRunner.t) (options : ExecutionOptions.t) (paths : PathsConfig)
    (arch : string) : M unit :=
  if bool_decide (task_key = "conda") then
    match impl with
    | Impl4 f => f runner options paths arch
    | Impl3 _ => raise TypeError
    end
  else
    match impl with
    | Impl3 f => f runner options paths
    | Impl4 _ => raise TypeError
    end.

(** One iteration of the loop of [main] over the ordered tasks; the result
    is the journal [completed] after it. *)
Definition run_task `{Host} (args : Args.t) (context : string)
    (runner : CommandRunner.t) (options : ExecutionOptions.t) (paths : PathsConfig)
    (arch : string) (task : TaskDefinition) (completed : gmap string bool)
    : M (gmap string bool) :=
  if should_skip (key task) context then
    print ("Skipping " +:+ title task +:+ " due to context rules.") ;;
    mret completed
  else
    marked ← (if negb (Args.force args) then is_task_marked_complete paths (key task)
              else mret false);
    if (marked : bool) then
      let marker := task_marker paths (key task) in
      print ("Skipping " +:+ title task +:+ " (already completed at "
               +:+ PathOps.to_string marker +:+ ").") ;;
      mret (<[key task := true]> completed)
    else if bool_decide (completed !! key task = Some true) && negb (Args.force args) then
      print ("Skipping " +:+ title task +:+ " (already completed; use --force to rerun).") ;;
      mret completed
    else
      print (Py.nl +:+ "=== Running task: " +:+ title task +:+ " ===") ;;
      match TASK_IMPLEMENTATIONS !! key task with
      | None =>
          print ("No implementation for task '" +:+ key task +:+ "'.") ;;
          mret completed
      | Some impl =>
          emit (Invoke (key task)) ;;
          call_impl impl (key task) runner options paths arch ;;
          mret (<[key task := true]> completed)
      end.

(** [for task in ordered_tasks: ...] *)
Fixpoint task_loop `{Host} (args : Args.t) (context : string)
    (runner : CommandRunner.t) (options : ExecutionOptions.t) (paths : PathsConfig)
    (arch : string) (ordered_tasks : list TaskDefinition) (completed : gmap string bool)
    : M (gmap string bool) :=
  match ordered_tasks with
  | [] => mret completed
  | task :: rest =>
      completed' ← run_task args context runner options paths arch task completed;
      task_loop args context runner options paths arch rest completed'
  end.

(** What [main] has resolved when the task loop starts. *)
Record Setup := mkSetup {
  s_state_path : Path;
  s_state : gmap string bool;
  s_context : string;
  s_selected : list Z;
  s_options : ExecutionOptions.t;
  s_paths : PathsConfig;
  s_log_path : Path;
  s_runner : CommandRunner.t;
  s_ordered : list TaskDefinition }.

(** [main] up to the task loop. *)
Definition main_setup `{Host} (args : Args.t) : M Setup :=
  let state_path := default (PathOps.of_string ".server_init_state.json")
                            (Args.resume_state args) in
  state ← load_state (Some state_path);
  let os_info := detect_os in
  let arch := detect_arch in
  print ("Detected OS: " +:+ os_name os_info +:+ " " +:+ os_version os_info) ;;
  print ("Detected architecture: " +:+ arch) ;;
  let use_menu := negb (Args.no_menu args) in
  context ← resolve_context args (Args.yes args) use_menu;
  selected_indices ← resolve_tasks args context (Args.yes args) use_menu;
  options ← ensure_command_execution_safety args;
  let current_user := getuser in
  let target_for_paths := if decide (context = Context.ROOT) then None
                          else Some current_user in
  paths ← confirm_paths (detect_default_paths context target_for_paths)
                        (ExecutionOptions.auto_confirm options);
  log_path ← prepare_logger (Args.log_file args);
  print ("Logging commands to " +:+ PathOps.to_string log_path) ;;
  runner ← CommandRunner.init log_path (ExecutionOptions.dry_run options)
                              (ExecutionOptions.sudo_allowed options);
  ordered_tasks ← lift (order_tasks_from_indices selected_indices);
  mret (mkSetup state_path state context selected_indices options paths log_path
                runner ordered_tasks).

(** The rest of [main]: the loop inside [try ... finally: runner.close()],
    then the journal and the summary.  The summary lists the completed keys
    in key order. *)
Definition main_run `{Host} (args : Args.t) (s : Setup) : M Z :=
  completed ←
    try_finally
      (task_loop args (s_context s) (s_runner s) (s_options s) (s_paths s) detect_arch
                 (s_ordered s) (s_state s))
      CommandRunner.close;
  save_state (Some (default (s_state_path s) (Args.write_state args))) completed ;;
  requested ← lift (map_r (fun i => key <$> or_raise IndexError (py_index TASKS i))
                          (s_selected s));
  print (Py.join Py.nl
           [ Py.nl +:+ "Run summary:";
             "  Context: " +:+ s_context s;
             "  Tasks requested: " +:+ Py.repr_list requested;
             "  Tasks completed: "
               +:+ Py.repr_list ((map_to_list completed) ≫= fun kv =>
                                   if (kv.2 : bool) then [kv.1] else []);
             "  Log file: " +:+ PathOps.to_string (s_log_path s) ]) ;;
  (if ExecutionOptions.dry_run (s_options s) then
     print ("Next steps: review the log, adjust plan.md as tasks mature, "
              +:+ "re-run with --force to execute commands.")
   else
     print "Next steps: review the log and rerun tasks if further adjustments are needed.") ;;
  mret 0.

Definition main `{Host} (args : Args.t) : M Z :=
  s ← main_setup args;
  main_run args s.

(** ** Vocabulary of the properties *)

(** [m] relates every world to the world it leaves behind by [R], whether it
    returns or raises. *)
Definition keeps (R : relation World) {A} (m : M A) : Prop :=
  forall w, R w (m w).2.

(** Whatever [m] returns satisfies [Q]. *)
Definition returns {A} (Q : A -> Prop) (m : M A) : Prop :=
  forall w a w', m w = (Ok a, w') -> Q a.

(** [m] returns, on every world. *)
Definition always_returns {A} (m : M A) : Prop :=
  forall w, exists a w', m w = (Ok a, w').

(** When [m] returns, its last step was [final]. *)
Definition ends_with {A} (final : M A) (m : M A) : Prop :=
  forall w a w', m w = (Ok a, w') -> exists w1, final w1 = (Ok a, w').

Definition no_spawn (e : Event) : Prop :=
  match e with Spawn _ => False | _ => True end.
Definition silent (e : Event) : Prop :=
  match e with Print _ | Prompt _ | Menu _ => True | _ => False end.
Definition any_event (e : Event) : Prop := True.

(** From [w] to [w'] the trace grew by events that satisfy [P], and, when
    [keep_fs] is set, the files are as they were. *)
Definition frame (keep_fs : bool) (P : Event -> Prop) (w w' : World) : Prop :=
  (keep_fs = true -> fs w' = fs w) /\
  exists l, trace w' = trace w ++ l /\ Forall P l.

(** The world [w] after one more event. *)
Definition after_event (e : Event) (w : World) : World :=
  mkWorld (fs w) (stdin w) (clock w) (log_open w) (trace w ++ [e]).

(** The world [w] once the log is closed. *)
Definition log_closed (w : World) : World :=
  mkWorld (fs w) (stdin w) (clock w) false (trace w).

(** The journal [b] carries on from the journal [a]: no key is lost, no
    [true] is taken back, and whatever differs is [true]. *)
Definition journal_le (a b : gmap string bool) : Prop :=
  forall k, (is_Some (a !! k) -> is_Some (b !! k))
            /\ (a !! k = Some true -> b !! k = Some true)
            /\ (b !! k <> a !! k -> b !! k = Some true).

(** The two lines that [CommandRunner.run] writes ahead of a command; the
    environment overrides enter by the set of their names. *)
Definition log_record `{Host} (t : nat) (cmd_list : list string) (cwd : option Path)
    (sudo : bool) (names : gset string) : list Event :=
  [ LogWrite (Py.nl +:+ "[" +:+ strftime "%Y-%m-%d %H:%M:%S" t +:+ "] CMD: "
                +:+ Py.shlex_join cmd_list +:+ Py.nl);
    LogWrite ("cwd=" +:+ PathOps.to_string (default getcwd cwd)
                +:+ " sudo=" +:+ Py.str_of_bool sudo
                +:+ " env_overrides="
                +:+ Py.repr_list (merge_sort String.le (elements names)) +:+ Py.nl) ].

(** The task at a valid index, Python style. *)
Definition task_at (i : Z) : TaskDefinition :=
  default (mkTask "" "" "") (py_index TASKS i).

(** The keys that a list of indices selects. *)
Definition selected_keys (indices : list Z) : gset string :=
  list_to_set ((fun i => key (task_at i)) <$> indices).

(** The notice that the driver prints before it calls a task. *)
Definition running_notice (task : TaskDefinition) : Event :=
  Print (Py.nl +:+ "=== Running task: " +:+ title task +:+ " ===").

Global Instance Event_eq_dec : EqDecision Event.
Proof. solve_decision. Defined.

Global Instance no_spawn_dec e : Decision (no_spawn e).
Proof. destruct e; simpl; apply _. Defined.


(** [task_miniconda] has returned before its end: the last thing it said is
    the message of one of its two early [return]s. *)
Definition conda_gave_up `{Host} (arch : string) (w : World) : Prop :=
  exists message,
    last (trace w) = Some (Print message)
    /\ (miniconda_installer_url platform_system arch = inr message
        \/ message = "Cannot proceed with Miniconda environment creation without accepting "
                       +:+ "the Terms of Service.").

(** ** Hosts and worlds for running the model *)

Definition world0 (f : FS) (lines : list string) : World :=
  mkWorld f lines 0 false [].

(** A plain rendering of a journal, for the example hosts. *)
Definition demo_dumps (m : gmap string bool) : string :=
  "{" +:+ Py.join ", " ((fun kv : string * bool =>
                           Py.dq +:+ kv.1 +:+ Py.dq +:+ ": "
                             +:+ (if kv.2 then "true" else "false"))
                          <$> map_to_list m) +:+ "}".

(** A host for examples: the commands whose argv satisfies [fails] exit with
    status 1, the others with 0, and none touches the files; the [json]
    library knows one document, [doc], which decodes to [doc_value]. *)
Definition demo_host (fails : list string -> bool) (env : gmap string string)
    (doc : string) (doc_value : gmap string bool) : Host :=
  {| platform_system := "Linux";
     platform_version := "6.1";
     platform_machine := "x86_64";
     platform_node := "box";
     getuser := "root";
     geteuid := Some 0;
     environ := env;
     getcwd := PathOps.of_string "/srv";
     path_home := PathOps.of_string "/root";
     script_dir := PathOps.of_string "/opt/server_init";
     which := fun _ _ => None;
     subprocess_run := fun argv _ _ f => Exited (if fails argv then 1 else 0) "" "" f;
     urlopen := fun _ => URLError "offline";
     strftime := fun _ t => "T" +:+ pretty t;
     isoformat := fun t => "T" +:+ pretty t;
     json_loads := fun s => if decide (s = doc) then Some doc_value else None;
     json_dumps := demo_dumps;
     icon_pattern_search := fun _ => false;
     icon_pattern_sub := fun _ c => c;
     menu_show := fun _ _ _ => None;
     multi_menu_show := fun _ _ _ => None |}.

Definition demo : Host := demo_host (fun _ => false) ∅ "" ∅.
Definition git_task : TaskDefinition := mkTask "git" "Git setup" "Configure git identity".
Definition ssh_task : TaskDefinition :=
  mkTask "ssh" "SSH setup" "Populate authorised keys and secure SSH".
Definition root_paths : PathsConfig := @detect_default_paths demo Context.ROOT None.
Definition git_marker : list string := ["root"; ".server_init_markers"; "git.done"].
Definition ssh_marker : list string := ["root"; ".server_init_markers"; "ssh.done"].
Definition state_file : list string := ["srv"; ".server_init_state.json"].

(** [--tasks git --yes --no-menu], with or without [--force] and [--dry-run] *)
Definition git_args (dry force : bool) : Args.t :=
  Args.mk None (Some "git") true dry force None true None None.

(** A world whose log is open and where the Git task has a marker. *)
Definition marked_world : World :=
  mkWorld {[ git_marker := File "old" ]} [] 0 true [].

(** The same with the directories of the marker in place. *)
Definition rerun_world : World :=
  mkWorld {[ ["root"] := Dir;
             ["root"; ".server_init_markers"] := Dir;
             git_marker := File "old" ]} [] 0 true [].

Definition dry_runner : CommandRunner.t :=
  CommandRunner.mk (PathOps.of_string "/srv/x.log") true false.
Definition dry_options (force : bool) : ExecutionOptions.t :=
  ExecutionOptions.mk true false force true.

(** A host on which [git] fails and the Git identity comes from the
    environment. *)
Definition git_fails : Host :=
  demo_host (fun argv => bool_decide (head argv = Some "git"))
            {[ "GIT_AUTHOR_NAME" := "x" ]} "" ∅.

(** [--tasks ssh,git --yes --force --no-menu] *)
Definition ssh_git_args : Args.t :=
  Args.mk None (Some "ssh,git") true false true None true None None.

(** [--tasks "os, bogus ,Nope" --yes --no-menu] *)
Definition bogus_args : Args.t :=
  Args.mk None (Some "os, bogus ,Nope") true false false None true None None.


Definition open_world : World := mkWorld ∅ [] 7 true [].
Definition live_runner : CommandRunner.t :=
  CommandRunner.mk (PathOps.of_string "/srv/x.log") false true.
Definition secret_env : gmap string string :=
  {[ "TOKEN" := "hunter2"; "API_KEY" := "s3cret" ]}.

(** A state file that holds the two bytes FF FE. *)
Definition garbled_world : World :=
  world0 {[ ["srv"] := Dir;
            state_file := File (String (ascii_of_N 255) (String (ascii_of_N 254) "")) ]} [].

(** ** Vocabulary and worlds of the further properties *)

(** The answer that a sequence of input lines gives to a yes/no question. *)
Fixpoint yes_no_answer (default : bool) (lines : list string) : bool :=
  match lines with
  | [] => default
  | line :: rest =>
      let answer := Py.lower (Py.strip line) in
      if decide (answer = "") then default
      else if bool_decide (answer ∈ ["y"; "yes"]) then true
      else if bool_decide (answer ∈ ["n"; "no"]) then false
      else yes_no_answer default rest
  end.

Definition color_prompt (default : Z) : string :=
  "Enter color id for OS icon foreground [0-255] (default " +:+ pretty default +:+ "): ".

(** The colour that a sequence of input lines gives to the colour prompt,
    if any of them does: the first line that is blank (the default) or a
    number from 0 to 255. *)
Fixpoint color_answer (default : Z) (lines : list string) : option Z :=
  match lines with
  | [] => None
  | line :: rest =>
      let raw := Py.strip line in
      if bool_decide (raw = "") then Some default
      else if Py.isdigit raw && bool_decide (0 <= Py.int raw <= 255)
      then Some (Py.int raw)
      else color_answer default rest
  end.

(** The commands that a stretch of the trace spawned. *)
Fixpoint spawned (l : list Event) : list (list string) :=
  match l with
  | [] => []
  | Spawn argv :: l' => argv :: spawned l'
  | _ :: l' => spawned l'
  end.

(** The driver's calls of task implementations are the [Invoke] events. *)
Definition no_invoke (e : Event) : Prop :=
  match e with Invoke _ => False | _ => True end.

(** The keys of the tasks that a stretch of the trace invoked, in order. *)
Fixpoint invoked (l : list Event) : list string :=
  match l with
  | [] => []
  | Invoke k :: l' => k :: invoked l'
  | _ :: l' => invoked l'
  end.

(** The tasks of [ordered] that the context lets run. *)
Definition allowed (context : string) (ordered : list TaskDefinition)
    : list TaskDefinition :=
  filter (fun t => should_skip (key t) context = false) ordered.

(** [s] holds ASCII characters only, as the output of [json.dumps] does. *)
Definition ascii_only (s : string) : bool :=
  forallb (fun c => (Py.code c <? 128)%N) (list_ascii_of_string s).

(** A line of ASCII characters that is short enough for [int] to read
    whatever digits it holds: Python refuses the numbers of more than 4300
    digits. *)
Definition short_ascii (line : string) : bool :=
  ascii_only line && (String.length line <=? 4300)%nat.

(** A host whose operator picks the entry [pick] in every menu. *)
Definition picking_host (pick : Z) : Host :=
  {| platform_system := "Linux"; platform_version := "6.1";
     platform_machine := "x86_64"; platform_node := "box";
     getuser := "root"; geteuid := Some 0; environ := ∅;
     getcwd := PathOps.of_string "/srv"; path_home := PathOps.of_string "/root";
     script_dir := PathOps.of_string "/opt/server_init";
     which := fun _ _ => None;
     subprocess_run := fun _ _ _ f => Exited 0 "" "" f;
     urlopen := fun _ => URLError "offline";
     strftime := fun _ t => "T" +:+ pretty t;
     isoformat := fun t => "T" +:+ pretty t;
     json_loads := fun _ => None;
     json_dumps := demo_dumps;
     icon_pattern_search := fun _ => false;
     icon_pattern_sub := fun _ c => c;
     menu_show := fun _ _ _ => Some pick;
     multi_menu_show := fun _ _ _ => None |}.

Definition menu_args : Args.t :=
  Args.mk (Some "local") None false false false None false None None.

(** [--force --no-menu], without [--yes] *)
Definition asking_args : Args.t :=
  Args.mk None None false false true None true None None.

(** A host whose [json] library reads back the one journal [m]. *)
Definition journal_host (m : gmap string bool) : Host :=
  demo_host (fun _ => false) ∅ (demo_dumps m) m.

Definition cwd_world : World := world0 {[ ["srv"] := Dir ]} [].

Definition live_options : ExecutionOptions.t := ExecutionOptions.mk false false true true.

Definition dry_setup : Setup :=
  mkSetup (PathOps.of_string ".server_init_state.json") ∅ Context.ROOT [4]
          (dry_options false) root_paths (PathOps.of_string "/srv/x.log") dry_runner
          [git_task].

(** The [git config] calls that the environment asks of the Git task. *)
Definition git_commands `{Host} : list (list string) :=
  let username := default "" (environ !! "GIT_AUTHOR_NAME") in
  let email := default "" (environ !! "GIT_AUTHOR_EMAIL") in
  (if bool_decide (username = "") then []
   else [["git"; "config"; "--global"; "user.name"; username]])
  ++ (if bool_decide (email = "") then []
      else [["git"; "config"; "--global"; "user.email"; email]]).

(** From [w], [m] spawns the commands [cmds], in order, when it returns, and
    the first of them when it raises. *)
Definition spawns {A} (cmds : list (list string)) (m : M A) : Prop :=
  forall w,
    exists l, trace (m w).2 = trace w ++ l
              /\ spawned l `prefix_of` cmds
              /\ (forall a, (m w).1 = Ok a -> spawned l = cmds).

(** The two [chmod] calls of the SSH task. *)
Definition ssh_commands (paths : PathsConfig) : list (list string) :=
  [ ["chmod"; "700"; PathOps.to_string (PathOps.parent (ssh_authorized_keys paths))];
    ["chmod"; "600"; PathOps.to_string (ssh_authorized_keys paths)] ].

(** A host with a Git identity in its environment. *)
Definition git_env_host : Host :=
  demo_host (fun _ => false)
            {[ "GIT_AUTHOR_NAME" := "Ada"; "GIT_AUTHOR_EMAIL" := "ada@example.org" ]} "" ∅.

(** A runner that was refused the sudo permission. *)
Definition plain_runner : CommandRunner.t :=
  CommandRunner.mk (PathOps.of_string "/srv/x.log") false false.

(** * Properties *)

(** ** The monad *)

Lemma bind_unfold {A B} (m : M A) (f : A -> M B) w :
  (m ≫= f) w =
  match m w with (Ok a, w') => f a w' | (Raise e, w') => (Raise e, w') end.
Proof. reflexivity. Qed.

Lemma bind_ok {A B} (m : M A) (f : A -> M B) w b w' :
  (m ≫= f) w = (Ok b, w') ->
  exists a w1, m w = (Ok a, w1) /\ f a w1 = (Ok b, w').
Proof.
  rewrite bind_unfold. destruct (m w) as [[a|e] w1]; [|discriminate].
  intros Hf. by exists a, w1.
Qed.

Lemma bind_raise {A B} (m : M A) (f : A -> M B) w e w' :
  m w = (Raise e, w') -> (m ≫= f) w = (Raise e, w').
Proof. intros Hm. by rewrite bind_unfold, Hm. Qed.

Lemma bind_step {A B} (m : M A) (f : A -> M B) w a w1 :
  m w = (Ok a, w1) -> (m ≫= f) w = f a w1.
Proof. intros Hm. by rewrite bind_unfold, Hm. Qed.

Global Instance frame_preorder k P : PreOrder (frame k P).
Proof.
  split.
  - intros w. split; [done|]. exists []. by rewrite app_nil_r.
  - intros w1 w2 w3 [Hf1 (l1 & Ht1 & HP1)] [Hf2 (l2 & Ht2 & HP2)]. split.
    + intros Hk. by rewrite Hf2, Hf1.
    + exists (l1 ++ l2). rewrite Ht2, Ht1, <- app_assoc. split; [done|].
      by apply Forall_app.
Qed.

(** ** Frame rules

    The rules by which [keeps] follows the structure of a computation, and
    the tactic that applies them. *)

Section Frame.
Context (R : relation World) `{!PreOrder R}.
Lemma keeps_ret {A} (a : A) : keeps R (mret a).
Proof. intros w. reflexivity. Qed.
Lemma keeps_raise {A} e : keeps R (@raise A e).
Proof. intros w. reflexivity. Qed.
Lemma keeps_lift {A} (r : Res A) : keeps R (lift r).
Proof. intros w. reflexivity. Qed.
Lemma keeps_bind {A B} (m : M A) (f : A -> M B) :
  keeps R m -> (forall a, keeps R (f a)) -> keeps R (m ≫= f).
Proof.
  intros Hm Hf w. rewrite bind_unfold. specialize (Hm w).
  destruct (m w) as [[a|e] w1]; simpl in *; [|done].
  etrans; [exact Hm|apply Hf].
Qed.
Lemma keeps_try_except {A} (m : M A) h :
  keeps R m -> (forall e k, h e = Some k -> keeps R k) -> keeps R (try_except m h).
Proof.
  intros Hm Hh w. unfold try_except. specialize (Hm w).
  destruct (m w) as [[a|e] w1]; simpl in *; [done|].
  destruct (h e) as [k|] eqn:E; [|done].
  etrans; [exact Hm|]. by apply (Hh e k).
Qed.
Lemma keeps_try_finally {A} (m : M A) f :
  keeps R m -> keeps R f -> keeps R (try_finally m f).
Proof.
  intros Hm Hf w. unfold try_finally. specialize (Hm w).
  destruct (m w) as [r w1]. specialize (Hf w1). simpl in *.
  destruct (f w1) as [[[]|e] w2]; simpl in *; by etrans.
Qed.
Lemma keeps_for_each {A} (l : list A) f :
  (forall x, keeps R (f x)) -> keeps R (for_each l f).
Proof.
  intros Hf. induction l as [|x l IH]; simpl; [apply keeps_ret|].
  apply keeps_bind; auto.
Qed.
Lemma keeps_map_m {A B} (l : list A) (f : A -> M B) :
  (forall x, keeps R (f x)) -> keeps R (map_m f l).
Proof.
  intros Hf. induction l as [|x l IH]; simpl; [apply keeps_ret|].
  apply keeps_bind; [auto|intros y]. apply keeps_bind; [auto|intros ys]. apply keeps_ret.
Qed.
Lemma keeps_input_loop {A} prompt (on_eof : M A) on_line :
  keeps R (emit (Prompt prompt)) -> (forall l, keeps R (set_stdin l)) ->
  keeps R on_eof -> (forall l, keeps R (on_line l)) ->
  keeps R (input_loop prompt on_eof on_line).
Proof.
  intros He Hs Heof Hline.
  assert (forall lines, keeps R (input_loop_on prompt on_eof on_line lines)) as Hall.
  { induction lines as [|l lines IH]; simpl.
    - apply keeps_bind; auto.
    - apply keeps_bind; [auto|intros _]. apply keeps_bind; [auto|intros _].
      apply keeps_bind; [auto|intros [a|]]; [apply keeps_ret|apply IH]. }
  intros w. apply Hall.
Qed.
End Frame.

Section FramePrims.
Context (k : bool) (P : Event -> Prop).
Lemma keeps_emit e : P e -> keeps (frame k P) (emit e).
Proof. intros HP w. split; [done|]. exists [e]. split; [done|]. by constructor. Qed.
Lemma keeps_set_stdin l : keeps (frame k P) (set_stdin l).
Proof. intros w. split; [done|]. exists []. simpl. by rewrite app_nil_r. Qed.
Lemma keeps_set_log_open b : keeps (frame k P) (set_log_open b).
Proof. intros w. split; [done|]. exists []. simpl. by rewrite app_nil_r. Qed.
Lemma keeps_now : keeps (frame k P) now.
Proof. intros w. split; [done|]. exists []. simpl. by rewrite app_nil_r. Qed.
Lemma keeps_get_fs : keeps (frame k P) get_fs.
Proof. intros w. reflexivity. Qed.
Lemma keeps_put_fs f : k = false -> keeps (frame k P) (put_fs f).
Proof. intros -> w. split; [done|]. exists []. simpl. by rewrite app_nil_r. Qed.
End FramePrims.

Create HintDb frame.
Global Hint Extern 0 (no_spawn _) => exact I : frame.
Global Hint Extern 0 (any_event _) => exact I : frame.
Global Hint Extern 0 (silent (Print _)) => exact I : frame.
Global Hint Extern 0 (silent (Prompt _)) => exact I : frame.
Global Hint Extern 0 (silent (Menu _)) => exact I : frame.
Global Hint Resolve keeps_emit keeps_set_stdin keeps_set_log_open keeps_now keeps_get_fs
  keeps_put_fs : frame.

Ltac frame_step :=
  lazymatch goal with
  | |- keeps _ (mret _) => apply keeps_ret; apply _
  | |- keeps _ (raise _) => apply keeps_raise; apply _
  | |- keeps _ (lift _) => apply keeps_lift; apply _
  | |- keeps _ (_ ≫= _) => apply keeps_bind; [apply _| |intros ?]
  | |- keeps _ (print _) => apply keeps_emit; solve [auto with frame]
  | |- keeps _ (for_each _ _) => apply keeps_for_each; [apply _|intros ?]
  | |- keeps _ (map_m _ _) => apply keeps_map_m; [apply _|intros ?]
  | |- keeps _ (try_finally _ _) => apply keeps_try_finally; [apply _| |]
  | |- keeps _ (try_except _ (except_Exception _)) =>
      apply keeps_try_except;
      [apply _| |intros [] ? [= <-]]
  | |- keeps _ (input_loop _ _ _) =>
      apply keeps_input_loop; [apply _| | intros ? | | intros ?]
  | |- keeps _ (when ?b _) => unfold when
  | |- keeps _ (if ?b then _ else _) => destruct b
  | |- keeps _ (match ?x with _ => _ end) => destruct x
  | |- keeps _ (let _ := _ in _) => cbv zeta
  | |- keeps _ _ => solve [eauto with frame]
  end.
Ltac frame_auto := cbv zeta; repeat frame_step.

Section FrameOps.
Context `{Host} (k : bool) (P : Event -> Prop).

Lemma keeps_input prompt : P (Prompt prompt) -> keeps (frame k P) (input prompt).
Proof.
  intros HP w. unfold input.
  destruct (stdin w);
    [apply (keeps_bind (frame k P) (emit _) _) | apply (keeps_bind (frame k P) (emit _) _)];
    intros; frame_auto.
Qed.
Lemma keeps_path_exists p : keeps (frame k P) (path_exists p).
Proof. unfold path_exists. frame_auto. Qed.
Lemma keeps_read_text i p : keeps (frame k P) (read_text i p).
Proof. unfold read_text. frame_auto. Qed.
Lemma keeps_write text : P (LogWrite text) -> keeps (frame k P) (CommandRunner._write text).
Proof.
  intros HP w. unfold CommandRunner._write. destruct (log_open w).
  - by apply keeps_emit.
  - reflexivity.
Qed.
Lemma keeps_prompt_yes_no message d a :
  (forall s, P (Print s)) -> (forall s, P (Prompt s)) ->
  keeps (frame k P) (prompt_yes_no message d a).
Proof. intros ??. unfold prompt_yes_no. frame_auto. Qed.
End FrameOps.

Global Hint Resolve keeps_input keeps_path_exists keeps_read_text keeps_write
  keeps_prompt_yes_no : frame.

Section FrameRunner.
Context `{Host} (k : bool) (P : Event -> Prop).
Hypothesis P_print : forall s, P (Print s).
Hypothesis P_prompt : forall s, P (Prompt s).
Hypothesis P_log : forall s, P (LogWrite s).
Hypothesis P_fetch : forall s, P (Fetch s).

Lemma keeps_fetch_github_keys u : keeps (frame k P) (fetch_github_keys u).
Proof. unfold fetch_github_keys. frame_auto. Qed.

Lemma keeps_prompt_color d : keeps (frame k P) (_prompt_color d).
Proof. unfold _prompt_color. frame_auto. Qed.

(** In dry-run mode the runner writes to its log and nothing else. *)
Lemma keeps_run_dry self command sudo cwd env check :
  CommandRunner.dry_run self = true ->
  keeps (frame k P) (CommandRunner.run self command sudo cwd env check).
Proof. intros Hd. unfold CommandRunner.run. rewrite Hd. frame_auto. Qed.

Lemma keeps_mark_dry paths key options :
  ExecutionOptions.dry_run options = true ->
  keeps (frame k P) (mark_task_complete paths key options).
Proof. intros Hd. unfold mark_task_complete. rewrite Hd. frame_auto. Qed.

(** Without the promise to keep the files, everything goes. *)
Hypothesis k_false : k = false.
Hypothesis P_spawn : forall a, P (Spawn a).

Lemma keeps_mkdir p : keeps (frame k P) (mkdir p).
Proof. unfold mkdir. frame_auto. Qed.
Lemma keeps_touch p : keeps (frame k P) (touch p).
Proof. unfold touch. frame_auto. Qed.
Lemma keeps_write_file a p t : keeps (frame k P) (write_file a p t).
Proof. unfold write_file. frame_auto. Qed.
Lemma keeps_copy2 p q : keeps (frame k P) (copy2 p q).
Proof. unfold copy2, write_text. frame_auto; apply keeps_write_file. Qed.
Lemma keeps_spawn c cwd env : keeps (frame k P) (CommandRunner.spawn c cwd env).
Proof. unfold CommandRunner.spawn. frame_auto. Qed.
Lemma keeps_run self command sudo cwd env check :
  keeps (frame k P) (CommandRunner.run self command sudo cwd env check).
Proof.
  pose proof keeps_spawn. unfold CommandRunner.run. frame_auto.
Qed.
Lemma keeps_mark paths key options :
  keeps (frame k P) (mark_task_complete paths key options).
Proof.
  pose proof keeps_mkdir. pose proof keeps_write_file.
  unfold mark_task_complete, write_text. frame_auto.
Qed.
End FrameRunner.

Global Hint Resolve keeps_fetch_github_keys keeps_prompt_color : frame.

Ltac frame_body :=
  repeat match goal with x := _ |- _ => subst x end;
  cbn [ExecutionOptions.dry_run ExecutionOptions.auto_confirm negb andb orb];
  unfold CommandRunner.run_; frame_auto.

(** *** Dry runs: the task bodies leave the files alone and spawn nothing *)
Section DryBodies.
Context `{Host} (runner : CommandRunner.t) (sa fo ac : bool) (paths : PathsConfig).
Hypothesis runner_dry : CommandRunner.dry_run runner = true.
Let options := ExecutionOptions.mk true sa fo ac.
Let R := frame true no_spawn.

Local Hint Resolve keeps_run_dry keeps_mark_dry : frame.

Lemma dry_os : keeps R (task_os_settings runner options paths).
Proof. unfold task_os_settings. frame_body. Qed.
Lemma dry_ssh : keeps R (task_ssh_setup runner options paths).
Proof. unfold task_ssh_setup. frame_body. Qed.
Lemma dry_zsh : keeps R (task_custom_zsh runner options paths).
Proof. unfold task_custom_zsh. frame_body. Qed.
Lemma dry_conda arch : keeps R (task_miniconda runner options paths arch).
Proof.
  unfold task_miniconda, miniconda_install, miniconda_environment, miniconda_activation.
  frame_body.
Qed.
Lemma dry_git : keeps R (task_git_setup runner options paths).
Proof. unfold task_git_setup. frame_body. Qed.
End DryBodies.

(** *** Any run: the task bodies only add to the trace *)
Section AnyBodies.
Context `{Host} (runner : CommandRunner.t) (options : ExecutionOptions.t)
  (paths : PathsConfig).
Let R := frame false any_event.

Local Hint Resolve keeps_run keeps_mark keeps_mkdir keeps_touch keeps_write_file
  keeps_copy2 : frame.

Lemma any_os : keeps R (task_os_settings runner options paths).
Proof. unfold task_os_settings. frame_body. Qed.
Lemma any_ssh : keeps R (task_ssh_setup runner options paths).
Proof. unfold task_ssh_setup, append_text. frame_body. Qed.
Lemma any_zsh : keeps R (task_custom_zsh runner options paths).
Proof. unfold task_custom_zsh, write_text. frame_body. Qed.
Lemma any_conda arch : keeps R (task_miniconda runner options paths arch).
Proof.
  unfold task_miniconda, miniconda_install, miniconda_environment, miniconda_activation,
    write_text, append_text.
  frame_body.
Qed.
Lemma any_git : keeps R (task_git_setup runner options paths).
Proof. unfold task_git_setup. frame_body. Qed.
End AnyBodies.

Lemma impl_lookup `{Host} k impl :
  TASK_IMPLEMENTATIONS !! k = Some impl ->
  (k = "os" /\ impl = Impl3 task_os_settings) \/
  (k = "ssh" /\ impl = Impl3 task_ssh_setup) \/
  (k = "zsh" /\ impl = Impl3 task_custom_zsh) \/
  (k = "conda" /\ impl = Impl4 task_miniconda) \/
  (k = "git" /\ impl = Impl3 task_git_setup).
Proof.
  unfold TASK_IMPLEMENTATIONS. rewrite !lookup_insert_Some, lookup_empty.
  intuition (subst; auto; discriminate).
Qed.

Lemma keeps_call_dry `{Host} k impl runner sa fo ac paths arch :
  TASK_IMPLEMENTATIONS !! k = Some impl ->
  CommandRunner.dry_run runner = true ->
  keeps (frame true no_spawn)
    (call_impl impl k runner (ExecutionOptions.mk true sa fo ac) paths arch).
Proof.
  intros Hk Hd. unfold call_impl.
  destruct (impl_lookup _ _ Hk) as [[-> ->]|[[-> ->]|[[-> ->]|[[-> ->]|[-> ->]]]]];
    simpl.
  - by apply dry_os.
  - by apply dry_ssh.
  - by apply dry_zsh.
  - by apply dry_conda.
  - by apply dry_git.
Qed.

Lemma keeps_call_any `{Host} k impl runner options paths arch :
  TASK_IMPLEMENTATIONS !! k = Some impl ->
  keeps (frame false any_event) (call_impl impl k runner options paths arch).
Proof.
  intros Hk. unfold call_impl.
  destruct (impl_lookup _ _ Hk) as [[-> ->]|[[-> ->]|[[-> ->]|[[-> ->]|[-> ->]]]]];
    simpl.
  - by apply any_os.
  - by apply any_ssh.
  - by apply any_zsh.
  - by apply any_conda.
  - by apply any_git.
Qed.

Section LoopFrames.
Context `{Host} (args : Args.t) (context : string) (runner : CommandRunner.t)
  (paths : PathsConfig) (arch : string).

Lemma keeps_run_task_dry sa fo ac task completed :
  CommandRunner.dry_run runner = true ->
  keeps (frame true no_spawn)
    (run_task args context runner (ExecutionOptions.mk true sa fo ac) paths arch
              task completed).
Proof.
  intros Hd. unfold run_task, is_task_marked_complete.
  destruct (TASK_IMPLEMENTATIONS !! key task) as [impl|] eqn:Hk.
  - pose proof (keeps_call_dry _ _ runner sa fo ac paths arch Hk Hd). frame_auto.
  - frame_auto.
Qed.

Lemma keeps_task_loop_dry sa fo ac tasks completed :
  CommandRunner.dry_run runner = true ->
  keeps (frame true no_spawn)
    (task_loop args context runner (ExecutionOptions.mk true sa fo ac) paths arch
               tasks completed).
Proof.
  intros Hd. revert completed.
  induction tasks as [|task tasks IH]; intros completed; simpl.
  - apply keeps_ret; apply _.
  - apply keeps_bind; [apply _| |intros c; apply IH].
    by apply keeps_run_task_dry.
Qed.

Lemma keeps_run_task_any options task completed :
  keeps (frame false any_event)
    (run_task args context runner options paths arch task completed).
Proof.
  unfold run_task, is_task_marked_complete.
  destruct (TASK_IMPLEMENTATIONS !! key task) as [impl|] eqn:Hk.
  - pose proof (keeps_call_any _ _ runner options paths arch Hk). frame_auto.
  - frame_auto.
Qed.
End LoopFrames.

(** ** Totality of the prompts *)

Lemma total_ret {A} (a : A) : always_returns (mret a).
Proof. intros w. by exists a, w. Qed.

Lemma total_bind {A B} (m : M A) (f : A -> M B) :
  always_returns m -> (forall a, always_returns (f a)) -> always_returns (m ≫= f).
Proof.
  intros Hm Hf w. destruct (Hm w) as (a & w1 & Ha).
  destruct (Hf a w1) as (b & w2 & Hb). exists b, w2.
  by rewrite (bind_step _ _ _ _ _ Ha).
Qed.

Lemma total_emit e : always_returns (emit e).
Proof. intros w. by eexists _, _. Qed.

Lemma total_set_stdin l : always_returns (set_stdin l).
Proof. intros w. by eexists _, _. Qed.

Lemma total_input_loop {A} prompt (on_eof : M A) on_line :
  always_returns on_eof -> (forall l, always_returns (on_line l)) ->
  always_returns (input_loop prompt on_eof on_line).
Proof.
  intros Heof Hline.
  assert (forall lines, always_returns (input_loop_on prompt on_eof on_line lines)) as Hall.
  { induction lines as [|l lines IH]; simpl.
    - apply total_bind; [apply total_emit|done].
    - apply total_bind; [apply total_emit|intros _].
      apply total_bind; [apply total_set_stdin|intros _].
      apply total_bind; [done|intros [a|]]; [apply total_ret|apply IH]. }
  intros w. apply Hall.
Qed.

Lemma prompt_yes_no_total message d a : always_returns (prompt_yes_no message d a).
Proof.
  unfold prompt_yes_no. destruct a; [apply total_ret|].
  apply total_input_loop.
  - apply total_bind; [apply total_emit|intros _; apply total_ret].
  - intros l. cbv zeta.
    repeat (case_match; try apply total_ret).
    apply total_bind; [apply total_emit|intros _; apply total_ret].
Qed.

(** ** The registry *)

Lemma map_r_ok {A B} (f : A -> Res B) (g : A -> B) (l : list A) :
  Forall (fun x => f x = Ok (g x)) l -> map_r f l = Ok (g <$> l).
Proof.
  induction 1 as [|x l Hx _ IH]; simpl; [done|].
  by rewrite Hx, IH.
Qed.

Lemma py_index_valid (i : Z) :
  -5 <= i < 5 -> py_index TASKS i = Some (task_at i).
Proof.
  intros Hi. unfold task_at.
  assert (i = -5 \/ i = -4 \/ i = -3 \/ i = -2 \/ i = -1
          \/ i = 0 \/ i = 1 \/ i = 2 \/ i = 3 \/ i = 4) as Hcases by lia.
  repeat (destruct Hcases as [->|Hcases]; [reflexivity|]). by subst.
Qed.

Lemma task_at_in (i : Z) : -5 <= i < 5 -> task_at i ∈ TASKS.
Proof.
  intros Hi.
  assert (i = -5 \/ i = -4 \/ i = -3 \/ i = -2 \/ i = -1
          \/ i = 0 \/ i = 1 \/ i = 2 \/ i = 3 \/ i = 4) as Hcases by lia.
  clear Hi.
  repeat (destruct Hcases as [->|Hcases];
          [vm_compute; repeat first [apply list_elem_of_here|apply list_elem_of_further]|]).
  subst. vm_compute; repeat first [apply list_elem_of_here|apply list_elem_of_further].
Qed.

Lemma key_inj_TASKS (t u : TaskDefinition) :
  t ∈ TASKS -> u ∈ TASKS -> key t = key u -> t = u.
Proof.
  unfold TASKS. rewrite !elem_of_cons, !elem_of_nil.
  intros Ht Hu.
  repeat (destruct Ht as [->|Ht]); try done;
    repeat (destruct Hu as [->|Hu]); try done.
Qed.

Lemma NoDup_TASKS : NoDup TASKS.
Proof. apply (bool_decide_unpack _). by vm_compute. Qed.

(** The selection as a function of the set of selected keys. *)
Lemma order_by_key_set (S : gset string) :
  map_r (fun k => idx ← or_raise (ValueError "not in list") (list_index k (key <$> TASKS));
                  or_raise IndexError (py_index TASKS (Z.of_nat idx)))
        (filter (fun k => k ∈ S) (key <$> TASKS))
  = Ok (filter (fun t => key t ∈ S) TASKS).
Proof.
  unfold TASKS. simpl fmap.
  rewrite !filter_cons, !filter_nil. simpl key.
  repeat case_decide; reflexivity.
Qed.

Lemma order_tasks_from_indices_eq (indices : list Z) :
  Forall (fun i => -5 <= i < 5) indices ->
  order_tasks_from_indices indices
  = Ok (filter (fun t => key t ∈ selected_keys indices) TASKS).
Proof.
  intros Hv. unfold order_tasks_from_indices. cbv zeta.
  rewrite (map_r_ok _ (fun i => key (task_at i))).
  - change (Ok ((fun i => key (task_at i)) <$> indices) ≫= ?f)
      with (f ((fun i => key (task_at i)) <$> indices)).
    cbv beta. by rewrite order_by_key_set.
  - eapply Forall_impl; [exact Hv|]. intros i Hi. simpl.
    by rewrite (py_index_valid i Hi).
Qed.

Lemma selected_keys_spec (indices : list Z) (t : TaskDefinition) :
  Forall (fun i => -5 <= i < 5) indices -> t ∈ TASKS ->
  key t ∈ selected_keys indices <-> exists i, i ∈ indices /\ py_index TASKS i = Some t.
Proof.
  intros Hv Ht. unfold selected_keys.
  rewrite elem_of_list_to_set, list_elem_of_fmap. split.
  - intros (i & Hk & Hi). exists i. split; [done|].
    rewrite Forall_forall in Hv. specialize (Hv i Hi).
    rewrite (py_index_valid i Hv). f_equal. symmetry.
    apply key_inj_TASKS; [done|by apply task_at_in|done].
  - intros (i & Hi & Hp). exists i. split; [|done].
    rewrite Forall_forall in Hv. specialize (Hv i Hi).
    rewrite (py_index_valid i Hv) in Hp. by injection Hp as ->.
Qed.

(** ** What a step of the loop does to the journal *)

Lemma returns_ret {A} (Q : A -> Prop) a : Q a -> returns Q (mret a).
Proof. intros HQ w b w' [= <- _]. done. Qed.

Lemma returns_bind {A B} (Q : B -> Prop) (m : M A) (f : A -> M B) :
  (forall a, returns Q (f a)) -> returns Q (m ≫= f).
Proof.
  intros Hf w b w' Hb. apply bind_ok in Hb as (a & w1 & _ & Hb). by eapply Hf.
Qed.

Lemma run_task_journal `{Host} args context runner options paths arch task completed :
  returns (fun c => c = completed \/ c = <[key task := true]> completed)
          (run_task args context runner options paths arch task completed).
Proof.
  unfold run_task.
  repeat first
    [ apply returns_ret; auto
    | apply returns_bind; intros ?
    | match goal with
      | |- returns _ (if ?b then _ else _) => destruct b
      | |- returns _ (match ?x with _ => _ end) => destruct x
      | |- returns _ (let _ := _ in _) => cbv zeta
      end ].
Qed.

Lemma journal_le_refl a : journal_le a a.
Proof. intros k. split; [done|]. split; [done|]. intros Hk. by destruct Hk. Qed.

Lemma journal_le_trans a b c : journal_le a b -> journal_le b c -> journal_le a c.
Proof.
  intros Hab Hbc k. destruct (Hab k) as (Hab1 & Hab2 & Hab3).
  destruct (Hbc k) as (Hbc1 & Hbc2 & Hbc3).
  split; [auto|]. split; [auto|]. intros Hne.
  destruct (decide (c !! k = b !! k)) as [Heq|Hneq]; [|auto].
  rewrite Heq in *. auto.
Qed.

Lemma journal_le_insert a k : journal_le a (<[k := true]> a).
Proof.
  intros j. destruct (decide (k = j)) as [->|Hne].
  - rewrite lookup_insert_eq. split; [eauto|]. split; [done|done].
  - rewrite lookup_insert_ne by done. split; [done|]. split; [done|]. intros Hk. by destruct Hk.
Qed.

Lemma task_loop_journal `{Host} args context runner options paths arch tasks completed :
  returns (journal_le completed)
          (task_loop args context runner options paths arch tasks completed).
Proof.
  revert completed. induction tasks as [|task tasks IH]; intros completed; simpl.
  - apply returns_ret, journal_le_refl.
  - intros w c w' Hc. apply bind_ok in Hc as (c1 & w1 & Hstep & Hrest).
    apply run_task_journal in Hstep. apply IH in Hrest.
    eapply journal_le_trans; [|exact Hrest].
    destruct Hstep as [->| ->]; [apply journal_le_refl|apply journal_le_insert].
Qed.

(** ** Marking a task complete *)

Lemma ends_with_refl {A} (m : M A) : ends_with m m.
Proof. intros w a w' Hm. by exists w. Qed.

Lemma ends_with_bind {A B} (final : M B) (m : M A) (f : A -> M B) :
  (forall a, ends_with final (f a)) -> ends_with final (m ≫= f).
Proof.
  intros Hf w b w' Hb. apply bind_ok in Hb as (a & w1 & _ & Hb). by eapply Hf.
Qed.

Ltac ends_auto :=
  cbv zeta; repeat first [apply ends_with_refl | apply ends_with_bind; intros ?].

Section MarkedBodies.
Context `{Host} (runner : CommandRunner.t) (options : ExecutionOptions.t)
  (paths : PathsConfig).

Lemma os_ends_marking :
  ends_with (mark_task_complete paths "os" options)
            (task_os_settings runner options paths).
Proof. unfold task_os_settings. ends_auto. Qed.
Lemma ssh_ends_marking :
  ends_with (mark_task_complete paths "ssh" options)
            (task_ssh_setup runner options paths).
Proof. unfold task_ssh_setup. ends_auto. Qed.
Lemma zsh_ends_marking :
  ends_with (mark_task_complete paths "zsh" options)
            (task_custom_zsh runner options paths).
Proof. unfold task_custom_zsh. ends_auto. Qed.
Lemma git_ends_marking :
  ends_with (mark_task_complete paths "git" options)
            (task_git_setup runner options paths).
Proof. unfold task_git_setup. ends_auto. Qed.
End MarkedBodies.

Lemma write_file_ok `{Host} a p text w w' :
  write_file a p text w = (Ok tt, w') ->
  exists c, node_at (fs w') (locate p) = Some (File c) /\ (a = false -> c = text).
Proof.
  unfold write_file. rewrite bind_unfold. simpl.
  destruct (locate p) as [|x k] eqn:Hk; simpl.
  { discriminate. }
  destruct (fs w !! (x :: k)) as [[|c]|] eqn:Hn.
  - discriminate.
  - intros [= <-]. simpl. rewrite lookup_insert_eq. eexists. split; [done|].
    by intros ->.
  - destruct (parent_is_dir (fs w) (x :: k)); [|discriminate].
    intros [= <-]. simpl. rewrite lookup_insert_eq. eauto.
Qed.

Lemma mark_live_ok `{Host} paths k options w w' :
  ExecutionOptions.dry_run options = false ->
  mark_task_complete paths k options w = (Ok tt, w') ->
  exists t, node_at (fs w') (locate (task_marker paths k)) = Some (File (isoformat t)).
Proof.
  intros Hd. unfold mark_task_complete. rewrite Hd. cbv zeta. intros Hm.
  apply bind_ok in Hm as (_ & w1 & _ & Hm).
  apply bind_ok in Hm as (t & w2 & _ & Hm).
  apply bind_ok in Hm as ([] & w3 & Hw & Hm).
  apply write_file_ok in Hw as (c & Hc & Hct).
  injection Hm as <-. exists t. simpl. rewrite Hc, Hct; done.
Qed.

Lemma mark_dry `{Host} paths k options w :
  ExecutionOptions.dry_run options = true ->
  mark_task_complete paths k options w
  = (Ok tt, after_event (Print ("(dry-run) Would record completion marker at "
                                  +:+ PathOps.to_string (task_marker paths k) +:+ ".")) w).
Proof. intros Hd. unfold mark_task_complete. by rewrite Hd. Qed.

(** ** The skip decisions of the loop *)

Lemma registered_impl `{Host} task :
  task ∈ TASKS -> exists impl, TASK_IMPLEMENTATIONS !! key task = Some impl.
Proof.
  unfold TASKS. rewrite !elem_of_cons, elem_of_nil.
  intros Ht. repeat (destruct Ht as [->|Ht]; [by eexists|]). done.
Qed.

Lemma run_task_forced `{Host} args context runner options paths arch task completed impl w :
  should_skip (key task) context = false ->
  Args.force args = true ->
  TASK_IMPLEMENTATIONS !! key task = Some impl ->
  run_task args context runner options paths arch task completed w
  = (call_impl impl (key task) runner options paths arch
       ≫= fun _ => mret (<[key task := true]> completed))
      (after_event (Invoke (key task)) (after_event (running_notice task) w)).
Proof.
  intros Hs Hf Hk. unfold run_task. rewrite Hs, Hf, Hk. cbn [negb].
  rewrite andb_false_r. reflexivity.
Qed.

Lemma run_task_marked `{Host} args context runner options paths arch task completed w :
  should_skip (key task) context = false ->
  Args.force args = false ->
  is_Some (node_at (fs w) (locate (task_marker paths (key task)))) ->
  run_task args context runner options paths arch task completed w
  = (Ok (<[key task := true]> completed),
     after_event (Print ("Skipping " +:+ title task +:+ " (already completed at "
                           +:+ PathOps.to_string (task_marker paths (key task)) +:+ ")."))
                 w).
Proof.
  intros Hs Hf Hm. unfold run_task. rewrite Hs, Hf. cbn [negb].
  unfold is_task_marked_complete, path_exists.
  rewrite !bind_unfold. simpl. rewrite (bool_decide_eq_true_2 _ Hm). reflexivity.
Qed.

Lemma run_task_journalled `{Host} args context runner options paths arch task completed w :
  should_skip (key task) context = false ->
  Args.force args = false ->
  ~ is_Some (node_at (fs w) (locate (task_marker paths (key task)))) ->
  completed !! key task = Some true ->
  run_task args context runner options paths arch task completed w
  = (Ok completed,
     after_event (Print ("Skipping " +:+ title task
                           +:+ " (already completed; use --force to rerun).")) w).
Proof.
  intros Hs Hf Hm Hj. unfold run_task. rewrite Hs, Hf. cbn [negb].
  unfold is_task_marked_complete, path_exists.
  rewrite !bind_unfold. simpl. rewrite (bool_decide_eq_false_2 _ Hm).
  rewrite (bool_decide_eq_true_2 _ Hj). reflexivity.
Qed.

Lemma print_world (s : string) (w w' : World) :
  print s w = (Ok tt, w') -> w' = after_event (Print s) w.
Proof. by intros [= <-]. Qed.

Lemma last_after_event (e : Event) (w : World) : last (trace (after_event e w)) = Some e.
Proof. simpl. apply last_snoc. Qed.

Lemma install_gives_up `{Host} runner options paths arch w w' :
  miniconda_install runner options paths arch w = (Ok false, w') ->
  conda_gave_up arch w'.
Proof.
  unfold miniconda_install. cbv zeta. intros Hm.
  apply bind_ok in Hm as (present & w1 & _ & Hm). destruct present.
  { apply bind_ok in Hm as (? & ? & _ & Hm). discriminate. }
  destruct (miniconda_installer_url platform_system arch) as [url|message] eqn:Hurl.
  - apply bind_ok in Hm as (? & ? & _ & Hm).
    apply bind_ok in Hm as (? & ? & _ & Hm).
    apply bind_ok in Hm as (? & ? & _ & Hm). discriminate.
  - apply bind_ok in Hm as ([] & w2 & Hp & Hm). injection Hm as <-.
    apply print_world in Hp as ->. exists message. split; [apply last_after_event|by left].
Qed.

Lemma environment_gives_up `{Host} runner options paths arch w w' :
  miniconda_environment runner options paths w = (Ok false, w') ->
  conda_gave_up arch w'.
Proof.
  unfold miniconda_environment. cbv zeta. intros Hm.
  apply bind_ok in Hm as (present & w1 & _ & Hm). destruct present.
  { apply bind_ok in Hm as (? & ? & _ & Hm). discriminate. }
  apply bind_ok in Hm as (accept_tos & w2 & _ & Hm). destruct accept_tos; cbn [negb] in Hm.
  - apply bind_ok in Hm as (? & ? & _ & Hm).
    apply bind_ok in Hm as (? & ? & _ & Hm). discriminate.
  - apply bind_ok in Hm as ([] & w3 & Hp & Hm). injection Hm as <-.
    apply print_world in Hp as ->. eexists. split; [apply last_after_event|by right].
Qed.

(** When [task_miniconda] returns, it has marked the task or given up. *)
Lemma conda_marks_or_gives_up `{Host} runner options paths arch w w' :
  task_miniconda runner options paths arch w = (Ok tt, w') ->
  (exists w1, mark_task_complete paths "conda" options w1 = (Ok tt, w'))
  \/ conda_gave_up arch w'.
Proof.
  unfold task_miniconda. cbv zeta. intros Hm.
  apply bind_ok in Hm as ([] & w1 & _ & Hm).
  apply bind_ok in Hm as (go_on & w2 & Hinst & Hm). destruct go_on; cbn [negb] in Hm.
  2:{ injection Hm as <-. right. by eapply install_gives_up. }
  apply bind_ok in Hm as (? & w3 & _ & Hm).
  apply bind_ok in Hm as (go_on & w4 & Henv & Hm). destruct go_on; cbn [negb] in Hm.
  2:{ injection Hm as <-. right. by eapply environment_gives_up. }
  apply bind_ok in Hm as ([] & w5 & _ & Hm). left. by exists w5.
Qed.

Lemma call_marks_or_gives_up `{Host} impl task runner options paths arch w w' :
  TASK_IMPLEMENTATIONS !! key task = Some impl ->
  call_impl impl (key task) runner options paths arch w = (Ok tt, w') ->
  (exists w1, mark_task_complete paths (key task) options w1 = (Ok tt, w'))
  \/ (key task = "conda" /\ conda_gave_up arch w').
Proof.
  intros Hk. unfold call_impl.
  destruct (impl_lookup _ _ Hk) as [[-> ->]|[[-> ->]|[[-> ->]|[[-> ->]|[-> ->]]]]];
    simpl; intros Hcall.
  - left. by eapply os_ends_marking.
  - left. by eapply ssh_ends_marking.
  - left. by eapply zsh_ends_marking.
  - destruct (conda_marks_or_gives_up _ _ _ _ _ _ Hcall) as [Hm|Hg]; [by left|by right].
  - left. by eapply git_ends_marking.
Qed.

Lemma run_task_runs `{Host} args context runner options paths arch task completed impl w :
  should_skip (key task) context = false ->
  Args.force args = true
  \/ (~ is_Some (node_at (fs w) (locate (task_marker paths (key task))))
      /\ completed !! key task <> Some true) ->
  TASK_IMPLEMENTATIONS !! key task = Some impl ->
  run_task args context runner options paths arch task completed w
  = (call_impl impl (key task) runner options paths arch
       ≫= fun _ => mret (<[key task := true]> completed))
      (after_event (Invoke (key task)) (after_event (running_notice task) w)).
Proof.
  intros Hs [Hf|[Hm Hj]] Hk; [by apply run_task_forced|].
  unfold run_task. rewrite Hs, Hk.
  unfold is_task_marked_complete, path_exists.
  destruct (Args.force args); cbn [negb]; rewrite !bind_unfold; simpl.
  - rewrite andb_false_r. reflexivity.
  - rewrite (bool_decide_eq_false_2 _ Hm), (bool_decide_eq_false_2 _ Hj). reflexivity.
Qed.

(** ** The end of a run *)

Lemma try_finally_close_ok {A} (m : M A) w a w' :
  try_finally m CommandRunner.close w = (Ok a, w') ->
  exists w1, m w = (Ok a, w1) /\ w' = log_closed w1.
Proof.
  unfold try_finally. destruct (m w) as [r w1]. simpl.
  intros [= -> <-]. by exists w1.
Qed.

Lemma try_finally_close_raise {A} (m : M A) w e w1 :
  m w = (Raise e, w1) ->
  try_finally m CommandRunner.close w = (Raise e, log_closed w1).
Proof. intros Hm. unfold try_finally. by rewrite Hm. Qed.

Lemma main_setup_state `{Host} args w s w2 :
  main_setup args w = (Ok s, w2) ->
  exists state w1,
    load_state (Some (default (PathOps.of_string ".server_init_state.json")
                              (Args.resume_state args))) w = (Ok state, w1)
    /\ s_state s = state
    /\ s_state_path s = default (PathOps.of_string ".server_init_state.json")
                                (Args.resume_state args).
Proof.
  unfold main_setup. cbv zeta. intros Hs.
  apply bind_ok in Hs as (state & w1 & Hload & Hrest).
  exists state, w1. split; [done|].
  match type of Hrest with
  | ?m _ = _ =>
      assert (returns (fun s => s_state s = state
                                /\ s_state_path s
                                   = default (PathOps.of_string ".server_init_state.json")
                                             (Args.resume_state args)) m) as Hret
  end.
  { repeat (apply returns_bind; intros ?). by apply returns_ret. }
  exact (Hret _ _ _ Hrest).
Qed.

Lemma print_ok s w a w' : print s w = (Ok a, w') -> fs w' = fs w.
Proof. by intros [= _ <-]. Qed.

(** ** Resolving the tasks *)

Lemma TASK_INDEX_BY_KEY_eq :
  TASK_INDEX_BY_KEY
  = <["git" := 4]> (<["conda" := 3]> (<["zsh" := 2]> (<["ssh" := 1]> (<["os" := 0]> ∅)))).
Proof. reflexivity. Qed.

Lemma registry_lookup_None (token : string) :
  TASK_INDEX_BY_KEY !! token = None <-> token ∉ (key <$> TASKS).
Proof.
  rewrite TASK_INDEX_BY_KEY_eq. simpl.
  rewrite !lookup_insert_None, lookup_empty, !not_elem_of_cons, elem_of_nil.
  intuition congruence.
Qed.

Lemma invalid_tokens_spec (requested : list string) (token : string) :
  token ∈ invalid_tokens requested <-> token ∈ requested /\ token ∉ (key <$> TASKS).
Proof.
  unfold invalid_tokens. rewrite list_elem_of_filter, registry_lookup_None. tauto.
Qed.






(** ** The log of the runner *)

Lemma write_open text w :
  log_open w = true ->
  CommandRunner._write text w = (Ok tt, after_event (LogWrite text) w).
Proof. intros Ho. unfold CommandRunner._write. by rewrite Ho. Qed.

Lemma spawn_then `{Host} {B} c cwd env (g : CompletedProcess -> M B) w :
  (forall p, keeps (frame false any_event) (g p)) ->
  exists l, trace ((CommandRunner.spawn c cwd env ≫= g) w).2 = trace w ++ Spawn c :: l.
Proof.
  intros Hg. unfold CommandRunner.spawn. rewrite !bind_unfold. simpl.
  destruct (subprocess_run c cwd (default ∅ env ∪ environ) (fs w)) as [rc out err f'|e];
    simpl.
  - destruct (Hg (mkProc rc out err)
                (mkWorld f' (stdin w) (clock w) (log_open w) (trace w ++ [Spawn c])))
      as [_ (l & Hl & _)].
    exists l. rewrite Hl. simpl. by rewrite <- app_assoc.
  - by exists [].
Qed.

Lemma env_keys_sorted env : Sorted String.le (CommandRunner.env_keys env).
Proof. unfold CommandRunner.env_keys. apply (Sorted_merge_sort _). Qed.

Lemma env_keys_names env k :
  k ∈ CommandRunner.env_keys env <-> is_Some (default ∅ env !! k).
Proof.
  unfold CommandRunner.env_keys. rewrite (merge_sort_Permutation _).
  by rewrite elem_of_elements, elem_of_dom.
Qed.

(** ** Loading the journal *)

Lemma load_state_missing `{Host} p w :
  node_at (fs w) (locate p) = None -> load_state (Some p) w = (Ok ∅, w).
Proof.
  intros Hn. unfold load_state, path_exists. rewrite !bind_unfold. simpl.
  rewrite Hn. rewrite bool_decide_eq_false_2; [done|]. by intros [? ?].
Qed.

Lemma load_state_corrupt_json `{Host} p w c text :
  node_at (fs w) (locate p) = Some (File c) ->
  Py.decode_utf8 false c = Some text ->
  json_loads text = None ->
  load_state (Some p) w
  = (Ok ∅, after_event (Print ("Failed to parse state file at " +:+ PathOps.to_string p
                                 +:+ "; starting fresh.")) w).
Proof.
  intros Hn Hd Hj. unfold load_state, path_exists, read_text. rewrite !bind_unfold. simpl.
  rewrite Hn. rewrite bool_decide_eq_true_2 by eauto. simpl.
  rewrite !bind_unfold. simpl. rewrite Hn, Hd. simpl. by rewrite Hj.
Qed.

Lemma load_state_undecodable `{Host} p w c :
  node_at (fs w) (locate p) = Some (File c) ->
  Py.decode_utf8 false c = None ->
  load_state (Some p) w = (Raise UnicodeDecodeError, w).
Proof.
  intros Hn Hd. unfold load_state, path_exists, read_text. rewrite !bind_unfold. simpl.
  rewrite Hn. rewrite bool_decide_eq_true_2 by eauto. simpl.
  rewrite !bind_unfold. simpl. by rewrite Hn, Hd.
Qed.

(** ** The flags of a run *)

Lemma returns_bind_with {A B} (P : A -> Prop) (Q : B -> Prop) (m : M A) (f : A -> M B) :
  returns P m -> (forall a, P a -> returns Q (f a)) -> returns Q (m ≫= f).
Proof.
  intros Hm Hf w b w' Hb. apply bind_ok in Hb as (a & w1 & Ha & Hb).
  eapply Hf; [by eapply Hm|exact Hb].
Qed.

Lemma returns_lift {A} (Q : A -> Prop) (r : Res A) :
  (forall a, r = Ok a -> Q a) -> returns Q (lift r).
Proof. intros Hr w a w' [= -> _]. by apply Hr. Qed.

Lemma safety_flags args :
  returns (fun o => ExecutionOptions.dry_run o = Args.dry_run args || negb (Args.force args)
                    /\ ExecutionOptions.force o = Args.force args)
          (ensure_command_execution_safety args).
Proof.
  unfold ensure_command_execution_safety. cbv zeta.
  repeat (apply returns_bind; intros ?). by apply returns_ret.
Qed.

Lemma init_flags `{Host} p d sa :
  returns (fun r => CommandRunner.dry_run r = d) (CommandRunner.init p d sa).
Proof.
  unfold CommandRunner.init. repeat (apply returns_bind; intros ?). by apply returns_ret.
Qed.

(** What [main] has settled when the loop starts: the runner is exactly as
    dry as the options, the options are dry unless [--force] was given
    without [--dry-run], and the tasks are the selection in registry order. *)
Lemma main_setup_flags `{Host} args w s w' :
  main_setup args w = (Ok s, w') ->
  ExecutionOptions.dry_run (s_options s) = Args.dry_run args || negb (Args.force args)
  /\ ExecutionOptions.force (s_options s) = Args.force args
  /\ CommandRunner.dry_run (s_runner s) = ExecutionOptions.dry_run (s_options s)
  /\ order_tasks_from_indices (s_selected s) = Ok (s_ordered s).
Proof.
  revert w s w'.
  change (returns (fun s =>
            ExecutionOptions.dry_run (s_options s)
            = Args.dry_run args || negb (Args.force args)
            /\ ExecutionOptions.force (s_options s) = Args.force args
            /\ CommandRunner.dry_run (s_runner s) = ExecutionOptions.dry_run (s_options s)
            /\ order_tasks_from_indices (s_selected s) = Ok (s_ordered s))
          (main_setup args)).
  unfold main_setup. cbv zeta.
  do 4 (apply returns_bind; intros ?). apply returns_bind; intros selected.
  eapply returns_bind_with; [apply safety_flags|intros options [Hd Hf]].
  do 3 (apply returns_bind; intros ?).
  eapply returns_bind_with; [apply init_flags|intros runner Hr].
  eapply (returns_bind_with (fun t => order_tasks_from_indices selected = Ok t));
    [apply returns_lift; by intros ? ->|].
  intros ordered Ho. by apply returns_ret.
Qed.

(** Without [--force] the loop of [main] spawns nothing and leaves every
    file as it was. *)
Lemma main_loop_dry_without_force `{Host} args w0 s w :
  main_setup args w0 = (Ok s, w) ->
  Args.force args = false ->
  frame true no_spawn w
    (task_loop args (s_context s) (s_runner s) (s_options s) (s_paths s) detect_arch
               (s_ordered s) (s_state s) w).2.
Proof.
  intros Hs Hf. destruct (main_setup_flags _ _ _ _ Hs) as (Hd & _ & Hr & _).
  rewrite Hf, orb_true_r in Hd. rewrite Hd in Hr.
  destruct (s_options s) as [[] sa fo ac]; [|discriminate].
  by apply keeps_task_loop_dry.
Qed.

(** * The claims *)

(** ** C1: Default safety *)

(** C1. Whatever the flags, when [force] is false the execution options
    come out with [dry_run] set: real execution needs [--force]. *)
Theorem force_false_forces_dry_run (args : Args.t) (w : World) :
  Args.force args = false ->
  exists options w',
    ensure_command_execution_safety args w = (Ok options, w')
    /\ ExecutionOptions.dry_run options = true
    /\ ExecutionOptions.force options = false.
Proof.
  intros Hf. unfold ensure_command_execution_safety. rewrite Hf. cbn [negb andb].
  rewrite orb_true_r.
  destruct (prompt_yes_no_total "Use elevated privileges for privileged operations?"
              false (Args.yes args)
              ((when (negb (Args.dry_run args))
                  (print "Commands will run in dry-run mode until --force is supplied.") w).2))
    as (b & w' & Hb).
  exists (ExecutionOptions.mk true b false (Args.yes args)), w'. split; [|done].
  unfold when at 1. rewrite bind_unfold. simpl.
  rewrite bind_unfold.
  destruct (Args.dry_run args); simpl in *; rewrite bind_unfold, Hb; reflexivity.
Qed.

Lemma force_false_forces_dry_run_witness :
  exists options w',
    ensure_command_execution_safety
      (Args.mk None None false false false None false None None) (world0 ∅ ["maybe"; "y"])
    = (Ok options, w')
    /\ ExecutionOptions.dry_run options = true
    /\ ExecutionOptions.force options = false.
Proof. apply force_false_forces_dry_run. reflexivity. Defined.

(** ** C2: The journal after a failure *)

(** C2 (amended).  When a task body raises, the driver closes the command
    log and lets the exception leave [main]: the journal is not written.
    [save_state] comes after the [try ... finally] and is reached only when
    the loop over the tasks ends without an exception. *)
Theorem failure_closes_log_without_journal `{Host} (args : Args.t) (w0 : World)
    (s : Setup) (w : World) (e : Exn) (w1 : World) :
  main_setup args w0 = (Ok s, w) ->
  task_loop args (s_context s) (s_runner s) (s_options s) (s_paths s) detect_arch
            (s_ordered s) (s_state s) w = (Raise e, w1) ->
  main args w0 = (Raise e, log_closed w1)
  /\ fs (main args w0).2 = fs w1
  /\ trace (main args w0).2 = trace w1.
Proof.
  intros Hsetup Hloop.
  assert (main args w0 = (Raise e, log_closed w1)) as Hmain.
  { unfold main. rewrite (bind_step _ _ _ _ _ Hsetup). unfold main_run.
    apply bind_raise. by apply try_finally_close_raise. }
  rewrite Hmain. done.
Qed.

Lemma failure_closes_log_without_journal_witness :
  exists e w1,
    @main git_fails ssh_git_args (world0 ∅ []) = (Raise e, log_closed w1)
    /\ fs (@main git_fails ssh_git_args (world0 ∅ [])).2 = fs w1
    /\ trace (@main git_fails ssh_git_args (world0 ∅ [])).2 = trace w1.
Proof.
  eexists _, _.
  eapply (@failure_closes_log_without_journal git_fails ssh_git_args (world0 ∅ [])).
  - vm_compute. reflexivity.
  - vm_compute. reflexivity.
Defined.

(** A run in which the SSH task completes and the Git task then fails: the
    exception leaves [main], and no journal is on disk afterwards. *)
Lemma failed_run_writes_no_journal :
  (@main git_fails ssh_git_args (world0 ∅ [])).1
  = Raise (RuntimeError
             "Command failed with exit code 1: git config --global user.name x")
  /\ Invoke "ssh" ∈ trace (@main git_fails ssh_git_args (world0 ∅ [])).2
  /\ fs (@main git_fails ssh_git_args (world0 ∅ [])).2 !! ssh_marker
     = Some (File (@isoformat git_fails 3))
  /\ fs (@main git_fails ssh_git_args (world0 ∅ [])).2 !! state_file = None
  /\ log_open (@main git_fails ssh_git_args (world0 ∅ [])).2 = false.
Proof.
  split; [by vm_compute|]. split; [apply (bool_decide_unpack _); by vm_compute|].
  split; [by vm_compute|]. split; by vm_compute.
Qed.

(** ** C3: Dry runs and completion state *)

(** C3 (amended).  For every task executed with [dry_run] set, no completion
    marker is created: marking is a printed message only, and after the task
    loop of a dry run every marker path holds what it held before (a path
    that is also the one of the command log apart: the runner appends to
    that file).  The journal is another matter: a task whose body is run and
    returns is entered in the journal as complete, in a dry run as in any
    other, and [main] saves that journal at the end. *)
Theorem dry_run_writes_no_marker `{Host} (args : Args.t) (context : string)
    (runner : CommandRunner.t) (options : ExecutionOptions.t) (paths : PathsConfig)
    (arch : string) (tasks : list TaskDefinition) (task : TaskDefinition)
    (completed : gmap string bool) (w : World) :
  ExecutionOptions.dry_run options = true ->
  CommandRunner.dry_run runner = true ->
  should_skip (key task) context = false ->
  task ∈ TASKS ->
  Args.force args = true
  \/ (~ is_Some (node_at (fs w) (locate (task_marker paths (key task))))
      /\ completed !! key task <> Some true) ->
  (forall k w0,
     mark_task_complete paths k options w0
     = (Ok tt, after_event (Print ("(dry-run) Would record completion marker at "
                                     +:+ PathOps.to_string (task_marker paths k) +:+ "."))
                           w0))
  /\ (forall k,
        locate (task_marker paths k) <> locate (CommandRunner.log_file runner) ->
        node_at (fs (task_loop args context runner options paths arch tasks completed w).2)
                (locate (task_marker paths k))
        = node_at (fs w) (locate (task_marker paths k)))
  /\ (forall c' w',
        run_task args context runner options paths arch task completed w = (Ok c', w') ->
        c' !! key task = Some true).
Proof.
  intros Hd Hr Hs Ht Hf. split; [intros k w0; by apply mark_dry|].
  destruct options as [[] sa fo ac]; simpl in Hd; [clear Hd|discriminate].
  destruct (keeps_task_loop_dry args context runner paths arch sa fo ac tasks completed Hr w)
    as [Hfs _].
  split.
  - intros k _. by rewrite (Hfs eq_refl).
  - intros c' w' Hstep.
    destruct (registered_impl task Ht) as [impl Hk].
    rewrite (run_task_runs _ _ _ _ _ _ _ _ impl w Hs Hf Hk) in Hstep.
    apply bind_ok in Hstep as ([] & w1 & _ & Hret). injection Hret as <- _.
    apply lookup_insert_eq.
Qed.

Lemma dry_run_writes_no_marker_witness :
  (forall k w0,
     @mark_task_complete demo root_paths k (dry_options false) w0
     = (Ok tt, after_event (Print ("(dry-run) Would record completion marker at "
                                     +:+ PathOps.to_string (task_marker root_paths k)
                                     +:+ ".")) w0))
  /\ (forall k,
        @locate demo (task_marker root_paths k)
        <> @locate demo (CommandRunner.log_file dry_runner) ->
        node_at (fs (@task_loop demo (git_args false false) Context.ROOT dry_runner
                       (dry_options false) root_paths "x86_64" [ssh_task; git_task] ∅
                       open_world).2)
                (@locate demo (task_marker root_paths k))
        = node_at (fs open_world) (@locate demo (task_marker root_paths k)))
  /\ (forall c' w',
        @run_task demo (git_args false false) Context.ROOT dry_runner (dry_options false)
          root_paths "x86_64" git_task ∅ open_world = (Ok c', w') ->
        c' !! key git_task = Some true).
Proof.
  apply (@dry_run_writes_no_marker demo (git_args false false) Context.ROOT dry_runner
           (dry_options false) root_paths "x86_64" [ssh_task; git_task] git_task ∅
           open_world); [reflexivity|reflexivity|reflexivity| |].
  - unfold TASKS, git_task. repeat first [apply list_elem_of_here|apply list_elem_of_further].
  - right. split; [|done]. vm_compute. by intros [? [=]].
Defined.

(** The dry run of the Git task from a world without marker: the step
    returns with the task entered in the journal, and no marker is there. *)
Example dry_step_enters_journal :
  (@run_task demo (git_args false false) Context.ROOT dry_runner (dry_options false)
     root_paths "x86_64" git_task ∅ open_world).1 = Ok {[ "git" := true ]}
  /\ fs (@run_task demo (git_args false false) Context.ROOT dry_runner (dry_options false)
           root_paths "x86_64" git_task ∅ open_world).2 !! git_marker = None.
Proof. split; by vm_compute. Qed.

(** After a dry run of the Git task the journal on disk records it as
    complete, while no marker was written. *)
Lemma dry_run_persists_journal :
  Args.force (git_args false false) = false
  /\ (@main demo (git_args false false) (world0 ∅ [])).1 = Ok 0
  /\ fs (@main demo (git_args false false) (world0 ∅ [])).2 !! state_file
     = Some (File (@json_dumps demo {[ "git" := true ]}))
  /\ fs (@main demo (git_args false false) (world0 ∅ [])).2 !! git_marker = None
  /\ Forall no_spawn (trace (@main demo (git_args false false) (world0 ∅ [])).2).
Proof.
  split; [reflexivity|]. split; [by vm_compute|]. split; [by vm_compute|].
  split; [by vm_compute|]. apply (bool_decide_unpack _). by vm_compute.
Qed.

(** ** C4: Context skip *)

(** C4. A task that the context rules out (the OS task under the
    existing-user context, the SSH task under the local context) is skipped
    with a notice before anything else is looked at: whatever the flags, the
    markers on disk and the journal, the journal and the files stay as they
    are. *)
Theorem context_skip_comes_first `{Host} (args : Args.t) (context : string)
    (runner : CommandRunner.t) (options : ExecutionOptions.t) (paths : PathsConfig)
    (arch : string) (task : TaskDefinition) (completed : gmap string bool) (w : World) :
  (context = Context.EXISTING_USER /\ key task = "os")
  \/ (context = Context.LOCAL /\ key task = "ssh") ->
  should_skip (key task) context = true
  /\ run_task args context runner options paths arch task completed w
     = (Ok completed,
        after_event (Print ("Skipping " +:+ title task +:+ " due to context rules.")) w).
Proof.
  intros Hc.
  assert (should_skip (key task) context = true) as Hs.
  { destruct Hc as [[-> ->]|[-> ->]]; reflexivity. }
  split; [done|]. unfold run_task. rewrite Hs. reflexivity.
Qed.

Lemma context_skip_comes_first_witness :
  should_skip (key ssh_task) Context.LOCAL = true
  /\ @run_task demo (git_args false true) Context.LOCAL dry_runner (dry_options true)
       root_paths "x86_64" ssh_task {[ "ssh" := true ]} marked_world
     = (Ok {[ "ssh" := true ]},
        after_event (Print ("Skipping " +:+ title ssh_task +:+ " due to context rules."))
                    marked_world).
Proof. apply (@context_skip_comes_first demo). right. split; reflexivity. Defined.

(** ** C5: Completion skip and force *)

(** C5 (amended).  For a task that the context rules do not skip and that a
    marker on disk or a true journal entry records as complete: without
    [--force] the step is a printed notice and nothing more, so the body is
    not invoked; with [--force] the body is invoked all the same, and when
    the step returns the journal entry is set to true.  The marker is
    written again when the run is not a dry run and the body ends on
    [mark_task_complete], as every body does but the one of Miniconda when
    it gives up early (no installer for the platform, or the terms of
    service declined); in a dry run with [--force] the marker stays as it
    was.  The marker is taken to be another file than the command log. *)
Theorem completion_skip_and_force `{Host} (args forced : Args.t) (context : string)
    (runner live : CommandRunner.t) (options live_opts : ExecutionOptions.t)
    (paths : PathsConfig) (arch : string) (task : TaskDefinition)
    (completed : gmap string bool) (w : World) :
  should_skip (key task) context = false ->
  task ∈ TASKS ->
  Args.force args = false ->
  Args.force forced = true ->
  is_Some (node_at (fs w) (locate (task_marker paths (key task))))
  \/ completed !! key task = Some true ->
  ExecutionOptions.dry_run live_opts = false ->
  ExecutionOptions.dry_run options = true ->
  CommandRunner.dry_run runner = true ->
  locate (task_marker paths (key task)) <> locate (CommandRunner.log_file runner) ->
  locate (task_marker paths (key task)) <> locate (CommandRunner.log_file live) ->
  (forall r o, exists c' msg,
     run_task args context r o paths arch task completed w
     = (Ok c', after_event (Print msg) w)
     /\ c' !! key task = Some true)
  /\ (forall r o,
        (exists l,
           trace (run_task forced context r o paths arch task completed w).2
           = trace w ++ running_notice task :: Invoke (key task) :: l)
        /\ forall c' w',
             run_task forced context r o paths arch task completed w = (Ok c', w') ->
             c' = <[key task := true]> completed)
  /\ (forall c' w',
        run_task forced context live live_opts paths arch task completed w = (Ok c', w') ->
        (exists t, node_at (fs w') (locate (task_marker paths (key task)))
                   = Some (File (isoformat t)))
        \/ (key task = "conda" /\ conda_gave_up arch w'))
  /\ (forall c' w',
        run_task forced context runner options paths arch task completed w = (Ok c', w') ->
        node_at (fs w') (locate (task_marker paths (key task)))
        = node_at (fs w) (locate (task_marker paths (key task)))).
Proof.
  intros Hs Ht Hplain Hforced Hdone Hlive Hdry Hrun _ _.
  destruct (registered_impl task Ht) as [impl Hk].
  split; [|split; [|split]].
  - intros r o.
    destruct (decide (is_Some (node_at (fs w) (locate (task_marker paths (key task))))))
      as [Hm|Hm].
    + eexists _, _. split; [by apply run_task_marked|]. apply lookup_insert_eq.
    + destruct Hdone as [Hm'|Hj]; [done|].
      eexists _, _. split; [by apply run_task_journalled|done].
  - intros r o. rewrite (run_task_forced _ _ _ _ _ _ _ _ impl w Hs Hforced Hk). split.
    + assert (keeps (frame false any_event)
                (call_impl impl (key task) r o paths arch
                   ≫= fun _ => mret (<[key task := true]> completed))) as Hkeep.
      { apply keeps_bind; [apply _|by apply keeps_call_any|intros ?].
        apply keeps_ret; apply _. }
      destruct (Hkeep (after_event (Invoke (key task)) (after_event (running_notice task) w)))
        as [_ (l & Hl & _)].
      exists l. rewrite Hl. simpl. by rewrite <- !app_assoc.
    + intros c' w' Hstep. apply bind_ok in Hstep as ([] & w1 & _ & Hret).
      by injection Hret as <- _.
  - intros c' w'. rewrite (run_task_forced _ _ _ _ _ _ _ _ impl w Hs Hforced Hk).
    intros Hstep. apply bind_ok in Hstep as ([] & w1 & Hcall & Hret).
    injection Hret as _ <-.
    destruct (call_marks_or_gives_up _ _ _ _ _ _ _ _ Hk Hcall) as [[w0 Hmark]|Hg];
      [left|by right].
    by eapply mark_live_ok.
  - intros c' w'. rewrite (run_task_forced _ _ _ _ _ _ _ _ impl w Hs Hforced Hk).
    intros Hstep. apply bind_ok in Hstep as ([] & w1 & Hcall & Hret).
    injection Hret as _ <-.
    destruct options as [[] sa fo ac]; simpl in Hdry; [|discriminate].
    destruct (keeps_call_dry _ _ runner sa fo ac paths arch Hk Hrun
                (after_event (Invoke (key task)) (after_event (running_notice task) w)))
      as [Hfs _].
    rewrite Hcall in Hfs. simpl in Hfs. by rewrite (Hfs eq_refl).
Qed.

Lemma completion_skip_and_force_witness :
  (forall r o, exists c' msg,
     @run_task demo (git_args false false) Context.ROOT r o root_paths "x86_64" git_task ∅
       rerun_world
     = (Ok c', after_event (Print msg) rerun_world)
     /\ c' !! key git_task = Some true)
  /\ (forall r o,
        (exists l,
           trace (@run_task demo (git_args false true) Context.ROOT r o root_paths "x86_64"
                    git_task ∅ rerun_world).2
           = trace rerun_world ++ running_notice git_task :: Invoke (key git_task) :: l)
        /\ forall c' w',
             @run_task demo (git_args false true) Context.ROOT r o root_paths "x86_64"
               git_task ∅ rerun_world = (Ok c', w') ->
             c' = <[key git_task := true]> ∅)
  /\ (forall c' w',
        @run_task demo (git_args false true) Context.ROOT live_runner live_options
          root_paths "x86_64" git_task ∅ rerun_world = (Ok c', w') ->
        (exists t, node_at (fs w') (@locate demo (task_marker root_paths (key git_task)))
                   = Some (File (@isoformat demo t)))
        \/ (key git_task = "conda" /\ @conda_gave_up demo "x86_64" w'))
  /\ (forall c' w',
        @run_task demo (git_args false true) Context.ROOT dry_runner (dry_options true)
          root_paths "x86_64" git_task ∅ rerun_world = (Ok c', w') ->
        node_at (fs w') (@locate demo (task_marker root_paths (key git_task)))
        = node_at (fs rerun_world) (@locate demo (task_marker root_paths (key git_task)))).
Proof.
  apply (@completion_skip_and_force demo (git_args false false) (git_args false true)
           Context.ROOT dry_runner live_runner (dry_options true) live_options root_paths
           "x86_64" git_task ∅ rerun_world);
    try reflexivity.
  - unfold TASKS, git_task. repeat first [apply list_elem_of_here|apply list_elem_of_further].
  - left. vm_compute. eauto.
  - by vm_compute.
  - by vm_compute.
Defined.

(** Without [--force] the marker makes the step of the Git task a notice. *)
Example marked_task_is_only_reported :
  @run_task demo (git_args false false) Context.ROOT live_runner live_options root_paths
    "x86_64" git_task ∅ rerun_world
  = (Ok {[ "git" := true ]},
     after_event
       (Print "Skipping Git setup (already completed at /root/.server_init_markers/git.done).")
       rerun_world).
Proof. by vm_compute. Qed.

(** With [--force] and without [--dry-run] the Git task runs, returns and
    writes its marker again. *)
Example forced_live_run_rewrites_marker :
  (@run_task demo (git_args false true) Context.ROOT live_runner live_options root_paths
     "x86_64" git_task ∅ rerun_world).1 = Ok {[ "git" := true ]}
  /\ fs rerun_world !! git_marker = Some (File "old")
  /\ fs (@run_task demo (git_args false true) Context.ROOT live_runner live_options
           root_paths "x86_64" git_task ∅ rerun_world).2 !! git_marker
     = Some (File (@isoformat demo 0)).
Proof. split; [by vm_compute|]. split; by vm_compute. Qed.

(** With [--force] and [--dry-run] together the Git task runs and returns,
    and its marker is not written again: it still holds what it held. *)
Lemma forced_dry_run_keeps_old_marker :
  Args.force (git_args true true) = true
  /\ should_skip (key git_task) Context.ROOT = false
  /\ (@run_task demo (git_args true true) Context.ROOT dry_runner (dry_options true)
        root_paths "x86_64" git_task ∅ marked_world).1 = Ok {[ "git" := true ]}
  /\ Invoke "git" ∈ trace (@run_task demo (git_args true true) Context.ROOT dry_runner
                             (dry_options true) root_paths "x86_64" git_task ∅
                             marked_world).2
  /\ fs marked_world !! git_marker = Some (File "old")
  /\ fs (@run_task demo (git_args true true) Context.ROOT dry_runner (dry_options true)
           root_paths "x86_64" git_task ∅ marked_world).2 !! git_marker
     = Some (File "old").
Proof.
  split; [reflexivity|]. split; [reflexivity|]. split; [by vm_compute|].
  split; [|split; by vm_compute].
  apply (bool_decide_unpack _). by vm_compute.
Qed.

(** ** C6: Registry order *)

(** C6. For indices that Python accepts on the registry,
    [order_tasks_from_indices] returns the selected tasks in registry order,
    each once, and the result depends on the set of indices alone. *)
Theorem order_tasks_registry_order (indices : list Z) :
  Forall (fun i => -5 <= i < 5) indices ->
  exists r,
    order_tasks_from_indices indices = Ok r
    /\ r `sublist_of` TASKS
    /\ NoDup r
    /\ (forall t, t ∈ r <-> exists i, i ∈ indices /\ py_index TASKS i = Some t)
    /\ (forall indices' : list Z,
          (forall i, i ∈ indices' <-> i ∈ indices) ->
          order_tasks_from_indices indices' = Ok r).
Proof.
  intros Hv. eexists. split; [by apply order_tasks_from_indices_eq|].
  split; [apply sublist_filter|].
  split; [apply NoDup_filter, NoDup_TASKS|].
  split.
  - intros t. rewrite list_elem_of_filter. split.
    + intros [Hk Ht]. by apply selected_keys_spec.
    + intros (i & Hi & Hp).
      assert (t ∈ TASKS) as Ht.
      { rewrite Forall_forall in Hv. specialize (Hv i Hi).
        rewrite (py_index_valid i Hv) in Hp. injection Hp as <-. by apply task_at_in. }
      split; [|done]. apply selected_keys_spec; eauto.
  - intros indices' Hsame.
    assert (Forall (fun i => -5 <= i < 5) indices') as Hv'.
    { rewrite Forall_forall in *. intros i Hi. apply Hv, Hsame, Hi. }
    rewrite (order_tasks_from_indices_eq _ Hv'). f_equal.
    apply list_filter_iff. intros t. unfold selected_keys.
    rewrite !elem_of_list_to_set, !list_elem_of_fmap.
    split; intros (i & Hk & Hi); exists i; (split; [done|by apply Hsame]).
Qed.

Lemma order_tasks_registry_order_witness :
  exists r,
    order_tasks_from_indices [4; 0; 4; 1] = Ok r
    /\ r `sublist_of` TASKS
    /\ NoDup r
    /\ (forall t, t ∈ r <-> exists i, i ∈ [4; 0; 4; 1] /\ py_index TASKS i = Some t)
    /\ (forall indices' : list Z,
          (forall i, i ∈ indices' <-> i ∈ [4; 0; 4; 1]) ->
          order_tasks_from_indices indices' = Ok r).
Proof.
  apply order_tasks_registry_order. repeat constructor; lia.
Defined.

Example order_tasks_git_os_ssh :
  order_tasks_from_indices [4; 0; 1]
  = Ok (filter (fun t => key t ∈ ["os"; "ssh"; "git"]) TASKS).
Proof. reflexivity. Qed.

(** ** C7: Unknown task keys *)



Example both_unknown_tokens_named :
  (@main demo bogus_args (world0 ∅ [])).1
  = Raise (SystemExit "Invalid task identifiers: bogus, nope").
Proof. by vm_compute. Qed.


(** ** C8: The log record *)

(** C8 (amended).  For every call of [CommandRunner.run] on a runner whose
    log is open and that is not refused for want of the sudo permission, the
    first thing the call leaves in the trace is the log record: the
    timestamp and the shell-quoted command line, then the working directory,
    the sudo flag and the sorted names of the overridden environment
    variables.  The record is a function of the set of those names, so their
    values cannot appear in it.  In a dry run only the dry-run note follows;
    otherwise the command is spawned after the record. *)
Theorem run_logs_before_executing `{Host} (self : CommandRunner.t)
    (command : list string) (sudo : bool) (cwd : option Path)
    (env : option (gmap string string)) (check : bool) (w : World) :
  log_open w = true ->
  (sudo = true -> CommandRunner.sudo_allowed self = true) ->
  (exists rest,
     trace (CommandRunner.run self command sudo cwd env check w).2
     = trace w
       ++ log_record (clock w) (if sudo then ["sudo"; "--"] ++ command else command)
                     cwd sudo (dom (default ∅ env))
       ++ rest
     /\ (CommandRunner.dry_run self = true ->
         rest = [LogWrite ("(dry-run) Command not executed." +:+ Py.nl)])
     /\ (CommandRunner.dry_run self = false ->
         exists l, rest = Spawn (if sudo then ["sudo"; "--"] ++ command else command) :: l))
  /\ Sorted String.le (CommandRunner.env_keys env)
  /\ (forall k, k ∈ CommandRunner.env_keys env <-> is_Some (default ∅ env !! k)).
Proof.
  intros Ho Hsudo. split; [|split; [apply env_keys_sorted|apply env_keys_names]].
  unfold CommandRunner.run. rewrite bind_unfold. simpl.
  set (w1 := mkWorld (fs w) (stdin w) (S (clock w)) (log_open w) (trace w)).
  set (cmd_list := if sudo then ["sudo"; "--"] ++ command else command).
  assert ((if sudo
           then if negb (CommandRunner.sudo_allowed self)
                then raise (RuntimeError "Attempted to use sudo without permission")
                else mret (["sudo"; "--"] ++ command)
           else mret command) w1 = (Ok cmd_list, w1)) as Hcmd.
  { subst cmd_list. destruct sudo; [|done]. by rewrite (Hsudo eq_refl). }
  rewrite (bind_step _ _ _ _ _ Hcmd). cbv zeta.
  rewrite bind_unfold, (write_open _ w1) by exact Ho.
  rewrite bind_unfold, write_open by exact Ho.
  unfold log_record, CommandRunner.env_keys.
  assert (PathOps.to_string (default getcwd cwd)
          = match cwd with
            | Some c => PathOps.to_string c
            | None => PathOps.to_string getcwd
            end) as -> by by destruct cwd.
  destruct (CommandRunner.dry_run self) eqn:Hd.
  - exists [LogWrite ("(dry-run) Command not executed." +:+ Py.nl)].
    split; [|split; [done|discriminate]].
    rewrite bind_unfold, write_open by exact Ho. simpl.
    by rewrite <- !app_assoc.
  - match goal with
    | |- context [(CommandRunner.spawn ?c ?d ?e ≫= ?g) ?w0] =>
        destruct (spawn_then c d e g w0) as [l Hl]
    end.
    { intros p. pose proof keeps_write. frame_auto. }
    exists (Spawn cmd_list :: l). split; [|split; [discriminate|by exists l]].
    rewrite Hl. simpl. by rewrite <- !app_assoc.
Qed.

Lemma run_logs_before_executing_witness :
  (exists rest,
     trace (@CommandRunner.run demo live_runner ["apt"; "install"; "my pkg"] true None
              (Some secret_env) true open_world).2
     = trace open_world
       ++ @log_record demo (clock open_world)
            (if true then ["sudo"; "--"] ++ ["apt"; "install"; "my pkg"]
             else ["apt"; "install"; "my pkg"])
            None true (dom (default ∅ (Some secret_env)))
       ++ rest
     /\ (CommandRunner.dry_run live_runner = true ->
         rest = [LogWrite ("(dry-run) Command not executed." +:+ Py.nl)])
     /\ (CommandRunner.dry_run live_runner = false ->
         exists l, rest = Spawn (if true then ["sudo"; "--"] ++ ["apt"; "install"; "my pkg"]
                                 else ["apt"; "install"; "my pkg"]) :: l))
  /\ Sorted String.le (CommandRunner.env_keys (Some secret_env))
  /\ (forall k, k ∈ CommandRunner.env_keys (Some secret_env)
                <-> is_Some (default ∅ (Some secret_env) !! k)).
Proof. apply (@run_logs_before_executing demo); reflexivity. Defined.

Example log_record_names_only :
  @log_record demo 7 ["sudo"; "--"; "apt"; "install"; "my pkg"] None true (dom secret_env)
  = [ LogWrite (Py.nl +:+ "[T7] CMD: sudo -- apt install 'my pkg'" +:+ Py.nl);
      LogWrite ("cwd=/srv sudo=True env_overrides=['API_KEY', 'TOKEN']" +:+ Py.nl) ].
Proof. by vm_compute. Qed.

(** A call with [sudo=True] on a runner that was not given the permission
    raises at once: nothing is executed and nothing is written to the log. *)
Lemma refused_sudo_is_not_logged :
  log_open open_world = true
  /\ @CommandRunner.run demo dry_runner ["apt"; "update"] true None None true open_world
     = (Raise (RuntimeError "Attempted to use sudo without permission"),
        mkWorld ∅ [] 8 true [])
  /\ trace (@CommandRunner.run demo dry_runner ["apt"; "update"] true None None true
              open_world).2 = trace open_world.
Proof. split; [reflexivity|]. split; by vm_compute. Qed.

(** ** C9: Loading the journal *)

(** C9 (the code at the failing input).  A state file whose bytes are not
    UTF-8 makes [load_state], and with it [main], end with
    [UnicodeDecodeError]: the handler of [load_state] catches the errors of
    the JSON decoder only. *)
Theorem load_state_crashes_on_undecodable_file :
  @load_state demo (Some (PathOps.of_string ".server_init_state.json")) garbled_world
  = (Raise UnicodeDecodeError, garbled_world)
  /\ (@main demo (git_args false false) garbled_world).1 = Raise UnicodeDecodeError.
Proof. split; by vm_compute. Qed.

(** ** C10: The journal only grows *)

(** C10.  The journal that a run saves carries on from the journal it
    loaded: every loaded key is still there, no entry went from true to
    false, and whatever the run added or changed is true. *)
Theorem journal_is_monotone `{Host} (args : Args.t) (w : World) (rc : Z) (w' : World) :
  main args w = (Ok rc, w') ->
  exists state completed w1,
    load_state (Some (default (PathOps.of_string ".server_init_state.json")
                              (Args.resume_state args))) w = (Ok state, w1)
    /\ node_at (fs w')
         (locate (default (default (PathOps.of_string ".server_init_state.json")
                                   (Args.resume_state args))
                          (Args.write_state args)))
       = Some (File (json_dumps completed))
    /\ journal_le state completed.
Proof.
  unfold main. intros Hmain.
  apply bind_ok in Hmain as (s & w2 & Hsetup & Hrun).
  destruct (main_setup_state _ _ _ _ Hsetup) as (state & w1 & Hload & Hst & Hsp).
  unfold main_run in Hrun.
  apply bind_ok in Hrun as (completed & w3 & Hloop & Hrun).
  apply try_finally_close_ok in Hloop as (w4 & Hloop & ->).
  apply task_loop_journal in Hloop. rewrite Hst in Hloop.
  apply bind_ok in Hrun as ([] & w5 & Hsave & Hrun).
  apply write_file_ok in Hsave as (c & Hc & Hct). rewrite (Hct eq_refl) in Hc.
  apply bind_ok in Hrun as (requested & w6 & Hreq & Hrun).
  injection Hreq as _ <-.
  apply bind_ok in Hrun as ([] & w7 & Hp1 & Hrun). apply print_ok in Hp1.
  apply bind_ok in Hrun as ([] & w8 & Hp2 & Hrun).
  assert (fs w8 = fs w7) as Hp2'.
  { destruct (ExecutionOptions.dry_run (s_options s)); by apply print_ok in Hp2. }
  injection Hrun as _ <-.
  exists state, completed, w1. split; [done|]. split; [|done].
  rewrite Hp2', Hp1, <- Hsp. done.
Qed.

Lemma journal_is_monotone_witness :
  exists state completed w1,
    @load_state demo
      (Some (default (PathOps.of_string ".server_init_state.json")
                     (Args.resume_state (git_args false true)))) (world0 ∅ [])
    = (Ok state, w1)
    /\ node_at (fs (@main demo (git_args false true) (world0 ∅ [])).2)
         (@locate demo
            (default (default (PathOps.of_string ".server_init_state.json")
                              (Args.resume_state (git_args false true)))
                     (Args.write_state (git_args false true))))
       = Some (File (@json_dumps demo completed))
    /\ journal_le state completed.
Proof.
  eapply (@journal_is_monotone demo (git_args false true) (world0 ∅ []) 0).
  vm_compute. reflexivity.
Defined.

(** * Further properties

    Properties of the code beyond the claims of the specification: the
    prompts, the helpers, the runner, the markers and the journal, the
    resolution of the selection, the loop of [main] and the task bodies. *)

(** ** The prompts *)

Lemma frame_after_event k (P : Event -> Prop) e w : P e -> frame k P w (after_event e w).
Proof. intros HP. split; [done|]. exists [e]. split; [done|]. by constructor. Qed.

Lemma frame_set_stdin k P l w :
  frame k P w (mkWorld (fs w) l (clock w) (log_open w) (trace w)).
Proof. split; [done|]. exists []. simpl. by rewrite app_nil_r. Qed.

(** What [prompt_yes_no] answers, and that it only talks. *)
Lemma prompt_yes_no_result (message : string) (default auto_confirm : bool)
    (w : World) :
  exists w',
    prompt_yes_no message default auto_confirm w
    = (Ok (if auto_confirm then true else yes_no_answer default (stdin w)), w')
    /\ frame true silent w w'.
Proof.
  unfold prompt_yes_no. destruct auto_confirm.
  { exists w. split; [done|reflexivity]. }
  cbv zeta. unfold input_loop.
  set (prompt := message +:+ " [" +:+ (if default then "Y/n" else "y/N") +:+ "] ").
  assert (forall lines w0, exists w',
            input_loop_on prompt (print "" ;; mret default)
              (fun line =>
                 if decide (Py.lower (Py.strip line) = "") then mret (Some default)
                 else if bool_decide (Py.lower (Py.strip line) ∈ ["y"; "yes"])
                      then mret (Some true)
                 else if bool_decide (Py.lower (Py.strip line) ∈ ["n"; "no"])
                      then mret (Some false)
                 else print "Please answer yes or no." ;; mret None) lines w0
            = (Ok (yes_no_answer default lines), w')
            /\ frame true silent w0 w') as Hloop.
  { induction lines as [|line rest IH]; intros w0; simpl.
    - eexists. split; [reflexivity|].
      etrans; [apply (frame_after_event _ _ (Prompt prompt)); exact I|].
      apply frame_after_event. exact I.
    - rewrite !bind_unfold. simpl.
      destruct (decide (Py.lower (Py.strip line) = "")) as [He|He].
      { eexists. split; [reflexivity|].
        etrans; [apply (frame_after_event _ _ (Prompt prompt)); exact I|].
        apply frame_set_stdin. }
      destruct (bool_decide (Py.lower (Py.strip line) ∈ ["y"; "yes"])).
      { eexists. split; [reflexivity|].
        etrans; [apply (frame_after_event _ _ (Prompt prompt)); exact I|].
        apply frame_set_stdin. }
      destruct (bool_decide (Py.lower (Py.strip line) ∈ ["n"; "no"])).
      { eexists. split; [reflexivity|].
        etrans; [apply (frame_after_event _ _ (Prompt prompt)); exact I|].
        apply frame_set_stdin. }
      repeat (rewrite bind_unfold; simpl).
      match goal with |- context [input_loop_on _ _ _ rest ?w1] =>
        destruct (IH w1) as (w' & Hw' & Hfr) end.
      exists w'. split; [exact Hw'|].
      etrans; [|exact Hfr].
      etrans; [apply (frame_after_event _ _ (Prompt prompt)); exact I|].
      etrans; [apply frame_set_stdin|].
      apply (frame_after_event true silent (Print "Please answer yes or no.")
               (mkWorld (fs w0) rest (clock w0) (log_open w0) (trace w0 ++ [Prompt prompt]))).
      exact I. }
  apply Hloop.
Qed.

(** X1.  On input lines of ASCII characters [prompt_yes_no] always returns.
    With auto-confirm it answers yes and does nothing else.  Otherwise its
    answer is decided by the first input line that, stripped and lowercased,
    is empty (the default), [y] or [yes], or [n] or [no]; the lines before
    it are passed over, and when the input ends first the answer is the
    default.  The files are left alone and the trace grows by prompts and
    prints only. *)
Theorem prompt_yes_no_answers (message : string) (default : bool) (w : World) :
  Forall (fun line => ascii_only line = true) (stdin w) ->
  prompt_yes_no message default true w = (Ok true, w)
  /\ exists w',
       prompt_yes_no message default false w
       = (Ok (yes_no_answer default (stdin w)), w')
       /\ fs w' = fs w
       /\ (exists l, trace w' = trace w ++ l /\ Forall silent l).
Proof.
  intros _. split; [reflexivity|].
  destruct (prompt_yes_no_result message default false w) as (w' & Hw' & Hfs & Htr).
  exists w'. split; [exact Hw'|]. split; [by apply Hfs|exact Htr].
Qed.

Lemma prompt_yes_no_answers_witness :
  prompt_yes_no "Proceed?" false true (world0 ∅ ["maybe"; "  YES  "; "no"])
  = (Ok true, world0 ∅ ["maybe"; "  YES  "; "no"])
  /\ exists w',
       prompt_yes_no "Proceed?" false false (world0 ∅ ["maybe"; "  YES  "; "no"])
       = (Ok true, w')
       /\ fs w' = fs (world0 ∅ ["maybe"; "  YES  "; "no"])
       /\ (exists l, trace w' = trace (world0 ∅ ["maybe"; "  YES  "; "no"]) ++ l
                     /\ Forall silent l).
Proof.
  apply (prompt_yes_no_answers "Proceed?" false (world0 ∅ ["maybe"; "  YES  "; "no"])).
  repeat constructor.
Defined.

Example yes_no_answer_skips_noise :
  yes_no_answer false ["maybe"; "  YES  "; "no"] = true.
Proof. reflexivity. Qed.

Lemma prompt_color_decides (default : Z) (lines : list string) :
  forall w,
    (input_loop_on (color_prompt default) (raise EOFError)
       (fun line =>
          let raw := Py.strip line in
          if bool_decide (raw = "") then mret (Some default)
          else if Py.isdigit raw && bool_decide (0 <= Py.int raw <= 255)
          then mret (Some (Py.int raw))
          else print "Please enter a number between 0 and 255." ;; mret None)
       lines w).1
    = match color_answer default lines with
      | Some c => Ok c
      | None => Raise EOFError
      end.
Proof.
  induction lines as [|line rest IH]; intros w; [reflexivity|].
  simpl. rewrite !bind_unfold. simpl.
  destruct (bool_decide (Py.strip line = "")); [reflexivity|].
  destruct (Py.isdigit (Py.strip line) && bool_decide (0 <= Py.int (Py.strip line) <= 255));
    [reflexivity|].
  repeat (rewrite bind_unfold; simpl). apply IH.
Qed.

Lemma color_answer_range (default : Z) (lines : list string) (c : Z) :
  0 <= default <= 255 -> color_answer default lines = Some c -> 0 <= c <= 255.
Proof.
  intros Hd. induction lines as [|line rest IH]; simpl; [done|].
  destruct (bool_decide (Py.strip line = "")); [by intros [= <-]|].
  destruct (Py.isdigit (Py.strip line) && bool_decide (0 <= Py.int (Py.strip line) <= 255))
    eqn:Hok; [|exact IH].
  intros [= <-]. apply andb_true_iff in Hok as [_ Hr]. by apply bool_decide_eq_true_1 in Hr.
Qed.

(** X9.  On input lines of ASCII characters, none longer than 4300, the
    colour prompt of the zsh task answers with the first line that,
    stripped, is empty (the default) or a number from 0 to 255; the lines
    before it are passed over, and when the input ends before such a line
    the prompt raises [EOFError].  What it returns is between 0 and 255,
    provided its default is. *)
Theorem prompt_color_in_range (default : Z) (w : World) :
  0 <= default <= 255 ->
  Forall (fun line => short_ascii line = true) (stdin w) ->
  (_prompt_color default w).1
  = match color_answer default (stdin w) with
    | Some c => Ok c
    | None => Raise EOFError
    end
  /\ (forall c, (_prompt_color default w).1 = Ok c -> 0 <= c <= 255).
Proof.
  intros Hd _.
  assert ((_prompt_color default w).1
          = match color_answer default (stdin w) with
            | Some c => Ok c
            | None => Raise EOFError
            end) as Hres.
  { unfold _prompt_color, input_loop. apply (prompt_color_decides default (stdin w) w). }
  split; [exact Hres|].
  intros c Hc. rewrite Hres in Hc.
  destruct (color_answer default (stdin w)) as [c0|] eqn:Ha; [|discriminate].
  injection Hc as <-. by eapply color_answer_range.
Qed.

Lemma prompt_color_in_range_witness :
  (_prompt_color 38 (world0 ∅ ["red"; "300"; " 17 "])).1 = Ok 17
  /\ (forall c, (_prompt_color 38 (world0 ∅ ["red"; "300"; " 17 "])).1 = Ok c
                -> 0 <= c <= 255).
Proof.
  apply (prompt_color_in_range 38 (world0 ∅ ["red"; "300"; " 17 "])); [lia|].
  repeat constructor.
Defined.

Example prompt_color_input_ends :
  (_prompt_color 38 (world0 ∅ ["red"; "300"])).1 = Raise EOFError
  /\ color_answer 38 ["red"; "300"] = None.
Proof. split; reflexivity. Qed.

(** ** The default selections and the order of the tasks *)

(** X2.  For every context, known or not, the default selection holds
    valid registry indices only, none of a task that the context rules skip,
    and ordering it gives the tasks at these indices as they stand. *)
Theorem defaults_respect_context (context : string) :
  Forall (fun i => 0 <= i < 5 /\ should_skip (key (task_at i)) context = false)
         (defaults_for_context context)
  /\ order_tasks_from_indices (defaults_for_context context)
     = Ok (task_at <$> defaults_for_context context).
Proof.
  unfold defaults_for_context, DEFAULTS_BY_CONTEXT.
  destruct (decide (context = Context.LOCAL)) as [->|H1].
  { split; [|reflexivity]. repeat constructor; done. }
  rewrite lookup_insert_ne by done.
  destruct (decide (context = Context.EXISTING_USER)) as [->|H2].
  { split; [|reflexivity]. repeat constructor; done. }
  rewrite lookup_insert_ne by done.
  destruct (decide (context = Context.ROOT)) as [->|H3].
  { split; [|reflexivity]. repeat constructor; done. }
  rewrite lookup_insert_ne by done. rewrite lookup_empty. simpl.
  split; [constructor|reflexivity].
Qed.

Lemma py_index_invalid (i : Z) : ~ (-5 <= i < 5) -> py_index TASKS i = None.
Proof.
  intros Hi. unfold py_index. simpl length.
  destruct (decide (0 <= i < Z.of_nat 5)); [lia|].
  destruct (decide (- Z.of_nat 5 <= i < 0)); [lia|done].
Qed.

Lemma map_r_index_error (indices : list Z) :
  Exists (fun i => ~ (-5 <= i < 5)) indices ->
  map_r (fun i => key <$> or_raise IndexError (py_index TASKS i)) indices = Raise IndexError.
Proof.
  induction indices as [|i indices IH]; intros Hex.
  - by apply Exists_nil in Hex.
  - simpl. destruct (decide (-5 <= i < 5)) as [Hi|Hi].
    + rewrite (py_index_valid i Hi). simpl.
      apply Exists_cons in Hex as [Hbad|Hex]; [done|].
      by rewrite (IH Hex).
    + by rewrite (py_index_invalid i Hi).
Qed.

(** X3.  [order_tasks_from_indices] raises [IndexError] as soon as one of
    the indices is outside the range -5..4 that Python accepts on the five
    tasks of the registry, whatever the other indices are. *)
Theorem order_tasks_rejects_bad_index (indices : list Z) :
  Exists (fun i => ~ (-5 <= i < 5)) indices ->
  order_tasks_from_indices indices = Raise IndexError.
Proof.
  intros Hex. unfold order_tasks_from_indices. cbv zeta.
  by rewrite (map_r_index_error indices Hex).
Qed.

Lemma order_tasks_rejects_bad_index_witness :
  order_tasks_from_indices [0; 5; 1] = Raise IndexError.
Proof. apply order_tasks_rejects_bad_index. apply Exists_cons_tl, Exists_cons_hd. lia. Defined.

(** ** The paths of a run *)

(** X4.  With [--yes] the paths of a run are the detected defaults, without
    any question, and the home directory is [/root] in the root context and
    the home of the current user otherwise: as [main] calls
    [detect_default_paths], the target user never changes the paths. *)
Theorem paths_with_yes_are_defaults `{Host} (args : Args.t) (w : World) (s : Setup)
    (w' : World) :
  main_setup args w = (Ok s, w') ->
  Args.yes args = true ->
  s_paths s = detect_default_paths (s_context s) None
  /\ home_dir (s_paths s)
     = (if decide (s_context s = Context.ROOT) then PathOps.of_string "/root"
        else path_home).
Proof.
  intros Hs Hy. unfold main_setup in Hs. cbv zeta in Hs.
  apply bind_ok in Hs as (state & w1 & _ & Hs).
  apply bind_ok in Hs as ([] & w2 & _ & Hs).
  apply bind_ok in Hs as ([] & w3 & _ & Hs).
  apply bind_ok in Hs as (context & w4 & _ & Hs).
  apply bind_ok in Hs as (selected & w5 & _ & Hs).
  apply bind_ok in Hs as (options & w6 & Hopt & Hs).
  assert (ExecutionOptions.auto_confirm options = true) as Hauto.
  { rewrite <- Hy. revert Hopt. unfold ensure_command_execution_safety. cbv zeta.
    intros Hopt. apply bind_ok in Hopt as (? & ? & _ & Hopt).
    apply bind_ok in Hopt as (? & ? & _ & Hopt).
    apply bind_ok in Hopt as (? & ? & _ & Hopt). by injection Hopt as <- _. }
  apply bind_ok in Hs as (paths & w7 & Hpaths & Hs).
  rewrite Hauto in Hpaths. injection Hpaths as <- _.
  apply bind_ok in Hs as (log_path & w8 & _ & Hs).
  apply bind_ok in Hs as ([] & w9 & _ & Hs).
  apply bind_ok in Hs as (runner & w10 & _ & Hs).
  apply bind_ok in Hs as (ordered & w11 & _ & Hs).
  injection Hs as <- _. cbn [s_paths s_context].
  assert (detect_default_paths context
            (if decide (context = Context.ROOT) then None else Some getuser)
          = detect_default_paths context None) as ->.
  { unfold detect_default_paths.
    destruct (decide (context = Context.ROOT)) as [->|Hc]; [done|].
    rewrite (bool_decide_eq_false_2 _ Hc). by rewrite andb_false_r. }
  split; [done|]. unfold detect_default_paths. simpl.
  by destruct (decide (context = Context.ROOT)).
Qed.

Lemma paths_with_yes_are_defaults_witness :
  exists s,
    (@main_setup demo (git_args true false) (world0 ∅ [])).1 = Ok s
    /\ s_paths s = @detect_default_paths demo (s_context s) None
    /\ home_dir (s_paths s)
       = (if decide (s_context s = Context.ROOT) then PathOps.of_string "/root"
          else @path_home demo).
Proof.
  eexists. split; [vm_compute; reflexivity|].
  eapply (@paths_with_yes_are_defaults demo (git_args true false) (world0 ∅ []));
    [vm_compute; reflexivity|reflexivity].
Defined.

Lemma confirm_ask_blank path label line rest w :
  stdin w = line :: rest -> Py.strip line = "" ->
  confirm_paths_ask path label w
  = (Ok path, mkWorld (fs w) rest (clock w) (log_open w)
                 (trace w ++ [Prompt (label +:+ " [" +:+ PathOps.to_string path +:+ "]: ")])).
Proof.
  intros Hin Hb. unfold confirm_paths_ask, input. rewrite bind_unfold, Hin.
  rewrite !bind_unfold. simpl. rewrite Hb. reflexivity.
Qed.

Lemma confirm_asks_blank (lab : nat -> string) (l : list (nat * Path)) :
  forall blanks rest w,
    stdin w = blanks ++ rest -> length blanks = length l ->
    Forall (fun line => Py.strip line = "") blanks ->
    exists w',
      map_m (fun it : nat * Path => confirm_paths_ask it.2 (lab it.1)) l w
      = (Ok (snd <$> l), w')
      /\ stdin w' = rest /\ fs w' = fs w.
Proof.
  induction l as [|it l IH]; intros blanks rest w Hin Hlen Hb.
  - destruct blanks; [|done]. exists w. by simpl in *.
  - destruct blanks as [|line blanks]; [done|]. simpl in Hin, Hlen.
    apply Forall_cons in Hb as [Hl Hb].
    simpl. rewrite bind_unfold, (confirm_ask_blank _ _ line (blanks ++ rest) w Hin Hl).
    match goal with |- context [(map_m ?f l ≫= ?g) ?w1] =>
      destruct (IH blanks rest w1) as (w' & Hm & Hs & Hf); [done|lia|done|] end.
    exists w'. rewrite bind_unfold, Hm. done.
Qed.

Lemma imap_pairs_snd {A} (g : nat -> nat) (l : list A) :
  snd <$> imap (fun i d => (g i, d)) l = l.
Proof.
  revert g. induction l as [|x l IH]; intros g; [done|].
  simpl. f_equal. apply (IH (g ∘ S)).
Qed.

(** X5.  When the operator answers every question of [confirm_paths] with
    a blank line (four questions and one for each data directory), the
    paths come back as the defaults, exactly these lines of the input are
    used up, and no file is touched. *)
Theorem confirm_paths_keeps_defaults (defaults : PathsConfig) (blanks rest : list string)
    (w : World) :
  stdin w = blanks ++ rest ->
  length blanks = (4 + length (data_dirs defaults))%nat ->
  Forall (fun line => Py.strip line = "") blanks ->
  exists w',
    confirm_paths defaults false w = (Ok defaults, w')
    /\ stdin w' = rest
    /\ fs w' = fs w.
Proof.
  intros Hin Hlen Hb.
  destruct blanks as [|l1 [|l2 [|l3 [|l4 blanks]]]]; try (simpl in Hlen; lia).
  apply Forall_cons in Hb as [H1 Hb]. apply Forall_cons in Hb as [H2 Hb].
  apply Forall_cons in Hb as [H3 Hb]. apply Forall_cons in Hb as [H4 Hb].
  simpl in Hin, Hlen.
  unfold confirm_paths. rewrite bind_unfold. simpl.
  rewrite bind_unfold, (confirm_ask_blank _ _ l1 (l2 :: l3 :: l4 :: blanks ++ rest)) by done.
  rewrite bind_unfold, (confirm_ask_blank _ _ l2 (l3 :: l4 :: blanks ++ rest)) by done.
  rewrite bind_unfold, (confirm_ask_blank _ _ l3 (l4 :: blanks ++ rest)) by done.
  rewrite bind_unfold, (confirm_ask_blank _ _ l4 (blanks ++ rest)) by done.
  match goal with |- context [(map_m ?f ?l ≫= ?g) ?w1] =>
    destruct (confirm_asks_blank (fun i => "Data dir #" +:+ pretty (S i)) l blanks rest w1)
      as (w' & Hm & Hs & Hf)
  end; [done|rewrite length_imap; lia|done|].
  exists w'. rewrite bind_unfold, Hm.
  rewrite (imap_pairs_snd id). destruct defaults. done.
Qed.

Lemma confirm_paths_keeps_defaults_witness :
  exists w',
    confirm_paths root_paths false
      (world0 ∅ [""; "  "; ""; ""; ""; ""; " "; "next"])
    = (Ok root_paths, w')
    /\ stdin w' = ["next"]
    /\ fs w' = fs (world0 ∅ [""; "  "; ""; ""; ""; ""; " "; "next"]).
Proof.
  apply (confirm_paths_keeps_defaults root_paths [""; "  "; ""; ""; ""; ""; " "] ["next"]);
    [reflexivity|reflexivity|].
  repeat constructor.
Defined.

(** ** The runner *)

Lemma spawned_app l1 l2 : spawned (l1 ++ l2) = spawned l1 ++ spawned l2.
Proof. induction l1 as [|[] l1 IH]; simpl; by rewrite ?IH. Qed.

Lemma spawned_quiet l : Forall no_spawn l -> spawned l = [].
Proof. induction 1 as [|[] l He _ IH]; simpl in *; done. Qed.

Lemma spawn_then_quiet `{Host} {B} c cwd env (g : CompletedProcess -> M B) w :
  (forall p, keeps (frame false no_spawn) (g p)) ->
  exists l, trace ((CommandRunner.spawn c cwd env ≫= g) w).2 = trace w ++ Spawn c :: l
            /\ Forall no_spawn l.
Proof.
  intros Hg. unfold CommandRunner.spawn. rewrite !bind_unfold. simpl.
  destruct (subprocess_run c cwd (default ∅ env ∪ environ) (fs w)) as [rc out err f'|e];
    simpl.
  - destruct (Hg (mkProc rc out err)
                (mkWorld f' (stdin w) (clock w) (log_open w) (trace w ++ [Spawn c])))
      as [_ (l & Hl & HP)].
    exists l. rewrite Hl. simpl. by rewrite <- app_assoc.
  - by exists [].
Qed.

(** X6.  A call of [CommandRunner.run] spawns at most one process, whatever
    the outcome of the call: exactly the command (behind [sudo --] when sudo
    is asked) when the runner is live, its log is open and sudo, if asked,
    is permitted; and no process at all in a dry run, with a closed log or
    when sudo is refused. *)
Theorem run_spawns_at_most_once `{Host} (self : CommandRunner.t) (command : list string)
    (sudo : bool) (cwd : option Path) (env : option (gmap string string)) (check : bool)
    (w : World) :
  exists l,
    trace (CommandRunner.run self command sudo cwd env check w).2 = trace w ++ l
    /\ spawned l
       = if negb (CommandRunner.dry_run self) && log_open w
            && (negb sudo || CommandRunner.sudo_allowed self)
         then [if sudo then ["sudo"; "--"] ++ command else command]
         else [].
Proof.
  unfold CommandRunner.run. rewrite bind_unfold. simpl.
  set (w1 := mkWorld (fs w) (stdin w) (S (clock w)) (log_open w) (trace w)).
  destruct (negb sudo || CommandRunner.sudo_allowed self) eqn:Hperm.
  2:{ apply orb_false_iff in Hperm as [Hs Ha]. apply negb_false_iff in Hs. subst sudo.
      rewrite Ha. simpl. exists []. rewrite app_nil_r, andb_false_r. done. }
  set (cmd_list := if sudo then ["sudo"; "--"] ++ command else command).
  assert ((if sudo
           then if negb (CommandRunner.sudo_allowed self)
                then raise (RuntimeError "Attempted to use sudo without permission")
                else mret (["sudo"; "--"] ++ command)
           else mret command) w1 = (Ok cmd_list, w1)) as Hcmd.
  { subst cmd_list. destruct sudo; [|done]. simpl in Hperm. by rewrite Hperm. }
  rewrite (bind_step _ _ _ _ _ Hcmd). cbv zeta.
  destruct (log_open w) eqn:Ho.
  2:{ exists []. rewrite bind_unfold. unfold CommandRunner._write at 1. simpl.
      rewrite app_nil_r, andb_false_r. done. }
  assert (forall text w0, log_open w0 = true ->
            CommandRunner._write text w0 = (Ok tt, after_event (LogWrite text) w0)) as Hwr
    by (intros; by apply write_open).
  rewrite bind_unfold, (Hwr _ w1) by done.
  rewrite bind_unfold, Hwr by done.
  rewrite !andb_true_r.
  destruct (CommandRunner.dry_run self) eqn:Hd; cbn [negb].
  - rewrite bind_unfold, Hwr by done. simpl.
    eexists. rewrite <- !app_assoc. split; [reflexivity|]. reflexivity.
  - match goal with
    | |- context [(CommandRunner.spawn ?c ?d ?e ≫= ?g) ?w0] =>
        destruct (spawn_then_quiet c d e g w0) as (l & Hl & Hq)
    end.
    { intros p. pose proof keeps_write. frame_auto. }
    rewrite Hl. simpl. eexists. rewrite <- !app_assoc. split; [reflexivity|].
    simpl. by rewrite (spawned_quiet l Hq).
Qed.

(** X7.  In a live call whose process exits with status [rc], [check]
    decides the outcome: the call raises [RuntimeError] naming the status
    and the command line exactly when [check] is set and [rc] is not 0, and
    returns the completed process otherwise.  Either way the files are as
    the process left them and the exit status is in the log. *)
Theorem run_check_decides `{Host} (self : CommandRunner.t) (command : list string)
    (sudo : bool) (cwd : option Path) (env : option (gmap string string)) (check : bool)
    (w : World) (rc : Z) (out err : string) (f' : gmap (list string) Node) :
  CommandRunner.dry_run self = false ->
  log_open w = true ->
  (sudo = true -> CommandRunner.sudo_allowed self = true) ->
  subprocess_run (if sudo then ["sudo"; "--"] ++ command else command) cwd
                 (default ∅ env ∪ environ) (fs w) = Exited rc out err f' ->
  (CommandRunner.run self command sudo cwd env check w).1
  = (if check && negb (bool_decide (rc = 0))
     then Raise (RuntimeError
                   ("Command failed with exit code " +:+ pretty rc +:+ ": "
                      +:+ Py.shlex_join (if sudo then ["sudo"; "--"] ++ command
                                         else command)))
     else Ok (Some (mkProc rc out err)))
  /\ fs (CommandRunner.run self command sudo cwd env check w).2 = f'
  /\ LogWrite ("exit_code=" +:+ pretty rc +:+ Py.nl)
     ∈ trace (CommandRunner.run self command sudo cwd env check w).2.
Proof.
  intros Hd Ho Hsudo Hrun. unfold CommandRunner.run. rewrite bind_unfold. simpl.
  set (w1 := mkWorld (fs w) (stdin w) (S (clock w)) (log_open w) (trace w)).
  set (cmd_list := if sudo then ["sudo"; "--"] ++ command else command) in *.
  assert ((if sudo
           then if negb (CommandRunner.sudo_allowed self)
                then raise (RuntimeError "Attempted to use sudo without permission")
                else mret (["sudo"; "--"] ++ command)
           else mret command) w1 = (Ok cmd_list, w1)) as Hcmd.
  { subst cmd_list. destruct sudo; [|done]. by rewrite (Hsudo eq_refl). }
  rewrite (bind_step _ _ _ _ _ Hcmd). cbv zeta.
  rewrite bind_unfold, (write_open _ w1) by exact Ho.
  rewrite bind_unfold, write_open by exact Ho.
  rewrite Hd. unfold CommandRunner.spawn. rewrite !bind_unfold. simpl. rewrite Hrun. simpl.
  rewrite bind_unfold, write_open by exact Ho. simpl.
  unfold when.
  destruct (bool_decide (out = "")); simpl;
    destruct (bool_decide (err = "")); simpl;
    repeat (rewrite bind_unfold; try rewrite write_open by exact Ho; simpl);
    (destruct (check && negb (bool_decide (rc = 0))); simpl;
     (split; [reflexivity|split; [reflexivity|]]);
     rewrite !elem_of_app, !elem_of_cons; tauto).
Qed.

Lemma run_check_decides_witness :
  (@CommandRunner.run git_fails live_runner ["git"; "status"] false None None true
     marked_world).1
  = Raise (RuntimeError ("Command failed with exit code 1: git status"))
  /\ fs (@CommandRunner.run git_fails live_runner ["git"; "status"] false None None true
           marked_world).2 = fs marked_world
  /\ LogWrite ("exit_code=1" +:+ Py.nl)
     ∈ trace (@CommandRunner.run git_fails live_runner ["git"; "status"] false None None
                true marked_world).2.
Proof.
  apply (@run_check_decides git_fails live_runner ["git"; "status"] false None None true
           marked_world 1 "" "" (fs marked_world)); [reflexivity|reflexivity|done|reflexivity].
Defined.

Lemma run_refused `{Host} self command cwd env check w :
  CommandRunner.sudo_allowed self = false ->
  CommandRunner.run self command true cwd env check w
  = (Raise (RuntimeError "Attempted to use sudo without permission"),
     mkWorld (fs w) (stdin w) (S (clock w)) (log_open w) (trace w)).
Proof.
  intros Hs. unfold CommandRunner.run. rewrite bind_unfold. simpl.
  rewrite bind_unfold. simpl. by rewrite Hs.
Qed.

Lemma keeps_run_refused `{Host} k P self command cwd env check :
  CommandRunner.sudo_allowed self = false ->
  keeps (frame k P) (CommandRunner.run self command true cwd env check).
Proof.
  intros Hs w. rewrite (run_refused _ _ _ _ _ _ Hs). split; [done|].
  exists []. simpl. by rewrite app_nil_r.
Qed.

(** ** Fetching the public keys *)

(** X8.  [fetch_github_keys] sends one request, to
    [https://github.com/<username>.keys], and then only prints; it touches
    no file and reads no input.  The keys it returns are never empty
    strings, and it returns no key at all when the answer is not HTTP 200
    or the request fails with a [URLError]. *)
Theorem fetched_keys_are_clean `{Host} (username : string) (w : World) :
  fs (fetch_github_keys username w).2 = fs w
  /\ stdin (fetch_github_keys username w).2 = stdin w
  /\ (exists l,
        trace (fetch_github_keys username w).2
        = trace w ++ Fetch ("https://github.com/" +:+ username +:+ ".keys") :: l
        /\ Forall silent l)
  /\ (forall keys,
        (fetch_github_keys username w).1 = Ok keys ->
        Forall (fun k => k <> "") keys
        /\ (forall status body,
              urlopen ("https://github.com/" +:+ username +:+ ".keys")
              = Response status body -> status <> 200 -> keys = [])
        /\ (forall reason,
              urlopen ("https://github.com/" +:+ username +:+ ".keys") = URLError reason ->
              keys = [])).
Proof.
  unfold fetch_github_keys. cbv zeta. rewrite bind_unfold. simpl.
  destruct (urlopen _) as [status body|reason|e]; simpl.
  - destruct (bool_decide (status = 200)) eqn:Hs; simpl.
    + apply bool_decide_eq_true_1 in Hs.
      set (keys := filter (fun l => l <> "") _).
      assert (Forall (fun k => k <> "") keys) as Hk.
      { subst keys. apply Forall_forall. intros k Hin.
        by apply list_elem_of_filter in Hin as [Hin _]. }
      unfold when. destruct (bool_decide (keys = [])); simpl.
      * split; [done|]. split; [done|]. split.
        { eexists [_]. rewrite <- app_assoc. split; [done|]. by repeat constructor. }
        intros ? [= <-]. split; [done|]. split; [|done].
        intros ? ? [= -> _] Hn. done.
      * split; [done|]. split; [done|]. split.
        { exists []. split; [done|]. constructor. }
        intros ? [= <-]. split; [done|]. split; [|done].
        intros ? ? [= -> _] Hn. done.
    + split; [done|]. split; [done|]. split.
      { eexists [_]. rewrite <- app_assoc. split; [done|]. by repeat constructor. }
      intros ? [= <-]. done.
  - split; [done|]. split; [done|]. split.
    { eexists [_]. rewrite <- app_assoc. split; [done|]. by repeat constructor. }
    intros ? [= <-]. done.
  - split; [done|]. split; [done|]. split.
    { exists []. split; [done|]. constructor. }
    intros ? [=].
Qed.

(** ** Markers *)

Lemma mkdir_from_keeps (pre rest : list string) (f f' : gmap (list string) Node) q n :
  mkdir_from pre rest f = Some f' -> f !! q = Some n -> f' !! q = Some n.
Proof.
  revert pre f. induction rest as [|x rest IH]; intros pre f Hm Hq; simpl in Hm.
  - by injection Hm as <-.
  - destruct (f !! (pre ++ [x])) as [[|c]|] eqn:Hk; [by eapply IH|done|].
    eapply IH; [exact Hm|]. rewrite lookup_insert_ne; [done|]. by intros <-; congruence.
Qed.

Lemma mkdir_from_long (pre rest : list string) (f f' : gmap (list string) Node) q :
  mkdir_from pre rest f = Some f' ->
  (length pre + length rest < length q)%nat -> f' !! q = f !! q.
Proof.
  revert pre f. induction rest as [|x rest IH]; intros pre f Hm Hq; simpl in Hm.
  - by injection Hm as <-.
  - simpl in Hq.
    destruct (f !! (pre ++ [x])) as [[|c]|] eqn:Hk; [|done|].
    + eapply IH; [exact Hm|]. rewrite length_app. simpl. lia.
    + rewrite (IH _ _ Hm) by (rewrite length_app; simpl; lia).
      rewrite lookup_insert_ne; [done|]. intros <-. rewrite length_app in Hq. simpl in Hq. lia.
Qed.

Lemma mkdir_ok `{Host} p w w' :
  mkdir p w = (Ok tt, w') ->
  (forall q n, fs w !! q = Some n -> fs w' !! q = Some n)
  /\ (forall q, (length (locate p) < length q)%nat -> fs w' !! q = fs w !! q).
Proof.
  unfold mkdir. rewrite bind_unfold. simpl.
  destruct (mkdir_from [] (locate p) (fs w)) as [f'|] eqn:Hm; [|done].
  intros [= <-]. simpl. split.
  - intros q n. by eapply mkdir_from_keeps.
  - intros q Hq. by eapply mkdir_from_long.
Qed.

Lemma touch_ok `{Host} p w w' :
  touch p w = (Ok tt, w') ->
  is_Some (node_at (fs w') (locate p))
  /\ (forall q n, fs w !! q = Some n -> fs w' !! q = Some n).
Proof.
  unfold touch. rewrite bind_unfold. simpl.
  destruct (node_at (fs w) (locate p)) as [n|] eqn:Hn.
  - intros [= <-]. split; [by rewrite Hn|done].
  - destruct (parent_is_dir (fs w) (locate p)); [|done].
    intros [= <-]. simpl. destruct (locate p) as [|x k] eqn:Hk; [done|]. simpl in *.
    split; [rewrite lookup_insert_eq; eauto|].
    intros q n Hq. rewrite lookup_insert_ne; [done|]. intros <-. congruence.
Qed.

Lemma path_exists_eq `{Host} p w :
  path_exists p w = (Ok (bool_decide (is_Some (node_at (fs w) (locate p)))), w).
Proof. reflexivity. Qed.

(** X11.  After [mark_task_complete] has returned, a live run sees the
    task as marked complete; a dry run sees what was there before, since
    it writes no marker. *)
Theorem marking_is_seen `{Host} (paths : PathsConfig) (k : string)
    (options : ExecutionOptions.t) (w w' : World) :
  mark_task_complete paths k options w = (Ok tt, w') ->
  is_task_marked_complete paths k w'
  = (Ok (if ExecutionOptions.dry_run options
         then bool_decide (is_Some (node_at (fs w) (locate (task_marker paths k))))
         else true), w').
Proof.
  intros Hm. unfold is_task_marked_complete. rewrite path_exists_eq.
  destruct (ExecutionOptions.dry_run options) eqn:Hd.
  - rewrite (mark_dry _ _ _ _ Hd) in Hm. by injection Hm as <-.
  - destruct (mark_live_ok _ _ _ _ _ Hd Hm) as [t Ht]. rewrite Ht.
    by rewrite bool_decide_eq_true_2 by eauto.
Qed.

Lemma marking_is_seen_witness :
  @is_task_marked_complete demo root_paths "git"
    (@mark_task_complete demo root_paths "git" live_options (world0 ∅ [])).2
  = (Ok true, (@mark_task_complete demo root_paths "git" live_options (world0 ∅ [])).2).
Proof.
  apply (@marking_is_seen demo root_paths "git" live_options (world0 ∅ [])).
  by vm_compute.
Defined.

Lemma div_name (p : Path) (s : string) :
  PathOps.of_string s = mkPath false [s] ->
  p // s = mkPath (absolute p) (parts p ++ [s]).
Proof. intros Hs. unfold PathOps.div, PathOps.join. by rewrite Hs. Qed.

Lemma locate_snoc `{Host} (p : Path) (s : string) :
  locate (mkPath (absolute p) (parts p ++ [s])) = locate p ++ [s].
Proof. unfold locate. simpl. destruct (absolute p); by rewrite ?app_assoc. Qed.

Lemma marker_name_plain t :
  t ∈ TASKS -> PathOps.of_string (key t +:+ ".done") = mkPath false [key t +:+ ".done"].
Proof.
  unfold TASKS. rewrite !elem_of_cons, elem_of_nil.
  intros [->|[->|[->|[->|[->|[]]]]]]; reflexivity.
Qed.

Lemma marker_location `{Host} paths t :
  t ∈ TASKS ->
  locate (task_marker paths (key t))
  = locate (home_dir paths) ++ [MARKER_DIR_NAME; key t +:+ ".done"].
Proof.
  intros Ht. unfold task_marker.
  rewrite (div_name (home_dir paths) MARKER_DIR_NAME) by reflexivity.
  rewrite (div_name _ (key t +:+ ".done")) by by apply marker_name_plain.
  rewrite (locate_snoc (mkPath _ _)), locate_snoc. by rewrite <- app_assoc.
Qed.

Lemma marker_parent_location `{Host} paths t :
  t ∈ TASKS ->
  locate (PathOps.parent (task_marker paths (key t)))
  = locate (home_dir paths) ++ [MARKER_DIR_NAME].
Proof.
  intros Ht. unfold task_marker.
  rewrite (div_name (home_dir paths) MARKER_DIR_NAME) by reflexivity.
  rewrite (div_name _ (key t +:+ ".done")) by by apply marker_name_plain.
  unfold PathOps.parent. cbn [absolute parts]. rewrite removelast_last.
  apply locate_snoc.
Qed.

(** X12.  Marking one task of the registry complete leaves the marker of
    every other task of the registry as it was, present or absent. *)
Theorem marking_leaves_other_markers `{Host} (paths : PathsConfig)
    (t t' : TaskDefinition) (options : ExecutionOptions.t) (w w' : World) :
  t ∈ TASKS -> t' ∈ TASKS -> key t <> key t' ->
  mark_task_complete paths (key t) options w = (Ok tt, w') ->
  node_at (fs w') (locate (task_marker paths (key t')))
  = node_at (fs w) (locate (task_marker paths (key t'))).
Proof.
  intros Ht Ht' Hne Hm.
  destruct (ExecutionOptions.dry_run options) eqn:Hd.
  { rewrite (mark_dry _ _ _ _ Hd) in Hm. by injection Hm as <-. }
  unfold mark_task_complete in Hm. rewrite Hd in Hm. cbv zeta in Hm.
  apply bind_ok in Hm as ([] & w1 & Hmk & Hm).
  apply bind_ok in Hm as (tm & w2 & Hnow & Hm). injection Hnow as _ <-.
  apply bind_ok in Hm as ([] & w3 & Hwr & Hm). injection Hm as <-.
  apply mkdir_ok in Hmk as [_ Hlong].
  pose proof (marker_parent_location paths t Ht) as Hparent.
  rewrite (marker_location paths t') by done.
  set (q := locate (home_dir paths) ++ [MARKER_DIR_NAME; key t' +:+ ".done"]).
  assert (q <> []) as Hq by (subst q; by destruct (locate (home_dir paths))).
  assert (forall f : gmap (list string) Node, node_at f q = f !! q) as Hnode
    by (intros f; by destruct q).
  rewrite !Hnode.
  unfold write_text, write_file in Hwr. rewrite bind_unfold in Hwr. simpl in Hwr.
  rewrite (marker_location paths t) in Hwr by done.
  set (m := locate (home_dir paths) ++ [MARKER_DIR_NAME; key t +:+ ".done"]) in *.
  assert (m <> q) as Hmq.
  { subst m q. intros Heq. apply app_inv_head in Heq.
    injection Heq as Heq. apply Hne. clear -Ht Ht' Heq.
    unfold TASKS in Ht, Ht'. rewrite !elem_of_cons, elem_of_nil in Ht, Ht'.
    destruct Ht as [->|[->|[->|[->|[->|[]]]]]];
      destruct Ht' as [->|[->|[->|[->|[->|[]]]]]];
      first [reflexivity|discriminate]. }
  assert (fs w3 !! q = fs w1 !! q) as Hw3.
  { destruct (node_at (fs w1) m) as [[|c]|]; [done| |].
    - injection Hwr as <-. simpl. by rewrite lookup_insert_ne.
    - destruct (parent_is_dir (fs w1) m); [|done].
      injection Hwr as <-. simpl. by rewrite lookup_insert_ne. }
  simpl. rewrite Hw3. apply Hlong. rewrite Hparent. subst q.
  rewrite !length_app. simpl. lia.
Qed.

Lemma marking_leaves_other_markers_witness :
  node_at (fs (@mark_task_complete demo root_paths (key git_task) live_options
                 (world0 {[ ssh_marker := File "old" ]} [])).2)
          (@locate demo (task_marker root_paths (key ssh_task)))
  = node_at (fs (world0 {[ ssh_marker := File "old" ]} []))
            (@locate demo (task_marker root_paths (key ssh_task))).
Proof.
  apply (@marking_leaves_other_markers demo root_paths git_task ssh_task live_options);
    [repeat constructor|repeat constructor|done|by vm_compute].
Defined.

(** ** The journal on disk *)

Lemma decode_ascii ignore s : ascii_only s = true -> Py.decode_utf8 ignore s = Some s.
Proof.
  induction s as [|c s IH]; [done|].
  unfold ascii_only. simpl forallb. intros [Hc Hs]%andb_true_iff.
  cbn [Py.decode_utf8]. cbv zeta. rewrite Hc. by rewrite (IH Hs).
Qed.

(** X13.  What [save_state] has written, [load_state] reads back: when the
    [json] library decodes its own ASCII rendering of the journal, loading
    the path just saved returns that journal and changes nothing. *)
Theorem saved_journal_loads_back `{Host} (p : Path) (state : gmap string bool)
    (w w' : World) :
  json_loads (json_dumps state) = Some state ->
  ascii_only (json_dumps state) = true ->
  save_state (Some p) state w = (Ok tt, w') ->
  load_state (Some p) w' = (Ok state, w').
Proof.
  intros Hjson Hascii Hsave. unfold save_state, write_text in Hsave.
  apply write_file_ok in Hsave as (c & Hc & Hct). rewrite (Hct eq_refl) in Hc.
  unfold load_state, path_exists, read_text. rewrite !bind_unfold. simpl.
  rewrite Hc. rewrite bool_decide_eq_true_2 by eauto. simpl.
  rewrite !bind_unfold. simpl. rewrite Hc, (decode_ascii false _ Hascii). simpl.
  by rewrite Hjson.
Qed.

Lemma saved_journal_loads_back_witness :
  @load_state (journal_host {[ "git" := true ]})
    (Some (PathOps.of_string ".server_init_state.json"))
    (@save_state (journal_host {[ "git" := true ]})
       (Some (PathOps.of_string ".server_init_state.json")) {[ "git" := true ]}
       cwd_world).2
  = (Ok {[ "git" := true ]},
     (@save_state (journal_host {[ "git" := true ]})
        (Some (PathOps.of_string ".server_init_state.json")) {[ "git" := true ]}
        cwd_world).2).
Proof.
  apply (@saved_journal_loads_back (journal_host {[ "git" := true ]})
           (PathOps.of_string ".server_init_state.json") {[ "git" := true ]} cwd_world);
    by vm_compute.
Defined.

(** ** Resolving the context and the selection *)

(** X14.  When [resolve_context] shows its menu (menus are on and the
    context was not given with auto-confirm), the cursor starts on the given
    context, or on the root context when none or an unknown one was given;
    leaving the menu without a choice raises [SystemExit], the entries 0, 1
    and 2 give the root, existing-user and local contexts, and any other
    index raises [KeyError]. *)
Theorem resolve_context_menu_outcomes `{Host} (args : Args.t) (auto_confirm : bool)
    (w : World) :
  Args.no_menu args = false ->
  truthy (Args.context args) && auto_confirm = false ->
  (resolve_context args auto_confirm true w).2 = after_event (Menu "Choose context") w
  /\ (resolve_context args auto_confirm true w).1
     = match menu_show CONTEXT_OPTIONS "Choose context"
               (default 0 (CONTEXT_INDEX_BY_VALUE
                             !! (if truthy (Args.context args)
                                 then default "" (Args.context args)
                                 else Context.ROOT))) with
       | None => Raise (SystemExit "User aborted selection.")
       | Some 0 => Ok Context.ROOT
       | Some 1 => Ok Context.EXISTING_USER
       | Some 2 => Ok Context.LOCAL
       | Some _ => Raise KeyError
       end.
Proof.
  intros Hn Hc.
  unfold resolve_context. rewrite Hn, Hc. cbv zeta. cbn [negb orb].
  unfold _run_menu. rewrite !bind_unfold. simpl.
  destruct (menu_show _ _ _) as [i|]; simpl; [|done].
  split; [done|].
  destruct i as [|p|p]; [done| |done].
  destruct p as [[]|[]|]; done.
Qed.

Lemma resolve_context_menu_outcomes_witness :
  (@resolve_context (picking_host 1) menu_args false true (world0 ∅ [])).2
  = after_event (Menu "Choose context") (world0 ∅ [])
  /\ (@resolve_context (picking_host 1) menu_args false true (world0 ∅ [])).1
     = match @menu_show (picking_host 1) CONTEXT_OPTIONS "Choose context"
               (default 0 (CONTEXT_INDEX_BY_VALUE
                             !! (if truthy (Args.context menu_args)
                                 then default "" (Args.context menu_args)
                                 else Context.ROOT))) with
       | None => Raise (SystemExit "User aborted selection.")
       | Some 0 => Ok Context.ROOT
       | Some 1 => Ok Context.EXISTING_USER
       | Some 2 => Ok Context.LOCAL
       | Some _ => Raise KeyError
       end.
Proof. apply (@resolve_context_menu_outcomes (picking_host 1)); reflexivity. Defined.

Lemma registry_index (token : string) :
  token ∈ key <$> TASKS ->
  exists i, TASK_INDEX_BY_KEY !! token = Some i /\ 0 <= i < 5 /\ key (task_at i) = token.
Proof.
  change (key <$> TASKS) with ["os"; "ssh"; "zsh"; "conda"; "git"].
  rewrite !elem_of_cons, elem_of_nil.
  intros [->|[->|[->|[->|[->|[]]]]]];
    [exists 0|exists 1|exists 2|exists 3|exists 4];
    (split; [reflexivity|]; split; [lia|reflexivity]).
Qed.

(** X15.  A [--tasks] list whose tokens are all registry keys, taken
    without the menu, resolves without any effect to the indices of its
    tokens, token by token (stripped, lowercased, blanks dropped,
    repetitions kept); the indices are valid, and ordering them gives the
    tasks of the registry that were asked for, in registry order. *)
Theorem resolve_tasks_valid_list `{Host} (args : Args.t) (context : string)
    (auto_confirm use_menu : bool) (tasks_str : string) (w : World) :
  Args.tasks args = Some tasks_str ->
  tasks_str <> "" ->
  Forall (fun token => token ∈ key <$> TASKS) (requested_tokens tasks_str) ->
  Args.no_menu args || negb use_menu || auto_confirm = true ->
  exists indices,
    resolve_tasks args context auto_confirm use_menu w = (Ok indices, w)
    /\ (fun i => key (task_at i)) <$> indices = requested_tokens tasks_str
    /\ Forall (fun i => 0 <= i < 5) indices
    /\ order_tasks_from_indices indices
       = Ok (filter (fun t => key t ∈ requested_tokens tasks_str) TASKS).
Proof.
  intros Ht Hne Hvalid Hbypass.
  set (requested := requested_tokens tasks_str) in *.
  assert (invalid_tokens requested = []) as Hinv.
  { apply elem_of_nil_inv. intros token Hin. apply invalid_tokens_spec in Hin as [Hin Hno].
    rewrite Forall_forall in Hvalid. by apply Hno, Hvalid. }
  set (idx := fun token : string => default 0 (TASK_INDEX_BY_KEY !! token)).
  assert (Forall (fun token => TASK_INDEX_BY_KEY !! token = Some (idx token)
                               /\ 0 <= idx token < 5 /\ key (task_at (idx token)) = token)
                 requested) as Hidx.
  { eapply Forall_impl; [exact Hvalid|]. intros token Hin. simpl in Hin.
    destruct (registry_index token Hin) as (i & Hi & Hr & Hk).
    unfold idx. rewrite Hi. done. }
  exists (idx <$> requested). split; [|split; [|split]].
  - assert (truthy (Some tasks_str) = true) as Htruthy by by destruct tasks_str.
    unfold resolve_tasks. rewrite Ht, Htruthy. cbn [from_option id]. cbv zeta.
    fold requested. rewrite Hinv.
    rewrite bool_decide_eq_true_2 by done. cbn [negb].
    rewrite (map_r_ok _ idx).
    + rewrite bind_unfold. simpl. cbn [andb]. rewrite Hbypass. reflexivity.
    + eapply Forall_impl; [exact Hidx|]. intros token (Hi & _). simpl. by rewrite Hi.
  - rewrite <- list_fmap_compose. rewrite <- (list_fmap_id requested) at 2.
    apply Forall_fmap_ext_1. eapply Forall_impl; [exact Hidx|].
    intros token (_ & _ & Hk). exact Hk.
  - apply Forall_fmap. eapply Forall_impl; [exact Hidx|]. intros token (_ & Hr & _). exact Hr.
  - rewrite order_tasks_from_indices_eq.
    + f_equal. apply list_filter_iff. intros t. unfold selected_keys.
      rewrite elem_of_list_to_set, <- list_fmap_compose.
      assert ((fun i => key (task_at i)) ∘ idx <$> requested = requested) as ->; [|done].
      rewrite <- (list_fmap_id requested) at 2.
      apply Forall_fmap_ext_1. eapply Forall_impl; [exact Hidx|].
      intros token (_ & _ & Hk). exact Hk.
    + apply Forall_fmap. eapply Forall_impl; [exact Hidx|]. intros token (_ & Hr & _).
      simpl. lia.
Qed.

Lemma resolve_tasks_valid_list_witness :
  exists indices,
    @resolve_tasks demo (Args.mk None (Some " Git ,os,, git") true false false None true
                                 None None)
      Context.ROOT true false (world0 ∅ [])
    = (Ok indices, world0 ∅ [])
    /\ (fun i => key (task_at i)) <$> indices = requested_tokens " Git ,os,, git"
    /\ Forall (fun i => 0 <= i < 5) indices
    /\ order_tasks_from_indices indices
       = Ok (filter (fun t => key t ∈ requested_tokens " Git ,os,, git") TASKS).
Proof.
  apply (@resolve_tasks_valid_list demo); [reflexivity|done| |reflexivity].
  vm_compute.
  repeat constructor; repeat first [apply list_elem_of_here|apply list_elem_of_further].
Defined.

(** X16.  [ensure_command_execution_safety] returns and touches no file.
    The sudo permission it grants is yes under [--yes], and otherwise the
    operator's answer to one yes/no question whose default is no, read from
    input lines of ASCII characters; auto-confirm is [--yes]. *)
Theorem safety_sudo_follows_yes (args : Args.t) (w : World) :
  (Args.yes args = false -> Forall (fun line => ascii_only line = true) (stdin w)) ->
  exists options w',
    ensure_command_execution_safety args w = (Ok options, w')
    /\ ExecutionOptions.sudo_allowed options
       = (if Args.yes args then true else yes_no_answer false (stdin w))
    /\ ExecutionOptions.auto_confirm options = Args.yes args
    /\ fs w' = fs w.
Proof.
  intros _.
  unfold ensure_command_execution_safety. cbv zeta.
  set (w1 := (when (Args.force args && Args.dry_run args)
                (print "--force provided together with --dry-run; commands will still not execute.") w).2).
  set (w2 := (when (negb (Args.force args) && negb (Args.dry_run args))
                (print "Commands will run in dry-run mode until --force is supplied.") w1).2).
  assert (fs w2 = fs w /\ stdin w2 = stdin w) as [Hfs Hin].
  { subst w2 w1. unfold when.
    destruct (Args.force args), (Args.dry_run args); simpl; done. }
  destruct (prompt_yes_no_result "Use elevated privileges for privileged operations?"
              false (Args.yes args) w2) as (w' & Hp & Hf' & _).
  eexists _, w'. split; [|split; [|split]].
  - rewrite bind_unfold.
    assert (when (Args.force args && Args.dry_run args)
              (print "--force provided together with --dry-run; commands will still not execute.") w
            = (Ok tt, w1)) as ->.
    { subst w1. unfold when. by destruct (Args.force args && Args.dry_run args). }
    rewrite bind_unfold.
    assert (when (negb (Args.force args) && negb (Args.dry_run args))
              (print "Commands will run in dry-run mode until --force is supplied.") w1
            = (Ok tt, w2)) as ->.
    { subst w2. unfold when. by destruct (negb (Args.force args) && negb (Args.dry_run args)). }
    rewrite bind_unfold, Hp. reflexivity.
  - simpl. by rewrite Hin.
  - done.
  - by rewrite Hf', Hfs.
Qed.

Lemma safety_sudo_follows_yes_witness :
  exists options w',
    ensure_command_execution_safety asking_args (world0 ∅ ["perhaps"; " Y "])
    = (Ok options, w')
    /\ ExecutionOptions.sudo_allowed options = true
    /\ ExecutionOptions.auto_confirm options = false
    /\ fs w' = fs (world0 ∅ ["perhaps"; " Y "]).
Proof.
  apply (safety_sudo_follows_yes asking_args (world0 ∅ ["perhaps"; " Y "])).
  intros _. repeat constructor.
Defined.

(** ** The log file *)

(** X17.  When [prepare_logger] returns, the log file exists, it is the one
    given with [--log-file] if one was given, and every file and directory
    that was there before is still there, unchanged. *)
Theorem prepare_logger_only_adds `{Host} (log_file : option Path) (w : World)
    (log_path : Path) (w' : World) :
  prepare_logger log_file w = (Ok log_path, w') ->
  is_Some (node_at (fs w') (locate log_path))
  /\ log_path = default log_path log_file
  /\ (forall q n, fs w !! q = Some n -> fs w' !! q = Some n).
Proof.
  unfold prepare_logger. intros Hp.
  apply bind_ok in Hp as (p & w1 & Hpath & Hp).
  apply bind_ok in Hp as ([] & w2 & Hmk & Hp).
  apply bind_ok in Hp as ([] & w3 & Ht & Hp).
  injection Hp as -> ->.
  apply mkdir_ok in Hmk as [Hmk _]. apply touch_ok in Ht as [Hex Ht].
  assert (log_path = default log_path log_file
          /\ forall q n, fs w !! q = Some n -> fs w1 !! q = Some n) as [Hlp Hw1].
  { destruct log_file as [q|].
    - injection Hpath as -> ->. done.
    - apply bind_ok in Hpath as ([] & w0 & Hmk0 & Hpath).
      apply bind_ok in Hpath as (t & w0' & Hnow & Hpath).
      injection Hnow as _ <-. injection Hpath as _ <-. simpl.
      apply mkdir_ok in Hmk0 as [Hmk0 _]. done. }
  split; [done|]. split; [done|]. intros q n Hq. by apply Ht, Hmk, Hw1.
Qed.

Lemma prepare_logger_only_adds_witness :
  is_Some (node_at (fs (@prepare_logger demo None marked_world).2)
             (@locate demo (PathOps.of_string "/srv/logs/server_init_T0.log")))
  /\ PathOps.of_string "/srv/logs/server_init_T0.log"
     = default (PathOps.of_string "/srv/logs/server_init_T0.log") None
  /\ (forall q n, fs marked_world !! q = Some n ->
                  fs (@prepare_logger demo None marked_world).2 !! q = Some n).
Proof.
  apply (@prepare_logger_only_adds demo None marked_world). by vm_compute.
Defined.

(** ** The loop of main *)

Global Hint Extern 0 (no_invoke _) => exact I : frame.

Lemma invoked_app l1 l2 : invoked (l1 ++ l2) = invoked l1 ++ invoked l2.
Proof. induction l1 as [|[] l1 IH]; simpl; by rewrite ?IH. Qed.

Lemma invoked_none l : Forall no_invoke l -> invoked l = [].
Proof. induction 1 as [|[] l He _ IH]; simpl in *; done. Qed.

(** *** The task bodies never call the driver back *)
Section PlainBodies.
Context `{Host} (runner : CommandRunner.t) (options : ExecutionOptions.t)
  (paths : PathsConfig).
Let R := frame false no_invoke.
Local Hint Resolve keeps_run keeps_mark keeps_mkdir keeps_touch keeps_write_file
  keeps_copy2 : frame.

Lemma plain_os : keeps R (task_os_settings runner options paths).
Proof. unfold task_os_settings. frame_body. Qed.
Lemma plain_ssh : keeps R (task_ssh_setup runner options paths).
Proof. unfold task_ssh_setup, append_text. frame_body. Qed.
Lemma plain_zsh : keeps R (task_custom_zsh runner options paths).
Proof. unfold task_custom_zsh, write_text. frame_body. Qed.
Lemma plain_conda arch : keeps R (task_miniconda runner options paths arch).
Proof.
  unfold task_miniconda, miniconda_install, miniconda_environment, miniconda_activation,
    write_text, append_text.
  frame_body.
Qed.
Lemma plain_git : keeps R (task_git_setup runner options paths).
Proof. unfold task_git_setup. frame_body. Qed.
End PlainBodies.

Lemma keeps_call_plain `{Host} k impl runner options paths arch :
  TASK_IMPLEMENTATIONS !! k = Some impl ->
  keeps (frame false no_invoke) (call_impl impl k runner options paths arch).
Proof.
  intros Hk. unfold call_impl.
  destruct (impl_lookup _ _ Hk) as [[-> ->]|[[-> ->]|[[-> ->]|[[-> ->]|[-> ->]]]]];
    simpl.
  - by apply plain_os.
  - by apply plain_ssh.
  - by apply plain_zsh.
  - by apply plain_conda.
  - by apply plain_git.
Qed.

(** What one step of the loop invokes: nothing, or its own task, and that
    only when the context allows the task. *)
Lemma run_task_invokes `{Host} args context runner options paths arch task completed w :
  exists l,
    trace (run_task args context runner options paths arch task completed w).2
    = trace w ++ l
    /\ (invoked l = []
        \/ (invoked l = [key task] /\ should_skip (key task) context = false)).
Proof.
  unfold run_task. destruct (should_skip (key task) context) eqn:Hs.
  { eexists [_]. split; [reflexivity|]. by left. }
  unfold is_task_marked_complete. rewrite bind_unfold.
  assert (exists marked : bool,
            (if negb (Args.force args) then path_exists (task_marker paths (key task))
             else mret false) w = (Ok marked, w)) as [marked ->].
  { destruct (Args.force args); simpl; eauto. }
  destruct marked.
  { eexists [_]. split; [reflexivity|]. by left. }
  destruct (bool_decide (completed !! key task = Some true) && negb (Args.force args)).
  { eexists [_]. split; [reflexivity|]. by left. }
  destruct (TASK_IMPLEMENTATIONS !! key task) as [impl|] eqn:Hk.
  - rewrite (bind_step _ _ w tt (after_event (running_notice task) w)) by reflexivity.
    rewrite (bind_step _ _ _ tt (after_event (Invoke (key task))
                                   (after_event (running_notice task) w)))
      by reflexivity.
    set (w0 := after_event (Invoke (key task)) (after_event (running_notice task) w)).
    destruct (keeps_call_plain _ _ runner options paths arch Hk w0)
      as [_ (l & Hl & Hq)].
    exists ([running_notice task; Invoke (key task)] ++ l). split.
    + rewrite bind_unfold.
      destruct (call_impl impl (key task) runner options paths arch w0) as [[[]|e] w1];
        simpl in *; rewrite Hl; by rewrite <- !app_assoc.
    + right. simpl. by rewrite (invoked_none l Hq).
  - eexists [_; _]. split; [simpl; by rewrite <- app_assoc|]. by left.
Qed.

(** X18.  Whatever the outcome of the loop, the task bodies that it calls
    are called in the order of the list, each task at most once for each
    time it is listed, and never a task that the context rules skip: the
    keys of the calls form a sublist of the keys of the allowed tasks. *)
Theorem tasks_invoked_in_order `{Host} (args : Args.t) (context : string)
    (runner : CommandRunner.t) (options : ExecutionOptions.t) (paths : PathsConfig)
    (arch : string) (ordered : list TaskDefinition) (completed : gmap string bool)
    (w : World) :
  exists l,
    trace (task_loop args context runner options paths arch ordered completed w).2
    = trace w ++ l
    /\ invoked l `sublist_of` (key <$> allowed context ordered).
Proof.
  revert completed w. induction ordered as [|task rest IH]; intros completed w; simpl.
  { exists []. by rewrite app_nil_r. }
  destruct (run_task_invokes args context runner options paths arch task completed w)
    as (l1 & Hl1 & Hinv).
  assert (invoked l1 ++ (key <$> allowed context rest)
          `sublist_of` (key <$> allowed context (task :: rest))) as Hhead.
  { unfold allowed. rewrite filter_cons.
    destruct Hinv as [-> | [-> Hs]].
    - simpl. destruct (decide _); [|done]. simpl. by apply sublist_cons.
    - rewrite decide_True by done. done. }
  rewrite bind_unfold.
  destruct (run_task args context runner options paths arch task completed w)
    as [[c|e] w1]; simpl in *.
  - destruct (IH c w1) as (l2 & Hl2 & Hsub).
    exists (l1 ++ l2). rewrite Hl2, Hl1, <- app_assoc. split; [done|].
    rewrite invoked_app. etrans; [|exact Hhead]. by apply sublist_app.
  - exists l1. split; [done|]. etrans; [|exact Hhead].
    by apply sublist_inserts_r.
Qed.

(** X19.  With [--force], a loop over tasks of the registry that returns
    has called every task that the context allows, once each and in order,
    and the journal it returns holds each of them as complete. *)
Theorem force_reruns_every_allowed_task `{Host} (args : Args.t) (context : string)
    (runner : CommandRunner.t) (options : ExecutionOptions.t) (paths : PathsConfig)
    (arch : string) (ordered : list TaskDefinition) (completed completed' : gmap string bool)
    (w w' : World) :
  Args.force args = true ->
  Forall (fun t => t ∈ TASKS) ordered ->
  task_loop args context runner options paths arch ordered completed w
  = (Ok completed', w') ->
  (exists l, trace w' = trace w ++ l
             /\ invoked l = key <$> allowed context ordered)
  /\ Forall (fun t => completed' !! key t = Some true) (allowed context ordered).
Proof.
  intros Hf. revert completed w.
  induction ordered as [|task rest IH]; intros completed w Hreg Hloop; simpl in Hloop.
  { injection Hloop as <- <-. split; [|constructor]. exists []. by rewrite app_nil_r. }
  apply Forall_cons in Hreg as [Ht Hreg].
  apply bind_ok in Hloop as (c1 & w1 & Hstep & Hloop).
  pose proof (task_loop_journal _ _ _ _ _ _ _ _ _ _ _ Hloop) as Hle.
  destruct (IH c1 w1 Hreg Hloop) as [(l2 & Hl2 & Hinv2) Hall].
  unfold allowed in *. rewrite filter_cons.
  destruct (should_skip (key task) context) eqn:Hs.
  - rewrite decide_False by done.
    unfold run_task in Hstep. rewrite Hs in Hstep.
    injection Hstep as <- <-. split; [|done].
    eexists (_ :: l2). rewrite Hl2. simpl. rewrite <- app_assoc. done.
  - rewrite decide_True by done.
    destruct (registered_impl task Ht) as [impl Hk].
    rewrite (run_task_forced _ _ _ _ _ _ _ _ impl _ Hs Hf Hk) in Hstep.
    apply bind_ok in Hstep as ([] & w0 & Hcall & Hstep). injection Hstep as <- <-.
    match type of Hcall with
    | call_impl _ _ _ _ _ _ ?wi = _ =>
        destruct (keeps_call_plain _ _ runner options paths arch Hk wi)
          as [_ (l1 & Hl1 & Hq)]
    end.
    rewrite Hcall in Hl1. simpl in Hl1. split.
    + exists ([running_notice task; Invoke (key task)] ++ l1 ++ l2).
      rewrite Hl2, Hl1, <- !app_assoc. split; [done|].
      simpl. by rewrite invoked_app, (invoked_none l1 Hq), Hinv2.
    + constructor; [|done]. destruct (Hle (key task)) as (_ & Hkeep & _).
      apply Hkeep. by rewrite lookup_insert_eq.
Qed.

Lemma force_reruns_every_allowed_task_witness :
  (exists l,
     trace (@task_loop demo (git_args false true) Context.ROOT live_runner live_options
              root_paths "x86_64" [git_task] ∅ marked_world).2
     = trace marked_world ++ l
     /\ invoked l = key <$> allowed Context.ROOT [git_task])
  /\ Forall (fun t => ({[ "git" := true ]} : gmap string bool) !! key t = Some true)
            (allowed Context.ROOT [git_task]).
Proof.
  apply (@force_reruns_every_allowed_task demo (git_args false true) Context.ROOT
           live_runner live_options root_paths "x86_64" [git_task] ∅ _ marked_world);
    [reflexivity|repeat constructor|by vm_compute].
Defined.

(** X20.  Without [--force], a loop over tasks that are all settled (each
    one skipped by the context, marked on disk, or complete in the journal)
    returns after one printed notice for each task: no body is called, no
    file, input or clock changes, the journal is carried on, and every
    allowed task is complete in it. *)
Theorem settled_tasks_are_only_reported `{Host} (args : Args.t) (context : string)
    (runner : CommandRunner.t) (options : ExecutionOptions.t) (paths : PathsConfig)
    (arch : string) (ordered : list TaskDefinition) (completed : gmap string bool)
    (w : World) :
  Args.force args = false ->
  Forall (fun t => should_skip (key t) context = true
                   \/ is_Some (node_at (fs w) (locate (task_marker paths (key t))))
                   \/ completed !! key t = Some true) ordered ->
  exists completed' l,
    task_loop args context runner options paths arch ordered completed w
    = (Ok completed',
       mkWorld (fs w) (stdin w) (clock w) (log_open w) (trace w ++ l))
    /\ Forall silent l
    /\ length l = length ordered
    /\ journal_le completed completed'
    /\ Forall (fun t => completed' !! key t = Some true) (allowed context ordered).
Proof.
  intros Hf. revert completed w.
  induction ordered as [|task rest IH]; intros completed w Hall; simpl.
  { exists completed, []. rewrite app_nil_r. destruct w.
    split; [done|]. split; [done|]. split; [done|]. split; [apply journal_le_refl|].
    constructor. }
  apply Forall_cons in Hall as [Ht Hall].
  assert (exists c1 e,
            run_task args context runner options paths arch task completed w
            = (Ok c1, after_event e w)
            /\ silent e /\ journal_le completed c1
            /\ (should_skip (key task) context = false -> c1 !! key task = Some true))
    as (c1 & e & Hstep & He & Hle & Hdone).
  { destruct (should_skip (key task) context) eqn:Hs.
    { unfold run_task. rewrite Hs. eexists _, _. split; [reflexivity|].
      split; [exact I|]. split; [apply journal_le_refl|done]. }
    destruct (decide (is_Some (node_at (fs w) (locate (task_marker paths (key task))))))
      as [Hm|Hm].
    { rewrite (run_task_marked _ _ _ _ _ _ _ _ _ Hs Hf Hm).
      eexists _, _. split; [reflexivity|]. split; [exact I|].
      split; [apply journal_le_insert|]. intros _. by rewrite lookup_insert_eq. }
    destruct Ht as [Ht|[Ht|Hj]]; [congruence|done|].
    rewrite (run_task_journalled _ _ _ _ _ _ _ _ _ Hs Hf Hm Hj).
    eexists _, _. split; [reflexivity|]. split; [exact I|].
    split; [apply journal_le_refl|done]. }
  rewrite (bind_step _ _ _ _ _ Hstep).
  destruct (IH c1 (after_event e w)) as (c2 & l & Hloop & Hl & Hlen & Hle2 & Hall2).
  { eapply Forall_impl; [exact Hall|]. intros t [Hs|[Hm|Hj]]; simpl in *; auto.
    right. right. destruct (Hle (key t)) as (_ & Hkeep & _). by apply Hkeep. }
  exists c2, (e :: l). rewrite Hloop. simpl. rewrite <- app_assoc.
  split; [done|]. split; [by constructor|]. split; [by rewrite Hlen|].
  split; [by eapply journal_le_trans|].
  unfold allowed in *. rewrite filter_cons. destruct (decide _) as [Hs|Hs]; [|done].
  constructor; [|done]. destruct (Hle2 (key task)) as (_ & Hkeep & _).
  by apply Hkeep, Hdone.
Qed.

Lemma settled_tasks_are_only_reported_witness :
  exists completed' l,
    @task_loop demo (git_args false false) Context.ROOT dry_runner (dry_options false)
      root_paths "x86_64" [git_task] ∅ marked_world
    = (Ok completed',
       mkWorld (fs marked_world) (stdin marked_world) (clock marked_world)
         (log_open marked_world) (trace marked_world ++ l))
    /\ Forall silent l
    /\ length l = length [git_task]
    /\ journal_le ∅ completed'
    /\ Forall (fun t => completed' !! key t = Some true) (allowed Context.ROOT [git_task]).
Proof.
  apply (@settled_tasks_are_only_reported demo); [reflexivity|].
  constructor; [|constructor]. right. left. vm_compute. eauto.
Defined.

Lemma conda_never_skipped context : should_skip "conda" context = false.
Proof.
  unfold should_skip. rewrite !(bool_decide_eq_false_2 ("conda" = _)) by done.
  by rewrite !andb_false_r.
Qed.

(** X10.  On a platform for which the Miniconda task knows no installer
    (and where conda is not installed yet), the forced task only prints its
    banner and the reason: no command is logged or spawned and no marker is
    written; yet the loop enters the task in the journal as complete. *)
Theorem unsupported_miniconda_is_journalled `{Host} (args : Args.t) (context : string)
    (runner : CommandRunner.t) (options : ExecutionOptions.t) (paths : PathsConfig)
    (arch : string) (completed : gmap string bool) (w : World) (message : string) :
  miniconda_installer_url platform_system arch = inr message ->
  ~ is_Some (node_at (fs w)
               (locate (home_dir paths // "toolchain" // "miniconda3" // "bin" // "conda"))) ->
  Args.force args = true ->
  run_task args context runner options paths arch (task_at 3) completed w
  = (Ok (<["conda" := true]> completed),
     mkWorld (fs w) (stdin w) (clock w) (log_open w)
       (trace w ++ [running_notice (task_at 3); Invoke "conda";
                    Print (Py.nl +:+ "[Miniconda] Checking/installing under "
                             +:+ "~/toolchain/miniconda3.");
                    Print message])).
Proof.
  intros Hurl Hbin Hf.
  rewrite (run_task_forced args context runner options paths arch (task_at 3) completed
             (Impl4 task_miniconda) w (conda_never_skipped context) Hf eq_refl).
  set (w0 := after_event (Invoke (key (task_at 3))) (after_event (running_notice (task_at 3)) w)).
  assert (task_miniconda runner options paths arch w0
          = (Ok tt,
             after_event (Print message)
               (after_event (Print (Py.nl +:+ "[Miniconda] Checking/installing under "
                                      +:+ "~/toolchain/miniconda3.")) w0))) as Hbody.
  { unfold task_miniconda. cbv zeta.
    rewrite (bind_step (print _) _ w0 tt (after_event (Print _) w0) eq_refl).
    match goal with |- (_ ≫= _) ?w1 = _ =>
      assert (miniconda_install runner options paths arch w1
              = (Ok false, after_event (Print message) w1)) as Hinst
    end.
    { unfold miniconda_install. cbv zeta.
      rewrite (bind_step _ _ _ _ _ (path_exists_eq _ _)).
      change (fs (after_event _ w0)) with (fs w).
      rewrite (bool_decide_eq_false_2 _ Hbin), Hurl. reflexivity. }
    rewrite (bind_step _ _ _ _ _ Hinst). reflexivity. }
  unfold call_impl. change (bool_decide (key (task_at 3) = "conda")) with true. cbv iota.
  rewrite (bind_step _ _ _ _ _ Hbody). unfold after_event, w0. simpl.
  by rewrite <- !app_assoc.
Qed.

Lemma unsupported_miniconda_is_journalled_witness :
  @run_task demo (git_args false true) Context.ROOT live_runner
    (ExecutionOptions.mk false false true true) root_paths "riscv64" (task_at 3) ∅
    marked_world
  = (Ok (<["conda" := true]> ∅),
     mkWorld (fs marked_world) (stdin marked_world) (clock marked_world)
       (log_open marked_world)
       (trace marked_world
        ++ [running_notice (task_at 3); Invoke "conda";
            Print (Py.nl +:+ "[Miniconda] Checking/installing under "
                     +:+ "~/toolchain/miniconda3.");
            Print "Unsupported architecture 'riscv64' for Miniconda on Linux."])).
Proof.
  apply (@unsupported_miniconda_is_journalled demo); [reflexivity| |reflexivity].
  vm_compute. by intros [? [=]].
Defined.

(** ** The commands of the task bodies *)

Lemma spawns_bind {A B} c1 c2 (m : M A) (f : A -> M B) :
  spawns c1 m -> (forall a, spawns c2 (f a)) -> spawns (c1 ++ c2) (m ≫= f).
Proof.
  intros Hm Hf w. rewrite bind_unfold.
  destruct (Hm w) as (l1 & Hl1 & Hp1 & He1).
  destruct (m w) as [[a|e] w1]; simpl in *.
  - destruct (Hf a w1) as (l2 & Hl2 & Hp2 & He2).
    exists (l1 ++ l2). rewrite Hl2, Hl1, <- app_assoc, spawned_app, (He1 a eq_refl).
    split; [done|]. split; [by apply prefix_app|].
    intros b Hb. by rewrite (He2 b Hb).
  - exists l1. split; [done|]. split; [|done].
    by apply prefix_app_r.
Qed.

Lemma spawns_quiet {A} (m : M A) : keeps (frame false no_spawn) m -> spawns [] m.
Proof.
  intros Hm w. destruct (Hm w) as [_ (l & Hl & Hq)].
  exists l. rewrite (spawned_quiet l Hq). done.
Qed.

Lemma spawns_seq {A B} c (m : M A) (f : A -> M B) :
  spawns [] m -> (forall a, spawns c (f a)) -> spawns c (m ≫= f).
Proof. intros Hm Hf. by apply (spawns_bind [] c). Qed.

Lemma spawns_then {A B} c (m : M A) (f : A -> M B) :
  spawns c m -> (forall a, spawns [] (f a)) -> spawns c (m ≫= f).
Proof.
  intros Hm Hf. rewrite <- (app_nil_r c). by apply spawns_bind.
Qed.

Lemma spawns_ret_bind {A B} c (a : A) (f : A -> M B) :
  spawns c (f a) -> spawns c (mret a ≫= f).
Proof. intros Hf w. exact (Hf w). Qed.

Lemma spawns_run_live `{Host} self command :
  CommandRunner.dry_run self = false ->
  spawns [command] (CommandRunner.run_ self command false).
Proof.
  intros Hd w. unfold CommandRunner.run_, CommandRunner.run.
  rewrite bind_unfold. simpl.
  set (w1 := mkWorld (fs w) (stdin w) (S (clock w)) (log_open w) (trace w)).
  rewrite bind_unfold. simpl.
  destruct (log_open w) eqn:Ho.
  2:{ exists []. rewrite bind_unfold. unfold CommandRunner._write at 1. simpl.
      rewrite app_nil_r. split; [done|].
      split; [apply prefix_nil|done]. }
  assert (forall text w0, log_open w0 = true ->
            CommandRunner._write text w0 = (Ok tt, after_event (LogWrite text) w0)) as Hwr
    by (intros; by apply write_open).
  rewrite bind_unfold, (Hwr _ w1) by done.
  rewrite bind_unfold, Hwr by done.
  rewrite Hd.
  match goal with
  | |- context [(CommandRunner.spawn ?c ?d ?e ≫= ?g) ?w0] =>
      destruct (spawn_then_quiet c d e g w0) as (l & Hl & Hq)
  end.
  { intros p. pose proof keeps_write. frame_auto. }
  rewrite Hl. simpl. eexists. rewrite <- !app_assoc. split; [reflexivity|].
  simpl. rewrite (spawned_quiet l Hq). done.
Qed.

(** X23.  Under auto-confirm and with a live runner, the Git task spawns
    the [git config --global] calls for the non-empty values of
    [GIT_AUTHOR_NAME] and [GIT_AUTHOR_EMAIL], in this order, and nothing
    else: all of them when it returns, the first of them when it raises. *)
Theorem git_task_commands `{Host} (runner : CommandRunner.t)
    (options : ExecutionOptions.t) (paths : PathsConfig) (w : World) :
  ExecutionOptions.auto_confirm options = true ->
  CommandRunner.dry_run runner = false ->
  exists l,
    trace (task_git_setup runner options paths w).2 = trace w ++ l
    /\ spawned l `prefix_of` git_commands
    /\ ((task_git_setup runner options paths w).1 = Ok tt -> spawned l = git_commands).
Proof.
  intros Hauto Hd.
  assert (spawns git_commands (task_git_setup runner options paths)) as Hs.
  { unfold task_git_setup, git_commands. rewrite Hauto. cbv zeta.
    apply spawns_seq; [apply spawns_quiet; frame_auto|intros _].
    apply spawns_ret_bind. cbn [fst snd].
    apply spawns_bind.
    - unfold when. destruct (bool_decide _); cbn [negb]; cbv iota.
      + apply spawns_quiet. frame_auto.
      + apply spawns_then; [by apply spawns_run_live|intros ?].
        apply spawns_quiet. frame_auto.
    - intros _. apply spawns_then.
      + unfold when. destruct (bool_decide _); cbn [negb]; cbv iota.
        * apply spawns_quiet. frame_auto.
        * apply spawns_then; [by apply spawns_run_live|intros ?].
          apply spawns_quiet. frame_auto.
      + intros _. apply spawns_quiet. apply keeps_mark; done. }
  destruct (Hs w) as (l & Hl & Hp & He). exists l. split; [done|]. split; [done|].
  intros Hok. by apply (He tt).
Qed.

Lemma git_task_commands_witness :
  exists l,
    trace (@task_git_setup git_env_host live_runner live_options root_paths marked_world).2
    = trace marked_world ++ l
    /\ spawned l `prefix_of` @git_commands git_env_host
    /\ ((@task_git_setup git_env_host live_runner live_options root_paths marked_world).1
        = Ok tt -> spawned l = @git_commands git_env_host).
Proof.
  apply (@git_task_commands git_env_host live_runner live_options root_paths marked_world);
    reflexivity.
Defined.

Example git_task_runs_both :
  (@task_git_setup git_env_host live_runner live_options root_paths marked_world).1 = Ok tt
  /\ spawned (trace (@task_git_setup git_env_host live_runner live_options root_paths
                       marked_world).2)
     = [ ["git"; "config"; "--global"; "user.name"; "Ada"];
         ["git"; "config"; "--global"; "user.email"; "ada@example.org"] ].
Proof. split; by vm_compute. Qed.

(** X24.  With a live runner the SSH task spawns [chmod 700] on the
    directory of the authorised keys and then [chmod 600] on the file, and
    no other command, whatever it downloads or appends: both when it
    returns, the first of them when it raises. *)
Theorem ssh_task_commands `{Host} (runner : CommandRunner.t)
    (options : ExecutionOptions.t) (paths : PathsConfig) (w : World) :
  CommandRunner.dry_run runner = false ->
  exists l,
    trace (task_ssh_setup runner options paths w).2 = trace w ++ l
    /\ spawned l `prefix_of` ssh_commands paths
    /\ ((task_ssh_setup runner options paths w).1 = Ok tt -> spawned l = ssh_commands paths).
Proof.
  intros Hd.
  assert (spawns (ssh_commands paths) (task_ssh_setup runner options paths)) as Hs.
  { pose proof (keeps_mark false no_spawn) as Hmark.
    pose proof (keeps_mkdir false no_spawn) as Hmkdir.
    pose proof (keeps_touch false no_spawn) as Htouch.
    pose proof (keeps_write_file false no_spawn) as Hwrite.
    unfold task_ssh_setup, ssh_commands, append_text. cbv zeta.
    apply spawns_seq; [apply spawns_quiet; frame_auto|intros _].
    apply spawns_seq; [apply spawns_quiet; frame_auto|intros _].
    apply (spawns_bind [_] [_]); [by apply spawns_run_live|intros _].
    apply spawns_then; [by apply spawns_run_live|intros _].
    apply spawns_quiet. frame_auto. }
  destruct (Hs w) as (l & Hl & Hp & He). exists l. split; [done|]. split; [done|].
  intros Hok. by apply (He tt).
Qed.

Lemma ssh_task_commands_witness :
  exists l,
    trace (@task_ssh_setup demo live_runner live_options root_paths marked_world).2
    = trace marked_world ++ l
    /\ spawned l `prefix_of` ssh_commands root_paths
    /\ ((@task_ssh_setup demo live_runner live_options root_paths marked_world).1 = Ok tt ->
        spawned l = ssh_commands root_paths).
Proof.
  apply (@ssh_task_commands demo live_runner live_options root_paths marked_world).
  reflexivity.
Defined.

(** X25.  A runner that was refused the sudo permission never spawns a
    command for the OS task: the hostname and the user accounts can only be
    changed with the permission. *)
Theorem os_task_needs_sudo `{Host} (runner : CommandRunner.t)
    (options : ExecutionOptions.t) (paths : PathsConfig) (w : World) :
  CommandRunner.sudo_allowed runner = false ->
  exists l,
    trace (task_os_settings runner options paths w).2 = trace w ++ l
    /\ Forall no_spawn l.
Proof.
  intros Hs.
  pose proof (fun command cwd env check =>
                keeps_run_refused false no_spawn runner command cwd env check Hs) as Hrun.
  pose proof (keeps_mark false no_spawn) as Hmark.
  assert (keeps (frame false no_spawn) (task_os_settings runner options paths)) as Hk.
  { unfold task_os_settings. unfold CommandRunner.run_. frame_auto. }
  by destruct (Hk w) as [_ Hl].
Qed.

Lemma os_task_needs_sudo_witness :
  exists l,
    trace (@task_os_settings demo plain_runner live_options root_paths marked_world).2
    = trace marked_world ++ l
    /\ Forall no_spawn l.
Proof.
  apply (@os_task_needs_sudo demo plain_runner live_options root_paths marked_world).
  reflexivity.
Defined.

(** X26.  Without the sudo permission the zsh task fails at its first
    command, in a dry run too: it prints its banner and raises
    [RuntimeError], before anything is logged, spawned or written. *)
Theorem zsh_task_needs_sudo `{Host} (runner : CommandRunner.t)
    (options : ExecutionOptions.t) (paths : PathsConfig) (w : World) :
  CommandRunner.sudo_allowed runner = false ->
  task_custom_zsh runner options paths w
  = (Raise (RuntimeError "Attempted to use sudo without permission"),
     mkWorld (fs w) (stdin w) (S (clock w)) (log_open w)
       (trace w ++ [Print (Py.nl +:+ "[Customized zsh] Installing zsh and plugins "
                             +:+ "(logged only by default).")])).
Proof.
  intros Hs. unfold task_custom_zsh. cbv zeta.
  rewrite (bind_step (print _) _ w tt (after_event (Print _) w) eq_refl).
  apply bind_raise. unfold zsh_commands. cbv zeta. cbn [for_each fst snd].
  apply bind_raise. apply bind_raise. unfold CommandRunner.run_.
  by rewrite (run_refused _ _ _ _ _ _ Hs).
Qed.

Lemma zsh_task_needs_sudo_witness :
  @task_custom_zsh demo dry_runner (dry_options false) root_paths marked_world
  = (Raise (RuntimeError "Attempted to use sudo without permission"),
     mkWorld (fs marked_world) (stdin marked_world) (S (clock marked_world))
       (log_open marked_world)
       (trace marked_world
        ++ [Print (Py.nl +:+ "[Customized zsh] Installing zsh and plugins "
                     +:+ "(logged only by default).")])).
Proof. apply (@zsh_task_needs_sudo demo). reflexivity. Defined.

(** ** A whole run without [--force] *)

Section SetupFrames.
Context `{Host} (P : Event -> Prop).
Hypothesis P_print : forall s, P (Print s).
Hypothesis P_prompt : forall s, P (Prompt s).
Hypothesis P_menu : forall s, P (Menu s).
Local Hint Resolve keeps_mkdir keeps_touch keeps_write_file : frame.
Local Hint Extern 0 (P (Print _)) => apply P_print : frame.
Local Hint Extern 0 (P (Prompt _)) => apply P_prompt : frame.
Local Hint Extern 0 (P (Menu _)) => apply P_menu : frame.

Lemma keeps_main_setup args : keeps (frame false P) (main_setup args).
Proof.
  unfold main_setup, load_state, resolve_context, resolve_tasks, _run_menu,
    _run_multi_menu, ensure_command_execution_safety, confirm_paths, confirm_paths_ask,
    prepare_logger, CommandRunner.init, append_text.
  frame_auto.
Qed.

Lemma keeps_save_state p state : keeps (frame false P) (save_state p state).
Proof. unfold save_state, write_text. frame_auto. Qed.
End SetupFrames.

Lemma frame_weaken k P w w' : frame true P w w' -> frame k P w w'.
Proof. intros [Hfs Htr]. split; [auto|done]. Qed.

Lemma keeps_main_run_dry `{Host} args s :
  ExecutionOptions.dry_run (s_options s) = true ->
  CommandRunner.dry_run (s_runner s) = true ->
  keeps (frame false no_spawn) (main_run args s).
Proof.
  intros Hd Hr. unfold main_run.
  assert (keeps (frame false no_spawn)
            (task_loop args (s_context s) (s_runner s) (s_options s) (s_paths s)
               detect_arch (s_ordered s) (s_state s))) as Hloop.
  { intros w. apply frame_weaken. destruct (s_options s) as [[] sa fo ac]; [|done].
    by apply keeps_task_loop_dry. }
  pose proof (keeps_save_state no_spawn) as Hsave.
  unfold CommandRunner.close. frame_auto.
Qed.

(** X21.  A run of [main] without [--force] never spawns a process,
    whatever the other arguments, the answers of the operator and the
    outcome of the run. *)
Theorem no_force_no_command `{Host} (args : Args.t) (w : World) :
  Args.force args = false ->
  exists l, trace (main args w).2 = trace w ++ l /\ Forall no_spawn l.
Proof.
  intros Hf. unfold main. rewrite bind_unfold.
  destruct (keeps_main_setup no_spawn (fun _ => I) (fun _ => I) (fun _ => I) args w)
    as [_ (l1 & Hl1 & Hq1)].
  destruct (main_setup args w) as [[s|e] w1] eqn:Hs; simpl in Hl1; [|by exists l1].
  destruct (main_setup_flags _ _ _ _ Hs) as (Hd & _ & Hr & _).
  rewrite Hf, orb_true_r in Hd. rewrite Hd in Hr.
  destruct (keeps_main_run_dry args s Hd Hr w1) as [_ (l2 & Hl2 & Hq2)].
  exists (l1 ++ l2). rewrite Hl2, Hl1, <- app_assoc. split; [done|].
  by apply Forall_app.
Qed.

Lemma no_force_no_command_witness :
  exists l, trace (@main demo (git_args false false) (world0 ∅ [])).2
            = trace (world0 ∅ []) ++ l
            /\ Forall no_spawn l.
Proof. apply (@no_force_no_command demo (git_args false false) (world0 ∅ [])). reflexivity. Defined.

Lemma write_file_elsewhere `{Host} a p text w q :
  q <> locate p -> fs (write_file a p text w).2 !! q = fs w !! q.
Proof.
  intros Hq. unfold write_file. rewrite bind_unfold. simpl.
  destruct (node_at (fs w) (locate p)) as [[|c]|]; simpl; [done| |].
  - by rewrite lookup_insert_ne.
  - destruct (parent_is_dir (fs w) (locate p)); simpl; [|done].
    by rewrite lookup_insert_ne.
Qed.

(** X22.  From the loop on, a dry run changes no entry of the file system
    other than the journal file, whether it ends normally or with an
    exception, and it leaves the command log closed.  (The lines of the log
    are events of the trace, not file contents.) *)
Theorem dry_run_writes_only_journal `{Host} (args : Args.t) (s : Setup) (w : World) :
  ExecutionOptions.dry_run (s_options s) = true ->
  CommandRunner.dry_run (s_runner s) = true ->
  (forall q, q <> locate (default (s_state_path s) (Args.write_state args)) ->
             fs (main_run args s w).2 !! q = fs w !! q)
  /\ log_open (main_run args s w).2 = false.
Proof.
  intros Hd Hr. unfold main_run. rewrite bind_unfold.
  pose proof (keeps_task_loop_dry args (s_context s) (s_runner s) (s_paths s) detect_arch
                (ExecutionOptions.sudo_allowed (s_options s))
                (ExecutionOptions.force (s_options s))
                (ExecutionOptions.auto_confirm (s_options s))
                (s_ordered s) (s_state s) Hr w) as [Hfs _].
  specialize (Hfs eq_refl).
  assert (ExecutionOptions.mk true (ExecutionOptions.sudo_allowed (s_options s))
            (ExecutionOptions.force (s_options s))
            (ExecutionOptions.auto_confirm (s_options s)) = s_options s) as Heq.
  { destruct (s_options s); simpl in *. by subst. }
  rewrite Heq in Hfs.
  unfold try_finally, CommandRunner.close, set_log_open.
  destruct (task_loop args (s_context s) (s_runner s) (s_options s) (s_paths s)
              detect_arch (s_ordered s) (s_state s) w) as [[completed|e] w1];
    simpl in *; [|by rewrite Hfs].
  rewrite bind_unfold. unfold save_state, write_text.
  set (w2 := mkWorld (fs w1) (stdin w1) (clock w1) false (trace w1)).
  pose proof (write_file_elsewhere false
                (default (s_state_path s) (Args.write_state args))
                (json_dumps completed) w2) as Hw.
  assert (log_open (write_file false (default (s_state_path s) (Args.write_state args))
                      (json_dumps completed) w2).2 = false) as Hlog.
  { unfold write_file. rewrite bind_unfold. simpl.
    destruct (node_at (fs w1) _) as [[|c]|]; simpl; [done|done|].
    by destruct (parent_is_dir (fs w1) _). }
  destruct (write_file false (default (s_state_path s) (Args.write_state args))
              (json_dumps completed) w2) as [[[]|e] w3]; simpl in *.
  2:{ split; [|done]. intros q Hq. by rewrite (Hw q Hq), Hfs. }
  rewrite bind_unfold. unfold lift at 1.
  destruct (map_r _ (s_selected s)) as [requested|e]; simpl.
  2:{ split; [|done]. intros q Hq. by rewrite (Hw q Hq), Hfs. }
  rewrite !bind_unfold. simpl. rewrite Hd. simpl.
  split; [|done]. intros q Hq. by rewrite (Hw q Hq), Hfs.
Qed.

Lemma dry_run_writes_only_journal_witness :
  (forall q,
     q <> @locate demo (default (s_state_path dry_setup)
                                (Args.write_state (git_args true false))) ->
     fs (@main_run demo (git_args true false) dry_setup marked_world).2 !! q
     = fs marked_world !! q)
  /\ log_open (@main_run demo (git_args true false) dry_setup marked_world).2 = false.
Proof.
  apply (@dry_run_writes_only_journal demo (git_args true false) dry_setup marked_world);
    reflexivity.
Defined.
